(** * LLM-Lens: proxy-and-metrics pipeline of [main.py]

    A shallow embedding of the request proxy, the streaming relay, the
    performance score, the alert-rule evaluator and the latency percentiles
    of [main.py], over the table classes of [database.py].

    Python [float] is IEEE-754 binary64 and is modelled by Rocq's primitive
    [float]; Python [int] is [Z]; Python [str] is [string], each character
    standing for one code point below 256. *)

From Stdlib Require Import ZArith List Bool Lia Floats Ascii String Sorted Permutation.
From stdpp Require Import gmap strings pretty.

Set Warnings "-inexact-float".
Local Open Scope Z_scope.

(** ** Python numbers *)

Module Py.

(** [float(n)] for a Python int: the nearest binary64, ties to even.
    CPython raises [OverflowError] beyond the binary64 range, where this
    definition yields an infinity; every int converted by [main.py] (a list
    length, a token count, a span in milliseconds or microseconds) is far
    below it. *)
Definition float_of_int (z : Z) : float :=
  if Z.abs z <? 2 ^ 63 then
    match z with
    | Z0 => 0%float
    | Zpos _ => of_uint63 (Uint63.of_Z z)
    | Zneg p => (- of_uint63 (Uint63.of_Z (Zpos p)))%float
    end
  else SF2Prim (binary_normalize prec emax z 0 false).

(** The nearest binary64 to the fraction [±num/den]. *)
Definition nearest_float (s : bool) (num den : positive) : float :=
  SF2Prim (SFdiv prec emax (S754_finite s num 0) (S754_finite false den 0)).

(** [a / b] on two ints (true division) with [b > 0]: the correctly rounded
    quotient.  When both operands fit in 53 bits CPython converts them and
    divides, which is the first branch. *)
Definition int_truediv (a : Z) (b : positive) : float :=
  if (Z.abs a <=? 2 ^ 53) && (Zpos b <=? 2 ^ 53) then
    (float_of_int a / float_of_int (Zpos b))%float
  else
    match a with
    | Z0 => 0%float
    | Zpos p => nearest_float false p b
    | Zneg p => nearest_float true p b
    end.

(** [int(x)] on a float: truncation towards zero; [None] stands for the
    [OverflowError] / [ValueError] raised on an infinity or a NaN. *)
Definition int_of_float (x : float) : option Z :=
  match Prim2SF x with
  | S754_zero _ => Some 0
  | S754_finite s m e => Some (cond_Zopp s (Z.shiftl (Zpos m) e))
  | S754_infinity _ | S754_nan => None
  end.

(** [int(x)] where [x] is known to be finite (a time span in seconds times
    1000). *)
Definition trunc (x : float) : Z := default 0 (int_of_float x).

(** Nearest integer to [num/den] ([den > 0], [num >= 0]), ties to even. *)
Definition round_half_even (num den : Z) : Z :=
  let q := num / den in
  match (2 * (num mod den)) ?= den with
  | Lt => q
  | Gt => q + 1
  | Eq => if Z.even q then q else q + 1
  end.

(** [round(x, ndigits)] on a float, [ndigits >= 0]: the exact binary value
    of [x] is rounded half-even to [ndigits] decimals and the nearest
    binary64 to that decimal is returned (CPython's dtoa/strtod round). *)
Definition round (x : float) (ndigits : Z) : float :=
  match Prim2SF x with
  | S754_finite s m e =>
      let scale := 10 ^ ndigits in
      let n := if 0 <=? e then Zpos m * 2 ^ e * scale
               else round_half_even (Zpos m * scale) (2 ^ (- e)) in
      match n with
      | Zpos p => nearest_float s p (Z.to_pos scale)
      | _ => if s then PrimFloat.neg_zero else 0%float
      end
  | _ => x
  end.

(** [max(0, x)] and [min(100, y)] with the int literal first: Python keeps
    the first argument unless the second compares strictly beyond it, so a
    NaN never replaces the literal. *)
Definition max0 (x : float) : float := if (0 <? x)%float then x else 0%float.
Definition min100 (y : float) : float := if (y <? 100)%float then y else 100%float.

(** Truth value of a float: false exactly for [0.0] and [-0.0]. *)
Definition truthy (x : float) : bool := negb (x =? 0)%float.

End Py.

(** ** Metrics calculator *)

(** [calculate_performance_score(latency_ms, tokens_per_second, error_occurred)] *)
Definition calculate_performance_score
    (latency_ms : Z) (tokens_per_second : float) (error_occurred : bool) : float :=
  if error_occurred then 0%float
  else
    let latency_score := Py.max0 (100 - Py.int_truediv latency_ms 20)%float in
    let throughput_score :=
      Py.min100 ((if Py.truthy tokens_per_second then tokens_per_second else 0) * 5)%float in
    Py.round (latency_score * 0.6 + throughput_score * 0.4)%float 2.

(** ** Python strings *)

Module Str.

(** [str.isspace] on one code point below 256. *)
Definition is_space (c : ascii) : bool :=
  let n := Z.of_N (N_of_ascii c) in
  ((9 <=? n) && (n <=? 13)) || ((28 <=? n) && (n <=? 32)) || (n =? 133) || (n =? 160).

Fixpoint lstrip (s : string) : string :=
  match s with
  | String c s' => if is_space c then lstrip s' else s
  | EmptyString => EmptyString
  end.

Fixpoint rev_onto (s acc : string) : string :=
  match s with
  | String c s' => rev_onto s' (String c acc)
  | EmptyString => acc
  end.

Definition rev (s : string) : string := rev_onto s EmptyString.

(** [s.strip()] *)
Definition strip (s : string) : string := rev (lstrip (rev (lstrip s))).

(** Truth value of a string: false exactly for the empty string. *)
Definition truthy (s : string) : bool :=
  match s with EmptyString => false | String _ _ => true end.

(** [s.split()]: the maximal runs of non-whitespace characters, in order.
    [cur] is the run being read. *)
Fixpoint split_from (cur s : string) : list string :=
  match s with
  | EmptyString => if truthy cur then cur :: nil else nil
  | String c s' =>
      if is_space c then
        (if truthy cur then cur :: split_from EmptyString s' else split_from EmptyString s')
      else split_from (cur +:+ String c EmptyString) s'
  end.

Definition split (s : string) : list string := split_from EmptyString s.

(** [sep.join(l)] *)
Fixpoint join (sep : string) (l : list string) : string :=
  match l with
  | nil => EmptyString
  | x :: nil => x
  | x :: rest => x +:+ sep +:+ join sep rest
  end.

(** [c.lower()] on one code point below 256. *)
Definition lower_char (c : ascii) : ascii :=
  let n := Z.of_N (N_of_ascii c) in
  if ((65 <=? n) && (n <=? 90)) || ((192 <=? n) && (n <=? 222) && negb (n =? 215))
  then ascii_of_N (Z.to_N (n + 32)) else c.

Fixpoint lower (s : string) : string :=
  match s with
  | EmptyString => EmptyString
  | String c s' => String (lower_char c) (lower s')
  end.

(** [needle in hay] *)
Fixpoint contains (needle hay : string) : bool :=
  String.prefix needle hay ||
  match hay with
  | EmptyString => false
  | String _ hay' => contains needle hay'
  end.

(** [str(n)] on an int *)
Definition of_int (n : Z) : string := pretty n.

Fixpoint zeros (n : nat) : string :=
  match n with O => EmptyString | S n' => String "0" (zeros n') end.

End Str.

(** ** [repr] of a float

    CPython prints a float with the fewest significant digits that read back
    as the same binary64, taking the digit string nearest to the exact value
    when several of that length do, in fixed notation when the decimal point
    position lies in [-3, 16] and in exponent notation otherwise. *)

Module Repr.

(** [num/den < 10^p] *)
Definition lt_pow10 (num den p : Z) : bool :=
  if 0 <=? p then num <? den * 10 ^ p else num * 10 ^ (- p) <? den.

(** Least [p' >= p] with [num/den < 10^p'], searching [fuel] values. *)
Fixpoint find_decpt (fuel : nat) (num den p : Z) : Z :=
  match fuel with
  | O => p
  | S fuel' => if lt_pow10 num den p then p else find_decpt fuel' num den (p + 1)
  end.

(** Does the decimal [d * 10^q] read back as [x]? *)
Definition roundtrips (x : float) (d q : Z) : bool :=
  match d with
  | Zpos dp =>
      let f := if 0 <=? q then Py.nearest_float false (Z.to_pos (d * 10 ^ q)) 1
               else Py.nearest_float false dp (Z.to_pos (10 ^ (- q))) in
      (f =? x)%float
  | _ => false
  end.

(** The [k]-digit decimals next to [x = num/den], nearest first, that read
    back as [x]; [p] is the decimal point position of [x]. *)
Definition shortest_try (x : float) (num den p k : Z) : option Z :=
  let q := p - k in
  let N := if 0 <=? q then num else num * 10 ^ (- q) in
  let D := if 0 <=? q then den * 10 ^ q else den in
  let lo := N / D in
  let r := N mod D in
  if r =? 0 then (if roundtrips x lo q then Some lo else None)
  else
    let hi := lo + 1 in
    let prefer_hi := match 2 * r ?= D with Gt => true | Lt => false | Eq => Z.odd lo end in
    let a := if prefer_hi then hi else lo in
    let b := if prefer_hi then lo else hi in
    if roundtrips x a q then Some a
    else if roundtrips x b q then Some b else None.

Fixpoint shortest (fuel : nat) (x : float) (num den p k : Z) : Z * Z :=
  match fuel with
  | O => (0, 0)
  | S fuel' =>
      match shortest_try x num den p k with
      | Some d => (d, p - k)
      | None => shortest fuel' x num den p (k + 1)
      end
  end.

Fixpoint strip_zeros (fuel : nat) (d q : Z) : Z * Z :=
  match fuel with
  | O => (d, q)
  | S fuel' => if (d mod 10 =? 0) && (0 <? d) then strip_zeros fuel' (d / 10) (q + 1) else (d, q)
  end.

Definition string_take (n : nat) (s : string) : string := String.substring 0 n s.
Definition string_drop (n : nat) (s : string) : string := String.substring n (String.length s - n) s.

(** Layout of the digit string [ds] with decimal point position [decpt]
    (the value is [0.ds * 10^decpt]). *)
Definition layout (ds : string) (decpt : Z) : string :=
  let n := Z.of_nat (String.length ds) in
  if (-4 <? decpt) && (decpt <=? 16) then
    if decpt <=? 0 then "0." +:+ Str.zeros (Z.to_nat (- decpt)) +:+ ds
    else if n <=? decpt then ds +:+ Str.zeros (Z.to_nat (decpt - n)) +:+ ".0"
    else string_take (Z.to_nat decpt) ds +:+ "." +:+ string_drop (Z.to_nat decpt) ds
  else
    let ex := decpt - 1 in
    let mant := if n <=? 1 then ds else string_take 1 ds +:+ "." +:+ string_drop 1 ds in
    let exs := Str.of_int (Z.abs ex) in
    mant +:+ "e" +:+ (if ex <? 0 then "-" else "+")
         +:+ (if Z.abs ex <? 10 then "0" else "") +:+ exs.

(** [repr(x)], which is also [str(x)] and what an f-string field prints. *)
Definition float_repr (x : float) : string :=
  match Prim2SF x with
  | S754_nan => "nan"
  | S754_infinity s => if s then "-inf" else "inf"
  | S754_zero s => if s then "-0.0" else "0.0"
  | S754_finite s m e =>
      let num := if 0 <=? e then Zpos m * 2 ^ e else Zpos m in
      let den := if 0 <=? e then 1 else 2 ^ (- e) in
      let p := find_decpt 640 num den (-324) in
      let '(d0, q0) := shortest 17 (abs x) num den p 1 in
      let '(d, q) := strip_zeros 20 d0 q0 in
      let ds := Str.of_int d in
      (if s then "-" else "") +:+ layout ds (Z.of_nat (String.length ds) + q)
  end.

End Repr.

(** ** [json.dumps] of the error payload *)

Module Json.

(** The double-quote character, code point 34. *)
Definition dquote : string := String (ascii_of_N 34) EmptyString.

Definition hex_digit (n : Z) : ascii :=
  ascii_of_N (Z.to_N (if n <? 10 then 48 + n else 87 + n)).

(** One character of a JSON string under [ensure_ascii]: the short escapes,
    and a four-digit unicode escape for every other code point outside the
    printable ASCII range 32..126. *)
Definition escape_char (c : ascii) : string :=
  let n := Z.of_N (N_of_ascii c) in
  if n =? 34 then "\" +:+ dquote
  else if n =? 92 then "\\"
  else if n =? 10 then "\n"
  else if n =? 13 then "\r"
  else if n =? 9 then "\t"
  else if n =? 8 then "\b"
  else if n =? 12 then "\f"
  else if (32 <=? n) && (n <=? 126) then String c EmptyString
  else "\u00" +:+ String (hex_digit (n / 16)) (String (hex_digit (n mod 16)) EmptyString).

Fixpoint escape (s : string) : string :=
  match s with
  | EmptyString => EmptyString
  | String c s' => escape_char c +:+ escape s'
  end.

(** [json.dumps({'error': msg})] *)
Definition dumps_error (msg : string) : string :=
  "{" +:+ dquote +:+ "error" +:+ dquote +:+ ": " +:+ dquote +:+ escape msg +:+ dquote +:+ "}".

End Json.

(** ** Data model ([database.py]) *)

(** A JSON scalar; [SNone] is Python's [None] (JSON null, or what [dict.get]
    returns for a missing key). *)
Inductive Scalar :=
| SNone
| SBool (b : bool)
| SInt (n : Z)
| SFloat (x : float)
| SStr (s : string).

(** Row of [llm_request_logs].  Times are microseconds on the UTC clock.
    A nullable column is an [option]; [temperature] and [max_tokens] hold
    the scalar found in the request metadata ([SNone] for NULL). *)
Record LLMRequestLog := {
  model_name : string;
  start_time : Z;
  end_time : Z;
  latency_ms : Z;
  prompt_tokens : option Z;
  completion_tokens : option Z;
  total_tokens : option Z;
  input_text : string;
  output_text : string;
  error_message : option string;
  is_streaming : bool;
  time_to_first_token_ms : option Z;
  tokens_per_second : option float;
  temperature : Scalar;
  max_tokens : Scalar;
  request_metadata : option (gmap string Scalar);
  performance_score : option float
}.

(** Row of [alert_rules]. *)
Record AlertRule := {
  rule_id : Z;
  name : string;
  metric : string;
  threshold : float;
  operator : string;
  is_active : bool
}.

(** Row of [alert_events], as the evaluator fills it; the key and the
    trigger time are column defaults set by the store. *)
Record AlertEvent := {
  ev_rule_id : Z;
  ev_rule_name : string;
  ev_metric_value : float;
  ev_threshold : float;
  ev_message : string
}.

(** The session's view of the three tables the pipeline touches, each in
    insertion order. *)
Record Db := {
  logs : list LLMRequestLog;
  rules : list AlertRule;
  events : list AlertEvent
}.

(** [db.add(log_entry); db.commit()] *)
Definition add_log (db : Db) (r : LLMRequestLog) : Db :=
  {| logs := logs db ++ r :: nil; rules := rules db; events := events db |}.

(** [db.add(alert_event)] *)
Definition add_event (db : Db) (ev : AlertEvent) : Db :=
  {| logs := logs db; rules := rules db; events := events db ++ ev :: nil |}.

(** [order_by(desc(LLMRequestLog.start_time))]: rows by decreasing start
    time.  SQL leaves the order of rows with equal start times open; here
    they keep their insertion order. *)
Fixpoint insert_desc (r : LLMRequestLog) (l : list LLMRequestLog) : list LLMRequestLog :=
  match l with
  | nil => r :: nil
  | x :: l' => if start_time x <? start_time r then r :: l else x :: insert_desc r l'
  end.

Definition order_by_start_desc (l : list LLMRequestLog) : list LLMRequestLog :=
  fold_left (fun acc r => insert_desc r acc) l nil.

(** [db.query(LLMRequestLog).order_by(desc(start_time)).limit(n).all()] *)
Definition query_recent (db : Db) (n : nat) : list LLMRequestLog :=
  firstn n (order_by_start_desc (logs db)).

(** [db.query(AlertRule).filter(AlertRule.is_active == True).all()] *)
Definition query_active_rules (db : Db) : list AlertRule :=
  List.filter is_active (rules db).

(** ** Alert evaluator *)

(** Truth value of [getattr(log, "error_message", None)]: a message that is
    neither NULL nor empty. *)
Definition has_error (log : LLMRequestLog) : bool :=
  match error_message log with
  | Some msg => Str.truthy msg
  | None => false
  end.

(** [sum(1 for log in recent_logs if getattr(log, "error_message", None))] *)
Definition error_count (recent_logs : list LLMRequestLog) : Z :=
  Z.of_nat (List.length (List.filter has_error recent_logs)).

(** The error-rate branch of [check_alert_rules]. *)
Definition error_rate (recent_logs : list LLMRequestLog) : float :=
  match recent_logs with
  | nil => 0%float
  | _ :: _ =>
      (Py.int_truediv (error_count recent_logs) (Pos.of_nat (List.length recent_logs)) * 100)%float
  end.

(** The metric resolution of [check_alert_rules]; [None] is the initial
    [metric_value = None] left untouched. *)
Definition resolve_metric (db : Db) (log_entry : LLMRequestLog) (metric : string) : option float :=
  if String.eqb metric "latency" then
    Some (Py.float_of_int (latency_ms log_entry))
  else if String.eqb metric "tokens_per_second" then
    Some match tokens_per_second log_entry with
         | Some tps => if Py.truthy tps then tps else 0%float
         | None => 0%float
         end
  else if String.eqb metric "error_rate" then
    Some (error_rate (query_recent db 10))
  else None.

(** The comparison chain of [check_alert_rules]. *)
Definition triggered (operator : string) (metric_value threshold : float) : bool :=
  if String.eqb operator "gt" && (threshold <? metric_value)%float then true
  else if String.eqb operator "lt" && (metric_value <? threshold)%float then true
  else if String.eqb operator "eq" && (metric_value =? threshold)%float then true
  else false.

(** The f-string of the event message. *)
Definition alert_message (rule : AlertRule) (metric_value : float) : string :=
  name rule +:+ ": " +:+ metric rule +:+ " (" +:+ Repr.float_repr metric_value +:+ ") "
    +:+ operator rule +:+ " " +:+ Repr.float_repr (threshold rule).

(** One turn of the loop over the active rules: the event added for
    [rule], if any. *)
Definition rule_event (db : Db) (log_entry : LLMRequestLog) (rule : AlertRule) : option AlertEvent :=
  match resolve_metric db log_entry (metric rule) with
  | Some metric_value =>
      if triggered (operator rule) metric_value (threshold rule) then
        Some {| ev_rule_id := rule_id rule;
                ev_rule_name := name rule;
                ev_metric_value := metric_value;
                ev_threshold := threshold rule;
                ev_message := alert_message rule metric_value |}
      else None
  | None => None
  end.

(** [check_alert_rules(db, log_entry)].  The loop reads only the log table
    and the rule's own row, so every turn sees the same [db]. *)
Definition check_alert_rules (db : Db) (log_entry : LLMRequestLog) : Db :=
  fold_left
    (fun acc rule =>
       match rule_event acc log_entry rule with
       | Some ev => add_event acc ev
       | None => acc
       end)
    (query_active_rules db) db.

(** ** Requests, responses and the backend *)

(** One entry of [messages]; [None] is a missing key. *)
Record Message := {
  role : option string;
  content : option string
}.

(** A chat-completion body: the inbound [request_body] and the outbound
    payload alike.  [body_params] holds every other top-level key (the
    sampling parameters among them). *)
Record ChatBody := {
  body_model : option string;
  body_messages : option (list Message);
  body_stream : option bool;
  body_params : gmap string Scalar
}.

(** [body.get(key)] on the remaining keys *)
Definition get_param (body : ChatBody) (key : string) : Scalar :=
  default SNone (body_params body !! key).

Record Usage := {
  usage_prompt_tokens : option Z;
  usage_completion_tokens : option Z;
  usage_total_tokens : option Z
}.

(** One entry of [choices]: the [message] key, and inside it the [content]
    key, may each be missing. *)
Record Choice := {
  message : option (option string)
}.

(** The JSON body of a backend reply, as far as the proxy reads it. *)
Record ResponseData := {
  choices : option (list Choice);
  usage : option Usage
}.

(** Exceptions that reach the handlers of [main.py]. *)
Inductive Exn :=
| JSONDecodeError (msg : string)
| RequestError (msg : string)
| HTTPStatusError (status : Z) (msg : string)
| HTTPException (status : Z) (detail : string)
| OtherError (msg : string).

(** [str(e)]; an [HTTPException] prints as its status, a colon and its
    detail. *)
Definition exn_str (e : Exn) : string :=
  match e with
  | JSONDecodeError msg | RequestError msg | HTTPStatusError _ msg | OtherError msg => msg
  | HTTPException status detail => Str.of_int status +:+ ": " +:+ detail
  end.

(** What the backend does with an outbound call.  [post] is
    [client.post] followed by [raise_for_status] and [response.json()];
    [stream] is [client.stream] read to its end: the text chunks with the
    clock reading at each, and the exception that ended the stream, if one
    did. *)
Record Backend := {
  post : string -> ChatBody -> Exn + ResponseData;
  stream : string -> ChatBody -> list (Z * string) * option Exn
}.

(** The readings of [datetime.now(timezone.utc)] in one request: on entry,
    when the backend call has ended, and in the outermost handler. *)
Record Clock := {
  t_start : Z;
  t_end : Z;
  t_fallback : Z
}.

(** What the caller receives. *)
Inductive Response :=
| Json (data : ResponseData)
| Streaming (chunks : list string)
| Failure (status : Z) (detail : string).

(** The store together with a journal of what the request did to it. *)
Inductive Effect :=
| Persisted (r : LLMRequestLog)
| Evaluated (r : LLMRequestLog).

Record World := {
  db : Db;
  journal : list Effect
}.

(** [db.add(log_entry); db.commit()] *)
Definition persist (w : World) (r : LLMRequestLog) : World :=
  {| db := add_log (db w) r; journal := journal w ++ Persisted r :: nil |}.

(** [await check_alert_rules(db, log_entry); db.commit()] *)
Definition evaluate (w : World) (r : LLMRequestLog) : World :=
  {| db := check_alert_rules (db w) r; journal := journal w ++ Evaluated r :: nil |}.

(** [(end_time - start_time).total_seconds()] *)
Definition total_seconds (start_time end_time : Z) : float :=
  Py.int_truediv (end_time - start_time) 1000000.

(** [int((end_time - start_time).total_seconds() * 1000)] *)
Definition elapsed_ms (start_time end_time : Z) : Z :=
  Py.trunc (total_seconds start_time end_time * 1000)%float.

(** [len(text.split())] *)
Definition count_tokens (text : string) : Z :=
  Z.of_nat (List.length (Str.split text)).

(** ** Stream capture relay *)

Record LogStartInfo := {
  info_start_time : Z;
  info_model_name : string;
  info_input_text : string;
  info_metadata : gmap string Scalar;
  info_prompt_tokens : Z
}.

(** The generator's local state, with the chunks it has yielded so far. *)
Record RelayState := {
  first_token_time : option Z;
  response_chunks : list string;
  tokens_count : Z;
  yielded : list string
}.

Definition relay_start : RelayState :=
  {| first_token_time := None; response_chunks := nil; tokens_count := 0; yielded := nil |}.

(** One turn of [async for chunk in response.aiter_text()], the chunk
    arriving at clock reading [now]. *)
Definition relay_step (st : RelayState) (arrival : Z * string) : RelayState :=
  let '(now, chunk) := arrival in
  if Str.truthy (Str.strip chunk) then
    {| first_token_time :=
         match first_token_time st with None => Some now | Some t => Some t end;
       response_chunks := response_chunks st ++ chunk :: nil;
       tokens_count := tokens_count st + count_tokens chunk;
       yielded := yielded st ++ chunk :: nil |}
  else st.

(** The diagnostic chunk of the [except] branch. *)
Definition error_chunk (e : Exn) : string :=
  "data: " +:+ Json.dumps_error (exn_str e) +:+ String (ascii_of_N 10) (String (ascii_of_N 10) EmptyString).

Definition stream_error_log (info : LogStartInfo) (end_time : Z) (e : Exn) : LLMRequestLog :=
  let latency_ms := elapsed_ms (info_start_time info) end_time in
  {| model_name := info_model_name info;
     start_time := info_start_time info;
     end_time := end_time;
     latency_ms := latency_ms;
     prompt_tokens := None; completion_tokens := None; total_tokens := None;
     input_text := info_input_text info;
     output_text := "";
     error_message := Some (exn_str e);
     is_streaming := true;
     time_to_first_token_ms := None;
     tokens_per_second := None;
     temperature := SNone; max_tokens := SNone;
     request_metadata := Some (info_metadata info);
     performance_score := Some (calculate_performance_score latency_ms 0 true) |}.

Definition stream_success_log (info : LogStartInfo) (end_time : Z) (st : RelayState) : LLMRequestLog :=
  let latency_ms := elapsed_ms (info_start_time info) end_time in
  let duration_seconds := total_seconds (info_start_time info) end_time in
  let tps := if (0 <? duration_seconds)%float
             then (Py.float_of_int (tokens_count st) / duration_seconds)%float
             else 0%float in
  {| model_name := info_model_name info;
     start_time := info_start_time info;
     end_time := end_time;
     latency_ms := latency_ms;
     prompt_tokens := None;
     completion_tokens := Some (tokens_count st);
     total_tokens := Some (tokens_count st + info_prompt_tokens info);
     input_text := info_input_text info;
     output_text := Str.join "" (response_chunks st);
     error_message := None;
     is_streaming := true;
     time_to_first_token_ms :=
       option_map (elapsed_ms (info_start_time info)) (first_token_time st);
     tokens_per_second := Some tps;
     temperature := default SNone (info_metadata info !! "temperature");
     max_tokens := default SNone (info_metadata info !! "max_tokens");
     request_metadata := Some (info_metadata info);
     performance_score := Some (calculate_performance_score latency_ms tps false) |}.

(** [stream_llm_response], run until the generator is exhausted: the chunks
    handed to the caller and the store afterwards.  [outcome] is what the
    backend stream delivers and [end_time] the clock when it ends. *)
Definition stream_llm_response (outcome : list (Z * string) * option Exn)
    (w : World) (info : LogStartInfo) (end_time : Z) : list string * World :=
  let st := fold_left relay_step (fst outcome) relay_start in
  match snd outcome with
  | Some e =>
      let log_entry := stream_error_log info end_time e in
      (yielded st ++ error_chunk e :: nil, evaluate (persist w log_entry) log_entry)
  | None =>
      let log_entry := stream_success_log info end_time st in
      (yielded st, evaluate (persist w log_entry) log_entry)
  end.

(** ** Proxy gateway *)

(** The two-way routing rule on the backend URL. *)
Definition uses_native_chat (llm_url : string) : bool :=
  Str.contains "localhost:11434" llm_url || Str.contains "ollama" (Str.lower llm_url).

(** The dict literal [ollama_request]. *)
Definition ollama_request (model_name : string) (messages : list Message) (streaming : bool) : ChatBody :=
  {| body_model := Some model_name;
     body_messages := Some messages;
     body_stream := Some streaming;
     body_params := ∅ |}.

(** The payload handed to the backend. *)
Definition outbound_payload (llm_url : string) (request_body : ChatBody) : ChatBody :=
  if uses_native_chat llm_url then
    ollama_request (default "unknown" (body_model request_body))
                   (default nil (body_messages request_body))
                   (default false (body_stream request_body))
  else request_body.

(** The dict literal [metadata]. *)
Definition metadata_of (request_body : ChatBody) : gmap string Scalar :=
  <["temperature" := get_param request_body "temperature"]>
  (<["max_tokens" := get_param request_body "max_tokens"]>
  (<["top_p" := get_param request_body "top_p"]>
  (<["frequency_penalty" := get_param request_body "frequency_penalty"]>
  (<["presence_penalty" := get_param request_body "presence_penalty"]> ∅)))).

(** [msg.get("content", "")] *)
Definition content_of (msg : Message) : string := default "" (content msg).

(** [" ".join([msg.get("content", "") for msg in messages if msg.get("role") == "user"])] *)
Definition input_text_of (messages : list Message) : string :=
  Str.join " "
    (map content_of
       (List.filter (fun msg => match role msg with
                                | Some r => String.eqb r "user"
                                | None => false
                                end) messages)).

(** [sum(len(msg.get("content", "").split()) for msg in messages)] *)
Definition estimate_prompt_tokens (messages : list Message) : Z :=
  fold_right Z.add 0 (map (fun msg => count_tokens (content_of msg)) messages).

(** The output text read from [choices[0].message.content]. *)
Definition output_text_of (response_data : ResponseData) : string :=
  match choices response_data with
  | Some (choice :: _) =>
      match message choice with
      | Some (Some text) => text
      | _ => ""
      end
  | _ => ""
  end.

(** The record of a successful non-streaming call. *)
Definition success_log (request_body : ChatBody) (start_time end_time : Z)
    (response_data : ResponseData) : LLMRequestLog :=
  let messages := default nil (body_messages request_body) in
  let metadata := metadata_of request_body in
  let latency_ms := elapsed_ms start_time end_time in
  let prompt_tokens :=
    match usage response_data with
    | Some u => default (estimate_prompt_tokens messages) (usage_prompt_tokens u)
    | None => estimate_prompt_tokens messages
    end in
  let completion_tokens : option Z := usage response_data ≫= usage_completion_tokens in
  let total_tokens : option Z := usage response_data ≫= usage_total_tokens in
  let duration_seconds := total_seconds start_time end_time in
  let tps := if (0 <? duration_seconds)%float
             then (Py.float_of_int (default 0%Z completion_tokens) / duration_seconds)%float
             else 0%float in
  {| model_name := default "unknown" (body_model request_body);
     start_time := start_time;
     end_time := end_time;
     latency_ms := latency_ms;
     prompt_tokens := Some prompt_tokens;
     completion_tokens := completion_tokens;
     total_tokens := total_tokens;
     input_text := input_text_of messages;
     output_text := output_text_of response_data;
     error_message := None;
     is_streaming := false;
     time_to_first_token_ms := None;
     tokens_per_second := Some tps;
     temperature := default SNone (metadata !! "temperature");
     max_tokens := default SNone (metadata !! "max_tokens");
     request_metadata := Some metadata;
     performance_score := Some (calculate_performance_score latency_ms tps false) |}.

(** The record of the inner [except Exception] of the non-streaming branch. *)
Definition backend_error_log (request_body : ChatBody) (start_time end_time : Z) (e : Exn) : LLMRequestLog :=
  let latency_ms := elapsed_ms start_time end_time in
  {| model_name := default "unknown" (body_model request_body);
     start_time := start_time;
     end_time := end_time;
     latency_ms := latency_ms;
     prompt_tokens := None; completion_tokens := None; total_tokens := None;
     input_text := input_text_of (default nil (body_messages request_body));
     output_text := "";
     error_message := Some (exn_str e);
     is_streaming := false;
     time_to_first_token_ms := None;
     tokens_per_second := None;
     temperature := SNone; max_tokens := SNone;
     request_metadata := Some (metadata_of request_body);
     performance_score := Some (calculate_performance_score latency_ms 0 true) |}.

(** The exception the inner handler raises after logging. *)
Definition reraise (e : Exn) : Exn :=
  match e with
  | RequestError _ => HTTPException 503 ("Connection error to local LLM: " +:+ exn_str e)
  | HTTPStatusError status _ => HTTPException status ("LLM API error: " +:+ exn_str e)
  | _ => HTTPException 500 ("Unexpected error: " +:+ exn_str e)
  end.

(** The record of the outermost [except Exception]. *)
Definition fallback_log (start_time end_time : Z) (e : Exn) : LLMRequestLog :=
  {| model_name := "unknown";
     start_time := start_time;
     end_time := end_time;
     latency_ms := elapsed_ms start_time end_time;
     prompt_tokens := None; completion_tokens := None; total_tokens := None;
     input_text := "";
     output_text := "";
     error_message := Some ("Unexpected error: " +:+ exn_str e);
     is_streaming := false;
     time_to_first_token_ms := None;
     tokens_per_second := None;
     temperature := SNone; max_tokens := SNone;
     request_metadata := None;
     performance_score := Some 0%float |}.

(** The two outer [except] clauses, for an exception [e] raised anywhere in
    the body of the outer [try].  The store is taken to accept the record
    (the code swallows a failure to write it). *)
Definition outer_handlers (clock : Clock) (w : World) (e : Exn) : Response * World :=
  match e with
  | JSONDecodeError _ => (Failure 400 "Invalid JSON in request body", w)
  | _ =>
      (Failure 500 ("Unexpected error: " +:+ exn_str e),
       persist w (fallback_log (t_start clock) (t_fallback clock) e))
  end.

(** [proxy_chat_completions], followed for a streaming call by the run of
    the generator it returns.  [llm_url] is [DEFAULT_LLM_URL] and
    [request_json] is what [await request.json()] raises or returns. *)
Definition proxy_chat_completions (llm_url : string) (backend : Backend) (clock : Clock)
    (request_json : Exn + ChatBody) (w : World) : Response * World :=
  let start_time := t_start clock in
  match request_json with
  | inl e => outer_handlers clock w e
  | inr request_body =>
      let model_name := default "unknown" (body_model request_body) in
      let is_streaming := default false (body_stream request_body) in
      let messages := default nil (body_messages request_body) in
      let log_start_info :=
        {| info_start_time := start_time;
           info_model_name := model_name;
           info_input_text := input_text_of messages;
           info_metadata := metadata_of request_body;
           info_prompt_tokens := estimate_prompt_tokens messages |} in
      let payload := outbound_payload llm_url request_body in
      if is_streaming then
        let '(chunks, w') :=
          stream_llm_response (stream backend llm_url payload) w log_start_info (t_end clock) in
        (Streaming chunks, w')
      else
        match post backend llm_url payload with
        | inr response_data =>
            let log_entry := success_log request_body start_time (t_end clock) response_data in
            (Json response_data, evaluate (persist w log_entry) log_entry)
        | inl e =>
            let log_entry := backend_error_log request_body start_time (t_end clock) e in
            outer_handlers clock (evaluate (persist w log_entry) log_entry) (reraise e)
        end
  end.

(** ** Analytics aggregator: the latency percentiles *)

Module Analytics.

Fixpoint insert_sorted (x : Z) (l : list Z) : list Z :=
  match l with
  | nil => x :: nil
  | y :: l' => if x <=? y then x :: l else y :: insert_sorted x l'
  end.

(** [sorted(latencies)] *)
Definition sorted (l : list Z) : list Z := fold_right insert_sorted nil l.

(** [l[i]]; [None] is the [IndexError] of an index out of range. *)
Definition index (l : list Z) (i : Z) : option Z :=
  let n := Z.of_nat (List.length l) in
  if 0 <=? i then l !! Z.to_nat i
  else if 0 <=? n + i then l !! Z.to_nat (n + i)
  else None.

(** [sorted(latencies)[int(len(latencies) * q)] if latencies else 0];
    [None] is a fault raised while computing it. *)
Definition percentile (latencies : list Z) (q : float) : option Z :=
  match latencies with
  | nil => Some 0
  | _ :: _ =>
      match Py.int_of_float (Py.float_of_int (Z.of_nat (List.length latencies)) * q)%float with
      | Some i => index (sorted latencies) i
      | None => None
      end
  end.

(** [[log.latency_ms for log in recent_logs if log.latency_ms is not None]];
    the column is not nullable. *)
Definition latencies_of (recent_logs : list LLMRequestLog) : list Z :=
  map latency_ms recent_logs.

(** The [p95] and [p99] entries of [latency_stats]. *)
Definition p95 (recent_logs : list LLMRequestLog) : option Z :=
  percentile (latencies_of recent_logs) 0.95.

Definition p99 (recent_logs : list LLMRequestLog) : option Z :=
  percentile (latencies_of recent_logs) 0.99.

End Analytics.

(** The rules installed at start-up when the rule table is empty. *)
Definition default_rules : list AlertRule :=
  {| rule_id := 1; name := "High Latency Alert"; metric := "latency";
     threshold := 5000; operator := "gt"; is_active := true |} ::
  {| rule_id := 2; name := "Low Tokens/Sec Alert"; metric := "tokens_per_second";
     threshold := 10; operator := "lt"; is_active := true |} ::
  {| rule_id := 3; name := "High Error Rate Alert"; metric := "error_rate";
     threshold := 10; operator := "gt"; is_active := true |} :: nil.

(** ** Start-up *)

(** [lifespan], up to its [yield]: the default rules are added when the
    rule table has no row at all. *)
Definition lifespan (db : Db) : Db :=
  let existing_rules := Z.of_nat (List.length (rules db)) in
  if existing_rules =? 0 then
    {| logs := logs db; rules := rules db ++ default_rules; events := events db |}
  else db.

(** ** Cost settings and cost analysis *)

(** Row of [cost_settings] with its three rates set, as [create_cost_setting]
    always writes them; the key and the two timestamps are left out. *)
Record CostSettings := {
  cs_model_name : string;
  cost_per_1k_input_tokens : float;
  cost_per_1k_output_tokens : float;
  electricity_cost_per_hour : float
}.

(** [db.query(CostSettings).filter(CostSettings.model_name == model_name).first()] *)
Definition find_cost_settings (table : list CostSettings) (model_name : string) : option CostSettings :=
  List.find (fun cs => String.eqb (cs_model_name cs) model_name) table.

(** The row [existing] points to, overwritten in place. *)
Fixpoint update_first (table : list CostSettings) (model_name : string) (row : CostSettings)
    : list CostSettings :=
  match table with
  | nil => nil
  | cs :: rest =>
      if String.eqb (cs_model_name cs) model_name then row :: rest
      else cs :: update_first rest model_name row
  end.

(** [create_cost_setting]: the row returned and the table afterwards. *)
Definition create_cost_setting (table : list CostSettings) (model_name : string)
    (cost_per_1k_input_tokens cost_per_1k_output_tokens electricity_cost_per_hour : float)
    : CostSettings * list CostSettings :=
  let row := {| cs_model_name := model_name;
                cost_per_1k_input_tokens := cost_per_1k_input_tokens;
                cost_per_1k_output_tokens := cost_per_1k_output_tokens;
                electricity_cost_per_hour := electricity_cost_per_hour |} in
  match find_cost_settings table model_name with
  | Some _ => (row, update_first table model_name row)
  | None => (row, table ++ row :: nil)
  end.

(** Truth value of a nullable int column: false for null and for 0. *)
Definition int_truthy (o : option Z) : bool :=
  match o with Some n => negb (n =? 0) | None => false end.

(** [request_cost] of one turn of the loop of [get_cost_analysis]. *)
Definition request_cost (settings : list CostSettings) (log : LLMRequestLog) : float :=
  match find_cost_settings settings (model_name log) with
  | Some cost_settings =>
      if int_truthy (prompt_tokens log) && int_truthy (completion_tokens log) then
        let input_cost :=
          (Py.int_truediv (default 0%Z (prompt_tokens log)) 1000
           * cost_per_1k_input_tokens cost_settings)%float in
        let output_cost :=
          (Py.int_truediv (default 0%Z (completion_tokens log)) 1000
           * cost_per_1k_output_tokens cost_settings)%float in
        if (0 <? electricity_cost_per_hour cost_settings)%float then
          let duration_hours := Py.int_truediv (latency_ms log) 3600000 in
          let electricity_cost :=
            (duration_hours * electricity_cost_per_hour cost_settings)%float in
          (input_cost + output_cost + electricity_cost)%float
        else (input_cost + output_cost)%float
      else 0%float
  | None => 0%float
  end.

(** One value of the [cost_breakdown] dict. *)
Record ModelCost := {
  requests : Z;
  mc_total_tokens : Z;
  estimated_cost : float;
  avg_latency : float
}.

Definition new_model_cost : ModelCost :=
  {| requests := 0; mc_total_tokens := 0; estimated_cost := 0; avg_latency := 0 |}.

(** One turn of [for log in logs]. *)
Definition cost_step (settings : list CostSettings)
    (acc : gmap string ModelCost * float) (log : LLMRequestLog) : gmap string ModelCost * float :=
  let '(cost_breakdown, total_cost) := acc in
  let entry := default new_model_cost (cost_breakdown !! model_name log) in
  let cost := request_cost settings log in
  (<[model_name log :=
       {| requests := requests entry + 1;
          mc_total_tokens := mc_total_tokens entry + default 0%Z (total_tokens log);
          estimated_cost := (estimated_cost entry + cost)%float;
          avg_latency := (avg_latency entry + Py.float_of_int (latency_ms log))%float |}]>
     cost_breakdown,
   (total_cost + cost)%float).

(** One turn of [for model_data in cost_breakdown.values()]. *)
Definition average_latency (model_data : ModelCost) : ModelCost :=
  if 0 <? requests model_data then
    {| requests := requests model_data;
       mc_total_tokens := mc_total_tokens model_data;
       estimated_cost := estimated_cost model_data;
       avg_latency := (avg_latency model_data / Py.float_of_int (requests model_data))%float |}
  else model_data.

Record CostAnalysis := {
  total_cost : float;
  cost_breakdown : gmap string ModelCost;
  time_period_hours : Z
}.

(** The rows of the time window, in table order; [now] is
    [datetime.utcnow()] in microseconds. *)
Definition cost_window (db : Db) (now hours : Z) : list LLMRequestLog :=
  let cutoff_time := now - hours * 3600000000 in
  List.filter (fun log => cutoff_time <=? start_time log) (logs db).

(** [get_cost_analysis] *)
Definition get_cost_analysis (settings : list CostSettings) (db : Db) (now hours : Z) : CostAnalysis :=
  let '(breakdown, total) :=
    fold_left (cost_step settings) (cost_window db now hours) (∅, 0%float) in
  {| total_cost := Py.round total 4;
     cost_breakdown := average_latency <$> breakdown;
     time_period_hours := hours |}.

(** ** The specification's formulas

    Definitions that follow the wording of the specification, to be
    compared with the code above. *)

(** The score as the specification words it:
    [round(0.6 * max(0, 100 - latency_ms/20) + 0.4 * min(100, tps * 5), 2)],
    and 0 when the error flag is set. *)
Definition spec_score (latency_ms : Z) (tps : float) (error_occurred : bool) : float :=
  if error_occurred then 0%float
  else Py.round (0.6 * Py.max0 (100 - Py.int_truediv latency_ms 20)
                 + 0.4 * Py.min100 (tps * 5))%float 2.

(** The position of a percentile, [floor(count * q)], the product taken in
    binary64 as Python takes it. *)
Definition floor_index (count : Z) (q : float) : Z :=
  Py.trunc (Py.float_of_int count * q)%float.

(** The percentile as the specification words it: the element of the
    ascending list at [floor(count * q)] clamped to [count - 1], and 0 over
    an empty list. *)
Definition spec_percentile (latencies : list Z) (q : float) : Z :=
  match latencies with
  | nil => 0
  | _ :: _ =>
      let count := Z.of_nat (List.length latencies) in
      nth (Z.to_nat (Z.min (floor_index count q) (count - 1))) (Analytics.sorted latencies) 0
  end.

(** The float index agrees with the integer [count * pct / 100] on every
    count up to [bound]. *)
Definition index_exact_upto (bound : nat) (q : float) (pct : Z) : bool :=
  forallb (fun k => floor_index (Z.of_nat k) q =? Z.of_nat k * pct / 100) (seq 0 (S bound)).

(** The event message as the specification words it, with a space on both
    sides of the colon: ["{rule} : {metric} ({value}) {operator} {threshold}"]. *)
Definition spec_alert_message (rule : AlertRule) (metric_value : float) : string :=
  name rule +:+ " : " +:+ metric rule +:+ " (" +:+ Repr.float_repr metric_value +:+ ") "
    +:+ operator rule +:+ " " +:+ Repr.float_repr (threshold rule).

(** The error rate as the specification words it: the percentage of the
    window's records whose error message is not null. *)
Definition spec_error_rate (recent_logs : list LLMRequestLog) : float :=
  match recent_logs with
  | nil => 0%float
  | _ :: _ =>
      (Py.int_truediv
         (Z.of_nat (List.length (List.filter (fun log => bool_decide (error_message log <> None)) recent_logs)))
         (Pos.of_nat (List.length recent_logs)) * 100)%float
  end.

(** The events one evaluation adds for the rules [rs], in rule order. *)
Definition events_of_rules (db : Db) (log_entry : LLMRequestLog) (rs : list AlertRule) : list AlertEvent :=
  omap (rule_event db log_entry) (List.filter is_active rs).

(** Some character of the string is not whitespace. *)
Fixpoint has_nonspace (s : string) : bool :=
  match s with
  | EmptyString => false
  | String c s' => negb (Str.is_space c) || has_nonspace s'
  end.

(** Rows ordered by decreasing start time. *)
Definition start_desc (a b : LLMRequestLog) : Prop := start_time b <= start_time a.

(** The invariant of an erroring record. *)
Definition error_invariant (r : LLMRequestLog) : Prop :=
  error_message r <> None -> performance_score r = Some 0%float /\ output_text r = ""%string.

(** The records a stretch of the journal persisted, in order. *)
Definition persisted (j : list Effect) : list LLMRequestLog :=
  omap (fun eff => match eff with Persisted r => Some r | Evaluated _ => None end) j.

(** ** Concrete requests, backends and stores *)

Module Examples.

(** An OpenAI-compatible backend URL and the native-chat one. *)
Definition lmstudio_url : string := "http://localhost:1234/v1/chat/completions".
Definition ollama_url : string := "http://localhost:11434/api/chat".

Definition hello : Message := {| role := Some "user"; content := Some "hello there world" |}.

(** A request with sampling parameters. *)
Definition sampled_request (streaming : bool) : ChatBody :=
  {| body_model := Some "llama3";
     body_messages := Some (hello :: nil);
     body_stream := Some streaming;
     body_params := <["temperature" := SFloat 0.7]> (<["max_tokens" := SInt 256]>
                    (<["top_p" := SFloat 0.9]> (<["frequency_penalty" := SFloat 0.5]>
                    (<["presence_penalty" := SFloat 0.25]> ∅)))) |}.

Definition plain_request : ChatBody :=
  {| body_model := Some "llama3";
     body_messages := Some (hello :: nil);
     body_stream := None;
     body_params := ∅ |}.

(** A backend that cannot be reached. *)
Definition unreachable : Backend :=
  {| post := fun _ _ => inl (RequestError "All connection attempts failed");
     stream := fun _ _ => (nil, Some (RequestError "All connection attempts failed")) |}.

(** A backend that answers with four words and no usage block. *)
Definition reply_without_usage : ResponseData :=
  {| choices := Some ({| message := Some (Some "four words in reply") |} :: nil);
     usage := None |}.

Definition answering : Backend :=
  {| post := fun _ _ => inr reply_without_usage;
     stream := fun _ _ =>
       ((100000, "Hello") :: (200000, " ") :: (300000, "world") :: nil, None) |}.

(** A backend whose stream breaks after one chunk. *)
Definition breaking : Backend :=
  {| post := fun _ _ => inl (OtherError "boom");
     stream := fun _ _ => ((100000, "Hello") :: nil, Some (OtherError "boom")) |}.

(** A call that takes two seconds; the outermost handler reads the clock
    one millisecond later. *)
Definition clock : Clock := {| t_start := 0; t_end := 2000000; t_fallback := 2001000 |}.

(** A fresh store with the start-up rules. *)
Definition fresh : World :=
  {| db := {| logs := nil; rules := default_rules; events := nil |}; journal := nil |}.

Definition info : LogStartInfo :=
  {| info_start_time := 0; info_model_name := "llama3"; info_input_text := "hello there world";
     info_metadata := metadata_of plain_request; info_prompt_tokens := 3 |}.

(** A record with the given latency and error message. *)
Definition log_with (latency : Z) (err : option string) : LLMRequestLog :=
  {| model_name := "llama3"; start_time := 0; end_time := latency * 1000; latency_ms := latency;
     prompt_tokens := None; completion_tokens := None; total_tokens := None;
     input_text := ""; output_text := ""; error_message := err; is_streaming := false;
     time_to_first_token_ms := None; tokens_per_second := None; temperature := SNone;
     max_tokens := SNone; request_metadata := None; performance_score := Some 0%float |}.

End Examples.

(** ** Vocabulary of the further properties *)

(** The error rate of a window of [n] records of which [c] carry an error. *)
Definition rate_of (c n : nat) : float :=
  (Py.int_truediv (Z.of_nat c) (Pos.of_nat n) * 100)%float.

(** What a window of at most 10 records gives, checked on each pair. *)
Definition rate_facts (c n : nat) : bool :=
  let r := rate_of c n in
  (0 <=? r)%float && (r <=? 100)%float
  && Bool.eqb (r =? 0)%float (Nat.eqb c 0)
  && Bool.eqb (r =? 100)%float (Nat.eqb c n)
  && Bool.eqb (10 <? r)%float (Z.of_nat n <? 10 * Z.of_nat c).

Definition rate_table : bool :=
  forallb (fun n => forallb (fun c => rate_facts c n) (seq 0 (S n))) (seq 1 10).

(** The number of whitespace-separated tokens of [s]; [inside] tells that a
    token is being read when [s] starts. *)
Fixpoint token_runs (inside : bool) (s : string) : nat :=
  match s with
  | EmptyString => if inside then 1 else 0
  | String c s' =>
      if Str.is_space c then ((if inside then 1 else 0) + token_runs false s')%nat
      else token_runs true s'
  end.

(** The chunks of a stream, and the arrivals the relay keeps. *)
Definition chunks_of (arrivals : list (Z * string)) : list string := map snd arrivals.

Definition kept_arrivals (arrivals : list (Z * string)) : list (Z * string) :=
  List.filter (fun a => has_nonspace (snd a)) arrivals.

(** The sum of the per-chunk token counts. *)
Definition chunk_tokens (chunks : list string) : Z :=
  fold_right Z.add 0 (map count_tokens chunks).

(** The score a record's own fields give: its latency, its throughput (0
    when null) and whether it carries an error message. *)
Definition score_of_record (r : LLMRequestLog) : float :=
  calculate_performance_score (latency_ms r) (default 0%float (tokens_per_second r))
                              (bool_decide (error_message r <> None)).

(** What every record written by the gateway satisfies. *)
Definition record_consistent (clock : Clock) (r : LLMRequestLog) : Prop :=
  start_time r = t_start clock
  /\ (end_time r = t_end clock \/ end_time r = t_fallback clock)
  /\ latency_ms r = elapsed_ms (start_time r) (end_time r)
  /\ performance_score r = Some (score_of_record r)
  /\ (error_message r <> None ->
      tokens_per_second r = None /\ prompt_tokens r = None
      /\ completion_tokens r = None /\ total_tokens r = None
      /\ time_to_first_token_ms r = None)
  /\ (error_message r = None -> tokens_per_second r <> None).

(** Every evaluation in a stretch of the journal comes right after the
    write of the record it evaluates. *)
Fixpoint evaluations_follow_writes (j : list Effect) : Prop :=
  match j with
  | nil => True
  | Persisted r :: Evaluated r' :: rest => r = r' /\ evaluations_follow_writes rest
  | Persisted _ :: rest => evaluations_follow_writes rest
  | Evaluated _ :: _ => False
  end.

(** The evaluations of a stretch of the journal. *)
Definition evaluated (j : list Effect) : list LLMRequestLog :=
  omap (fun eff => match eff with Evaluated r => Some r | Persisted _ => None end) j.

(** [msg.get("role") == "user"] *)
Definition is_user (msg : Message) : bool :=
  match role msg with Some r => String.eqb r "user" | None => false end.

(** The five keys of the [metadata] dict. *)
Definition metadata_keys : list string :=
  "temperature" :: "max_tokens" :: "top_p" :: "frequency_penalty" :: "presence_penalty" :: nil.




(** The rows of one model. *)
Definition logs_of_model (model : string) (l : list LLMRequestLog) : list LLMRequestLog :=
  List.filter (fun log => String.eqb (model_name log) model) l.

(** A record the cost loop prices: its model has cost settings and both
    of its token counts are set and not zero. *)
Definition priced (settings : list CostSettings) (log : LLMRequestLog) : bool :=
  match find_cost_settings settings (model_name log) with
  | Some _ => int_truthy (prompt_tokens log) && int_truthy (completion_tokens log)
  | None => false
  end.

(** * Properties *)

(** ** Facts about binary64 rounding

    The float operations are specified through [Prim2SF] by the axioms of
    the standard library ([mul_spec], [add_spec], ...); the lemmas below
    bound what one rounding does to an exact positive value. *)

Section BinaryRounding.

Lemma digits2_bounds (p : positive) :
  2 ^ (Zpos (digits2_pos p) - 1) <= Zpos p < 2 ^ Zpos (digits2_pos p).
Proof.
  induction p as [p IH | p IH |]; cbn [digits2_pos].
  - rewrite Pos2Z.inj_succ, (Pos2Z.inj_xI p).
    pose proof (Pos2Z.is_pos (digits2_pos p)) as Hd.
    revert IH Hd. generalize (Zpos (digits2_pos p)). intros d IH Hd.
    replace (Z.succ d - 1) with (Z.succ (d - 1)) by lia.
    rewrite !Z.pow_succ_r by lia. lia.
  - rewrite Pos2Z.inj_succ, (Pos2Z.inj_xO p).
    pose proof (Pos2Z.is_pos (digits2_pos p)) as Hd.
    revert IH Hd. generalize (Zpos (digits2_pos p)). intros d IH Hd.
    replace (Z.succ d - 1) with (Z.succ (d - 1)) by lia.
    rewrite !Z.pow_succ_r by lia. lia.
  - cbn. lia.
Qed.

(** The bit length [d] of a positive number, as plain facts about [d]. *)
Lemma digits2_facts (p : positive) :
  exists d, Zpos (digits2_pos p) = d /\ 1 <= d /\ 2 ^ (d - 1) <= Zpos p < 2 ^ d.
Proof.
  exists (Zpos (digits2_pos p)). split; [reflexivity|]. split; [|apply digits2_bounds].
  pose proof (Pos2Z.is_pos (digits2_pos p)) as Hd.
  revert Hd. generalize (Zpos (digits2_pos p)). intros; lia.
Qed.

Lemma pow2_lt_exp (a b : Z) : 0 <= a -> 2 ^ (a - 1) < 2 ^ b -> a <= b.
Proof.
  intros Ha H. destruct (Z.le_gt_cases a b) as [|Hgt]; [assumption|].
  assert (2 ^ b <= 2 ^ (a - 1)).
  { destruct (Z.le_gt_cases 0 b).
    - apply Z.pow_le_mono_r; lia.
    - rewrite (Z.pow_neg_r 2 b) by lia. apply Z.pow_nonneg. lia. }
  lia.
Qed.

Lemma fexp_eq (x : Z) : fexp prec emax x = Z.max (x - 53) (-1074).
Proof. reflexivity. Qed.

Lemma shr_1_div2 (mrs : shr_record) :
  0 <= shr_m mrs -> shr_m (shr_1 mrs) = shr_m mrs / 2.
Proof.
  destruct mrs as [m r s]. cbn [shr_m]. intros Hm.
  rewrite <- Z.div2_div.
  destruct m as [| p | p]; [reflexivity | destruct p; reflexivity | lia].
Qed.

Lemma iter_shr_1 (p : positive) (mrs : shr_record) :
  0 <= shr_m mrs -> shr_m (SpecFloat.iter_pos shr_1 p mrs) = shr_m mrs / 2 ^ Zpos p.
Proof.
  revert mrs. induction p as [p IH | p IH |]; intros mrs Hm; cbn [SpecFloat.iter_pos].
  - assert (H1 : 0 <= shr_m (shr_1 mrs)) by (rewrite shr_1_div2 by assumption; apply Z.div_pos; lia).
    assert (H2 : 0 <= shr_m (SpecFloat.iter_pos shr_1 p (shr_1 mrs)))
      by (rewrite IH by assumption; apply Z.div_pos; [assumption | apply Z.pow_pos_nonneg; lia]).
    rewrite IH, IH, shr_1_div2 by assumption.
    rewrite !Z.div_div by (try apply Z.pow_pos_nonneg; lia).
    f_equal. rewrite (Pos2Z.inj_xI p).
    replace (2 * Zpos p + 1) with (Z.succ (Zpos p + Zpos p)) by lia.
    rewrite Z.pow_succ_r, Z.pow_add_r by lia. lia.
  - assert (H2 : 0 <= shr_m (SpecFloat.iter_pos shr_1 p mrs))
      by (rewrite IH by assumption; apply Z.div_pos; [assumption | apply Z.pow_pos_nonneg; lia]).
    rewrite IH, IH by assumption.
    rewrite !Z.div_div by (try apply Z.pow_pos_nonneg; lia).
    f_equal. rewrite (Pos2Z.inj_xO p).
    replace (2 * Zpos p) with (Zpos p + Zpos p) by lia.
    rewrite Z.pow_add_r by lia. lia.
  - rewrite shr_1_div2 by assumption. reflexivity.
Qed.

(** With no underflow in sight ([-1074 <= e]) the first step of a rounding
    drops the bits beyond the 53rd and nothing else. *)
Lemma shr_fexp_spec (m : positive) (e : Z) (l : location) :
  -1074 <= e ->
  let s := Z.max (Zpos (digits2_pos m) - 53) 0 in
  shr_m (fst (shr_fexp prec emax (Zpos m) e l)) = Zpos m / 2 ^ s
  /\ snd (shr_fexp prec emax (Zpos m) e l) = e + s
  /\ (s = 0 -> fst (shr_fexp prec emax (Zpos m) e l) = shr_record_of_loc (Zpos m) l).
Proof.
  intros He s. subst s. unfold shr_fexp. rewrite fexp_eq. cbn [Zdigits2].
  destruct (digits2_facts m) as (d & -> & Hd & _).
  set (s := Z.max (d - 53) 0).
  assert (Hm : 0 <= shr_m (shr_record_of_loc (Zpos m) l))
    by (destruct l as [|[]]; cbn; lia).
  assert (Hm' : shr_m (shr_record_of_loc (Zpos m) l) = Zpos m)
    by (destruct l as [|[]]; reflexivity).
  destruct (Z.max (d + e - 53) (-1074) - e) as [| z | z] eqn:Hz; cbn [shr fst snd].
  - assert (H : s = 0) by lia. rewrite H, Hm'. cbn. rewrite Z.div_1_r. split; [reflexivity|]. split; [lia| reflexivity].
  - assert (H : s = Zpos z) by lia. rewrite iter_shr_1, Hm', H by assumption.
    split; [reflexivity|]. split; [lia | lia].
  - assert (H : s = 0) by lia. rewrite H, Hm'. cbn. rewrite Z.div_1_r. split; [reflexivity|]. split; [lia| reflexivity].
Qed.

Lemma round_nearest_even_bounds (m : Z) (l : location) :
  m <= round_nearest_even m l <= m + 1.
Proof.
  destruct l as [|[]]; cbn; try lia. destruct (Z.even m); lia.
Qed.

(** Rounding an exact positive value [m * 2^e] to binary64: the result is
    [m' * 2^e'] with at most 53 bits, never above [m * 2^e * (1 + 2^-52)]. *)
Lemma binary_round_aux_exact (sx : bool) (m : positive) (e : Z) :
  -1074 <= e ->
  exists (m' : positive) (e' : Z),
    binary_round_aux prec emax sx (Zpos m) e loc_Exact
      = (if e' <=? 971 then S754_finite sx m' e' else S754_infinity sx)
    /\ e <= e' <= e + Z.max (Zpos (digits2_pos m) - 53) 0 + 1
    /\ Zpos m' < 2 ^ 53
    /\ Zpos m' * 2 ^ (e' - e) * 2 ^ 52 <= Zpos m * (2 ^ 52 + 1).
Proof.
  intros He. unfold binary_round_aux.
  destruct (shr_fexp_spec m e loc_Exact He) as (Hm1 & He1 & Hex1).
  destruct (shr_fexp prec emax (Zpos m) e loc_Exact) as [mrs1 e1] eqn:E1.
  cbn [fst snd] in Hm1, He1, Hex1. clear E1.
  destruct (digits2_facts m) as (d & Ed & Hd & Hdlo & Hdhi).
  rewrite Ed in *.
  set (s1 := Z.max (d - 53) 0) in *.
  assert (Hs1 : 0 <= s1 /\ (s1 = 0 \/ s1 = d - 53) /\ d - 53 <= s1) by lia. clearbody s1.
  set (m2 := round_nearest_even (shr_m mrs1) (loc_of_shr_record mrs1)).
  assert (Hp1 : 0 < 2 ^ s1) by (apply Z.pow_pos_nonneg; lia).
  assert (Hm2 : shr_m mrs1 <= m2 <= shr_m mrs1 + 1) by apply round_nearest_even_bounds.
  assert (Hm1lo : 1 <= shr_m mrs1).
  { rewrite Hm1. apply Z.div_le_lower_bound; [lia|].
    destruct (Z.eq_dec s1 0) as [->|]; [cbn; lia|].
    assert (2 ^ s1 <= 2 ^ (d - 1)) by (apply Z.pow_le_mono_r; lia). lia. }
  assert (Hm2' : s1 = 0 -> m2 = Zpos m).
  { intros H0. unfold m2. rewrite (Hex1 H0). reflexivity. }
  assert (Hm2hi : s1 <> 0 -> m2 <= 2 ^ 53 /\ m2 * 2 ^ s1 <= Zpos m + 2 ^ s1 /\ 2 ^ s1 * 2 ^ 52 <= Zpos m).
  { intros Hn. assert (Hs : s1 = d - 53) by lia.
    assert (Hdd : 2 ^ d = 2 ^ 53 * 2 ^ s1) by (rewrite <- Z.pow_add_r by lia; f_equal; lia).
    assert (Hdd' : 2 ^ (d - 1) = 2 ^ s1 * 2 ^ 52) by (rewrite <- Z.pow_add_r by lia; f_equal; lia).
    assert (shr_m mrs1 < 2 ^ 53) by (rewrite Hm1; apply Z.div_lt_upper_bound; lia).
    assert (shr_m mrs1 * 2 ^ s1 <= Zpos m) by (rewrite Hm1, Z.mul_comm; apply Z.mul_div_le; lia).
    split; [lia|]. split; [nia | lia]. }
  clearbody m2. clear Hex1.
  destruct m2 as [| m2p | m2p]; [lia | | lia].
  destruct (shr_fexp_spec m2p e1 loc_Exact ltac:(lia)) as (Hm3 & He3 & _).
  destruct (shr_fexp prec emax (Zpos m2p) e1 loc_Exact) as [mrs3 e3] eqn:E3.
  cbn [fst snd] in Hm3, He3. clear E3.
  destruct (digits2_facts m2p) as (d2 & Ed2 & Hd2 & Hd2lo & Hd2hi).
  rewrite Ed2 in *.
  assert (Hdeq : s1 = 0 -> d2 = d).
  { intros H0. specialize (Hm2' H0). injection Hm2' as Hmm. rewrite Hmm in Ed2. congruence. }
  clear Ed Ed2.
  set (s2 := Z.max (d2 - 53) 0) in *.
  assert (Hs2 : 0 <= s2 /\ (s2 = 0 \/ s2 = d2 - 53) /\ d2 - 53 <= s2 /\ s2 <= d2 - 1) by lia.
  clearbody s2.
  assert (Hp2 : 0 < 2 ^ s2) by (apply Z.pow_pos_nonneg; lia).
  assert (Hm3lo : 1 <= shr_m mrs3).
  { rewrite Hm3. apply Z.div_le_lower_bound; [lia|].
    assert (2 ^ s2 <= 2 ^ (d2 - 1)) by (apply Z.pow_le_mono_r; lia). lia. }
  assert (Hm3hi : shr_m mrs3 < 2 ^ 53).
  { rewrite Hm3. apply Z.div_lt_upper_bound; [lia|].
    assert (H : 2 ^ d2 <= 2 ^ (s2 + 53)) by (apply Z.pow_le_mono_r; lia).
    rewrite Z.pow_add_r in H by lia. lia. }
  assert (Hm3mul : shr_m mrs3 * 2 ^ s2 <= Zpos m2p)
    by (rewrite Hm3, Z.mul_comm; apply Z.mul_div_le; lia).
  assert (Hs2le : s2 <= 1 /\ (s1 = 0 -> s2 = 0)).
  { destruct (Z.eq_dec s1 0) as [H0|Hn].
    - specialize (Hdeq H0). split; lia.
    - destruct (Hm2hi Hn) as (Hle & _).
      assert (d2 <= 54) by (apply pow2_lt_exp; [lia|]; change (2 ^ 54) with (2 * 2 ^ 53); lia).
      split; lia. }
  destruct (shr_m mrs3) as [| m3 | m3] eqn:Em3; [lia | | lia].
  exists m3, e3. split; [reflexivity|]. split; [lia|]. split; [assumption|].
  replace (e3 - e) with (s2 + s1) by lia. rewrite Z.pow_add_r by lia.
  destruct (Z.eq_dec s1 0) as [H0|Hn].
  - specialize (Hm2' H0). rewrite H0 in *. injection Hm2' as ->.
    change (2 ^ 0) with 1. nia.
  - destruct (Hm2hi Hn) as (_ & Hb1 & Hb2). nia.
Qed.

(** [float(n)] for [0 < n < 2^63]: a finite [mx * 2^ex] with
    [-52 <= ex <= 11], never above [n * (1 + 2^-52)]. *)
Lemma float_of_int_pos (n : Z) :
  0 < n < 2 ^ 63 ->
  exists (mx : positive) (ex A : Z),
    Prim2SF (Py.float_of_int n) = S754_finite false mx ex
    /\ 0 <= A <= 52 /\ - A <= ex <= 11
    /\ Zpos mx < 2 ^ 53
    /\ Zpos mx * 2 ^ (ex + A) * 2 ^ 52 <= n * 2 ^ A * (2 ^ 52 + 1).
Proof.
  intros Hn. unfold Py.float_of_int.
  replace (Z.abs n <? 2 ^ 63) with true by (symmetry; apply Z.ltb_lt; lia).
  destruct n as [| p | p]; [lia | | lia].
  rewrite of_uint63_spec, Uint63.of_Z_spec, Z.mod_small by (change Uint63.wB with (2 ^ 63); lia).
  cbn [binary_normalize]. unfold binary_round. rewrite fexp_eq.
  destruct (digits2_facts p) as (d & -> & Hd & Hdlo & Hdhi).
  assert (Hd63 : d <= 63) by (apply pow2_lt_exp; lia).
  replace (Z.max (d + 0 - 53) (-1074)) with (d - 53) by lia.
  unfold shl_align.
  assert (Hsame :
    exists (mx : positive) (ex A : Z),
      binary_round_aux prec emax false (Zpos p) 0 loc_Exact = S754_finite false mx ex
      /\ 0 <= A <= 52 /\ - A <= ex <= 11 /\ Zpos mx < 2 ^ 53
      /\ Zpos mx * 2 ^ (ex + A) * 2 ^ 52 <= Zpos p * 2 ^ A * (2 ^ 52 + 1)).
  { destruct (binary_round_aux_exact false p 0 ltac:(lia)) as (mx & ex & -> & Hex & Hmx & Hb).
    destruct (digits2_facts p) as (d' & Ed' & _ & Hd'lo & Hd'hi). rewrite Ed' in Hex.
    assert (d' <= 63) by (apply pow2_lt_exp; lia).
    exists mx, ex, 0. replace (ex <=? 971) with true by (symmetry; apply Z.leb_le; lia).
    split; [reflexivity|]. split; [lia|]. split; [lia|]. split; [assumption|].
    rewrite Z.sub_0_r in Hb. rewrite Z.add_0_r. change (2 ^ 0) with 1. lia. }
  destruct (d - 53 - 0) as [| k | k] eqn:Ek.
  - exact Hsame.
  - exact Hsame.
  - fold (shift_pos k p).
    assert (Hmz : Zpos (shift_pos k p) = Zpos p * 2 ^ Zpos k)
      by (rewrite shift_pos_correct, Z.pow_pos_fold; lia).
    assert (Hk : Zpos k = 53 - d) by lia.
    assert (Hlt : Zpos (shift_pos k p) < 2 ^ 53).
    { rewrite Hmz. replace 53 with (d + Zpos k) by lia. rewrite Z.pow_add_r by lia.
      apply Z.mul_lt_mono_pos_r; [apply Z.pow_pos_nonneg; lia | lia]. }
    destruct (binary_round_aux_exact false (shift_pos k p) (d - 53) ltac:(lia))
      as (mx & ex & -> & Hex & Hmx & Hb).
    destruct (digits2_facts (shift_pos k p)) as (d' & Ed' & _ & Hd'lo & Hd'hi). rewrite Ed' in Hex.
    assert (d' <= 53) by (apply pow2_lt_exp; lia).
    exists mx, ex, (Zpos k). replace (ex <=? 971) with true by (symmetry; apply Z.leb_le; lia).
    split; [reflexivity|]. split; [lia|]. split; [lia|]. split; [assumption|].
    replace (ex - (d - 53)) with (ex + Zpos k) in Hb by lia. rewrite Hmz in Hb. exact Hb.
Qed.

Lemma scaled_product_bound (n mx my mc PA Pa Pb : Z) :
  0 < n -> 0 < PA -> 0 < Pa -> 0 < Pb -> 0 < mx -> 0 < my -> 0 < mc ->
  mx * Pa * 2 ^ 52 <= n * PA * (2 ^ 52 + 1) ->
  my * Pb * 2 ^ 52 <= mx * mc * (2 ^ 52 + 1) ->
  mc * ((2 ^ 52 + 1) * (2 ^ 52 + 1)) < 2 ^ 157 ->
  my * (Pa * Pb) < n * PA * 2 ^ 53.
Proof.
  intros Hn HPA HPa HPb Hmx Hmy Hmc H1 H2 Hc.
  set (T := 2 ^ 52 + 1) in *.
  assert (HT : 0 < T) by (unfold T; lia).
  assert (S1 : my * Pb * 2 ^ 52 * (Pa * 2 ^ 52) <= mx * mc * T * (Pa * 2 ^ 52))
    by (apply Z.mul_le_mono_nonneg_r; lia).
  assert (S2 : mx * Pa * 2 ^ 52 * (mc * T) <= n * PA * T * (mc * T))
    by (apply Z.mul_le_mono_nonneg_r; lia).
  assert (S3 : n * PA * (mc * (T * T)) < n * PA * 2 ^ 157)
    by (apply Z.mul_lt_mono_pos_l; lia).
  assert (S4 : my * (Pa * Pb) * 2 ^ 104 < n * PA * 2 ^ 53 * 2 ^ 104).
  { change (2 ^ 104) with (2 ^ 52 * 2 ^ 52). change (2 ^ 157) with (2 ^ 53 * (2 ^ 52 * 2 ^ 52)) in S3.
    replace (my * (Pa * Pb) * (2 ^ 52 * 2 ^ 52)) with (my * Pb * 2 ^ 52 * (Pa * 2 ^ 52)) by ring.
    replace (mx * mc * T * (Pa * 2 ^ 52)) with (mx * Pa * 2 ^ 52 * (mc * T)) in S1 by ring.
    replace (n * PA * T * (mc * T)) with (n * PA * (mc * (T * T))) in S2 by ring.
    replace (n * PA * 2 ^ 53 * (2 ^ 52 * 2 ^ 52)) with (n * PA * (2 ^ 53 * (2 ^ 52 * 2 ^ 52))) by ring.
    lia. }
  apply Z.mul_lt_mono_pos_r in S4; [assumption | lia].
Qed.

(** [int(n * c)] for a count [0 < n < 2^63] and a factor [c] in [1/2, 1)
    that stays below [(1 + 2^-52)^-2]: an index below [n]. *)
Lemma int_of_scaled_count (n : Z) (c : float) (mc : positive) :
  0 < n < 2 ^ 63 ->
  Prim2SF c = S754_finite false mc (-53) ->
  Zpos mc * ((2 ^ 52 + 1) * (2 ^ 52 + 1)) < 2 ^ 157 ->
  exists i, Py.int_of_float (Py.float_of_int n * c)%float = Some i /\ 0 <= i < n.
Proof.
  intros Hn Hc Hmc.
  destruct (float_of_int_pos n Hn) as (mx & ex & A & Hx & HA & Hex & Hmx & H1).
  unfold Py.int_of_float. rewrite mul_spec, Hx, Hc. cbn [SF64mul SFmul xorb].
  destruct (binary_round_aux_exact false (mx * mc) (ex + -53) ltac:(lia))
    as (my & ey & -> & Hey & Hmy & H2).
  destruct (digits2_facts (mx * mc)) as (d & Ed & _ & Hdlo & Hdhi). rewrite Ed in Hey.
  assert (Hmc53 : Zpos mc < 2 ^ 53) by lia.
  assert (Hd : d <= 106).
  { apply pow2_lt_exp; [lia|]. rewrite Pos2Z.inj_mul in Hdlo.
    change (2 ^ 106) with (2 ^ 53 * 2 ^ 53).
    assert (Zpos mx * Zpos mc < 2 ^ 53 * 2 ^ 53) by (apply Z.mul_lt_mono_nonneg; lia). lia. }
  replace (ey <=? 971) with true by (symmetry; apply Z.leb_le; lia).
  eexists. split; [reflexivity|]. cbn [cond_Zopp].
  split; [apply Z.shiftl_nonneg; lia|].
  set (a := ex + A) in *. set (b := ey - (ex + -53)) in *.
  assert (Ha : 0 <= a) by lia. assert (Hb : 0 <= b) by lia.
  assert (Hkey : Zpos my * (2 ^ a * 2 ^ b) < n * 2 ^ A * 2 ^ 53).
  { apply (scaled_product_bound n (Zpos mx) (Zpos my) (Zpos mc)); try lia;
      try (apply Z.pow_pos_nonneg; lia). }
  assert (Hkey' : Zpos my * 2 ^ (a + b) < n * 2 ^ (A + 53))
    by (rewrite !Z.pow_add_r by lia; lia).
  clear Hkey.
  destruct (Z.le_gt_cases 0 ey) as [Hpos | Hneg].
  - rewrite Z.shiftl_mul_pow2 by assumption.
    replace (a + b) with (ey + (A + 53)) in Hkey' by lia.
    rewrite Z.pow_add_r, Z.mul_assoc in Hkey' by lia.
    apply Z.mul_lt_mono_pos_r in Hkey'; [assumption | apply Z.pow_pos_nonneg; lia].
  - rewrite Z.shiftl_div_pow2 by lia.
    apply Z.div_lt_upper_bound; [apply Z.pow_pos_nonneg; lia|].
    replace (A + 53) with (- ey + (a + b)) in Hkey' by lia.
    rewrite (Z.pow_add_r 2 (- ey)), Z.mul_assoc in Hkey' by lia.
    apply Z.mul_lt_mono_pos_r in Hkey'; [lia | apply Z.pow_pos_nonneg; lia].
Qed.

End BinaryRounding.

(** ** Metrics calculator *)

Section FloatAlgebra.

Lemma Prim2SF_inj (x y : float) : Prim2SF x = Prim2SF y -> x = y.
Proof.
  intros H. rewrite <- (SF2Prim_Prim2SF x), <- (SF2Prim_Prim2SF y), H. reflexivity.
Qed.

Lemma SFmul_comm (x y : spec_float) : SFmul prec emax x y = SFmul prec emax y x.
Proof.
  destruct x as [sx | sx | | sx mx ex], y as [sy | sy | | sy my ey]; cbn;
    rewrite ?(xorb_comm sx sy), ?(Pos.mul_comm mx my), ?(Z.add_comm ex ey); reflexivity.
Qed.

Lemma float_mul_comm (x y : float) : (x * y = y * x)%float.
Proof. apply Prim2SF_inj. rewrite !mul_spec. apply SFmul_comm. Qed.

Lemma binary_round_aux_sign (m e : Z) (l : location) :
  binary_round_aux prec emax false m e l <> S754_zero true.
Proof.
  unfold binary_round_aux.
  destruct (shr_fexp prec emax m e l) as [mrs1 e1].
  destruct (shr_fexp prec emax _ e1 loc_Exact) as [mrs2 e2].
  destruct (shr_m mrs2); [discriminate | | discriminate].
  destruct (e2 <=? emax - prec); discriminate.
Qed.

(** A falsy float is one of the two zeros. *)
Lemma falsy_float (x : float) :
  Py.truthy x = false -> x = 0%float \/ x = (-0)%float.
Proof.
  unfold Py.truthy. intros H. apply negb_false_iff in H. rewrite FloatAxioms.eqb_spec in H.
  rewrite <- (SF2Prim_Prim2SF x).
  change (Prim2SF 0) with (S754_zero false) in H.
  destruct (Prim2SF x) as [[] | [] | | [] m e]; try discriminate H.
  - right. reflexivity.
  - left. reflexivity.
Qed.

(** [max(0, x) * c] for a positive constant [c] is never [-0.0]. *)
Lemma max0_mul_sign (x c : float) (mc : positive) (ec : Z) :
  Prim2SF c = S754_finite false mc ec ->
  Prim2SF (Py.max0 x * c)%float <> S754_zero true.
Proof.
  intros Hc. rewrite mul_spec, Hc. unfold Py.max0.
  destruct (0 <? x)%float eqn:Hlt.
  - rewrite ltb_spec in Hlt. change (Prim2SF 0) with (S754_zero false) in Hlt.
    destruct (Prim2SF x) as [[] | [] | | [] m e]; try discriminate Hlt; cbn; try discriminate.
    apply binary_round_aux_sign.
  - change (Prim2SF 0) with (S754_zero false). cbn. discriminate.
Qed.

(** Adding either zero to a value that is not [-0.0] gives the same sum. *)
Lemma add_signed_zero (a : float) :
  Prim2SF a <> S754_zero true -> (a + 0 = a + -0)%float.
Proof.
  intros Ha. apply Prim2SF_inj. rewrite !add_spec.
  change (Prim2SF 0) with (S754_zero false). change (Prim2SF (-0)) with (S754_zero true).
  destruct (Prim2SF a) as [[] | [] | | [] m e]; try reflexivity. contradiction.
Qed.

End FloatAlgebra.

(** C1: the performance score is 0 whenever the error flag is set, and
    otherwise [round(0.6 * max(0, 100 - latency_ms/20) + 0.4 * min(100, tps * 5), 2)],
    for every latency and every tokens-per-second value; in particular
    (latency 0, tps 20) scores 100.00, (latency 2000, tps 0) scores 0.00 and
    (latency 1000, tps 10) scores 50.00. *)
Theorem performance_score_formula :
  (forall latency_ms tps, calculate_performance_score latency_ms tps true = 0%float)
  /\ (forall latency_ms tps error_occurred,
        calculate_performance_score latency_ms tps error_occurred
        = spec_score latency_ms tps error_occurred)
  /\ calculate_performance_score 0 20 false = 100%float
  /\ calculate_performance_score 2000 0 false = 0%float
  /\ calculate_performance_score 1000 10 false = 50%float.
Proof.
  split; [reflexivity|]. split; [| repeat split; vm_compute; reflexivity].
  intros latency_ms tps [|]; [reflexivity|].
  unfold calculate_performance_score, spec_score. f_equal.
  rewrite (float_mul_comm 0.6), (float_mul_comm 0.4).
  destruct (Py.truthy tps) eqn:Htps; [reflexivity|].
  destruct (falsy_float tps Htps) as [-> | ->]; [reflexivity|].
  change (Py.min100 (0 * 5) * 0.4)%float with 0%float.
  change (Py.min100 (-0 * 5) * 0.4)%float with (-0)%float.
  apply add_signed_zero, (max0_mul_sign _ 0.6 5404319552844595 (-53)). reflexivity.
Qed.

(** ** Latency percentiles *)

Section Percentiles.

Lemma insert_sorted_perm (x : Z) (l : list Z) :
  Permutation (x :: l) (Analytics.insert_sorted x l).
Proof.
  induction l as [| y l IH]; cbn; [reflexivity|].
  destruct (x <=? y); [reflexivity|].
  rewrite perm_swap. apply perm_skip, IH.
Qed.

Lemma sorted_perm (l : list Z) : Permutation l (Analytics.sorted l).
Proof.
  induction l as [| x l IH]; cbn; [constructor|].
  rewrite <- insert_sorted_perm. apply perm_skip, IH.
Qed.

Lemma insert_sorted_hdrel (a x : Z) (l : list Z) :
  a <= x -> HdRel Z.le a l -> HdRel Z.le a (Analytics.insert_sorted x l).
Proof.
  intros Hax Hl. destruct l as [| y l]; cbn; [constructor; assumption|].
  destruct (x <=? y); constructor; [assumption|].
  inversion Hl; assumption.
Qed.

Lemma insert_sorted_ascending (x : Z) (l : list Z) :
  Sorted Z.le l -> Sorted Z.le (Analytics.insert_sorted x l).
Proof.
  induction 1 as [| y l Hs IH Hhd]; cbn; [repeat constructor|].
  destruct (x <=? y) eqn:E.
  - constructor; [constructor; assumption|]. constructor. apply Z.leb_le, E.
  - constructor; [assumption|]. apply insert_sorted_hdrel; [|assumption].
    apply Z.leb_gt in E. lia.
Qed.

Lemma sorted_ascending (l : list Z) : Sorted Z.le (Analytics.sorted l).
Proof.
  induction l as [| x l IH]; cbn; [constructor|]. apply insert_sorted_ascending, IH.
Qed.

Lemma sorted_length (l : list Z) : List.length (Analytics.sorted l) = List.length l.
Proof. symmetry. apply Permutation_length, sorted_perm. Qed.

Lemma index_in_range (l : list Z) (i : Z) :
  0 <= i < Z.of_nat (List.length l) -> Analytics.index l i = Some (nth (Z.to_nat i) l 0).
Proof.
  intros Hi. unfold Analytics.index.
  replace (0 <=? i) with true by (symmetry; apply Z.leb_le; lia).
  destruct (lookup_lt_is_Some_2 l (Z.to_nat i) ltac:(lia)) as [x Hx].
  rewrite Hx. f_equal. rewrite nth_lookup, Hx. reflexivity.
Qed.

Lemma percentile_in_range (latencies : list Z) (q : float) (mq : positive) :
  Z.of_nat (List.length latencies) < 2 ^ 63 ->
  Prim2SF q = S754_finite false mq (-53) ->
  Zpos mq * ((2 ^ 52 + 1) * (2 ^ 52 + 1)) < 2 ^ 157 ->
  Analytics.percentile latencies q = Some (spec_percentile latencies q).
Proof.
  intros Hlen Hq Hmq. destruct latencies as [| x l]; [reflexivity|].
  unfold Analytics.percentile, spec_percentile, floor_index, Py.trunc.
  assert (Hcount : 0 < Z.of_nat (List.length (x :: l)) < 2 ^ 63) by (cbn [List.length] in *; lia).
  set (count := Z.of_nat (List.length (x :: l))) in *.
  destruct (int_of_scaled_count count q mq Hcount Hq Hmq) as (i & -> & Hi).
  cbn [default]. rewrite index_in_range by (rewrite sorted_length; fold count; lia).
  do 2 f_equal. unfold id. lia.
Qed.

Lemma index_exact_upto_spec (bound : nat) (q : float) (pct : Z) :
  index_exact_upto bound q pct = true ->
  forall count, 0 <= count <= Z.of_nat bound -> floor_index count q = count * pct / 100.
Proof.
  intros H count Hc. unfold index_exact_upto in H. rewrite forallb_forall in H.
  specialize (H (Z.to_nat count)). rewrite Z2Nat.id in H by lia.
  apply Z.eqb_eq, H, in_seq. lia.
Qed.

(** On windows of up to 2000 records the binary64 product gives the exact
    integer part of 95% and 99% of the count. *)
Lemma floor_index_exact (count : Z) :
  0 <= count <= 2000 ->
  floor_index count 0.95 = count * 95 / 100 /\ floor_index count 0.99 = count * 99 / 100.
Proof.
  intros Hc. split.
  - apply (index_exact_upto_spec 2000); [vm_compute; reflexivity | lia].
  - apply (index_exact_upto_spec 2000); [vm_compute; reflexivity | lia].
Qed.

End Percentiles.

(** C9: each latency percentile of the analytics aggregation ([p95], [p99])
    is the element of the ascending-sorted latency list at index
    [floor(count * percentile)]; clamping that index to [count - 1] changes
    nothing, because the index never reaches [count]; over an empty latency
    list the result is 0 and no fault is raised.  A Python list holds fewer
    than [2^63] items.  The product is taken in binary64; up to 2000
    records it is the exact integer part of 95% (99%) of the count. *)
Theorem percentile_at_clamped_index (latencies : list Z) :
  Z.of_nat (List.length latencies) < 2 ^ 63 ->
  Analytics.percentile latencies 0.95 = Some (spec_percentile latencies 0.95)
  /\ Analytics.percentile latencies 0.99 = Some (spec_percentile latencies 0.99)
  /\ Analytics.percentile nil 0.95 = Some 0
  /\ Analytics.percentile nil 0.99 = Some 0
  /\ Sorted Z.le (Analytics.sorted latencies)
  /\ Permutation latencies (Analytics.sorted latencies)
  /\ (Z.of_nat (List.length latencies) <= 2000 ->
      floor_index (Z.of_nat (List.length latencies)) 0.95
        = Z.of_nat (List.length latencies) * 95 / 100
      /\ floor_index (Z.of_nat (List.length latencies)) 0.99
          = Z.of_nat (List.length latencies) * 99 / 100).
Proof.
  intros Hlen.
  split; [apply (percentile_in_range latencies 0.95 8556839292003942 Hlen);
          [reflexivity | vm_compute; reflexivity]|].
  split; [apply (percentile_in_range latencies 0.99 8917127262193582 Hlen);
          [reflexivity | vm_compute; reflexivity]|].
  split; [reflexivity|]. split; [reflexivity|].
  split; [apply sorted_ascending|]. split; [apply sorted_perm|].
  intros Hsmall. apply floor_index_exact. lia.
Qed.

(** The percentiles of three latencies: both are the largest one. *)
Lemma percentile_at_clamped_index_witness :
  Analytics.percentile (30 :: 10 :: 20 :: nil) 0.95 = Some 30
  /\ Analytics.percentile (30 :: 10 :: 20 :: nil) 0.99 = Some 30.
Proof.
  destruct (percentile_at_clamped_index (30 :: 10 :: 20 :: nil)) as (H95 & H99 & _).
  - vm_compute. reflexivity.
  - split; [exact H95 | exact H99].
Defined.

(** ** Alert evaluator *)

Section AlertEvaluator.

Lemma rule_event_logs (db1 db2 : Db) (log_entry : LLMRequestLog) (rule : AlertRule) :
  logs db1 = logs db2 -> rule_event db1 log_entry rule = rule_event db2 log_entry rule.
Proof.
  intros H. unfold rule_event, resolve_metric, query_recent. rewrite H. reflexivity.
Qed.

Lemma check_alert_rules_fold (db : Db) (log_entry : LLMRequestLog) (rs : list AlertRule) (acc : Db) :
  logs acc = logs db ->
  fold_left (fun acc rule =>
               match rule_event acc log_entry rule with
               | Some ev => add_event acc ev
               | None => acc
               end) rs acc
  = {| logs := logs acc; rules := rules acc;
       events := events acc ++ omap (rule_event db log_entry) rs |}.
Proof.
  revert acc. induction rs as [| rule rs IH]; intros acc Hacc; cbn [fold_left omap list_omap].
  - destruct acc; cbn. rewrite app_nil_r. reflexivity.
  - rewrite (rule_event_logs acc db) by assumption.
    destruct (rule_event db log_entry rule) as [ev|].
    + rewrite IH by assumption. cbn. rewrite <- app_assoc. reflexivity.
    + apply IH, Hacc.
Qed.

(** One evaluation leaves the log and rule tables as they are and appends,
    for each active rule in turn, the event of that rule. *)
Lemma check_alert_rules_spec (db : Db) (log_entry : LLMRequestLog) :
  check_alert_rules db log_entry
  = {| logs := logs db; rules := rules db;
       events := events db ++ events_of_rules db log_entry (rules db) |}.
Proof. unfold check_alert_rules. apply check_alert_rules_fold. reflexivity. Qed.

Lemma events_of_rules_app (db : Db) (log_entry : LLMRequestLog) (rs1 rs2 : list AlertRule) :
  events_of_rules db log_entry (rs1 ++ rs2)
  = events_of_rules db log_entry rs1 ++ events_of_rules db log_entry rs2.
Proof. unfold events_of_rules. rewrite List.filter_app, omap_app. reflexivity. Qed.

Lemma events_of_rules_cons (db : Db) (log_entry : LLMRequestLog) (rule : AlertRule) (rs : list AlertRule) :
  is_active rule = true ->
  events_of_rules db log_entry (rule :: rs)
  = match rule_event db log_entry rule with
    | Some ev => ev :: events_of_rules db log_entry rs
    | None => events_of_rules db log_entry rs
    end.
Proof. intros Ha. unfold events_of_rules. cbn. rewrite Ha. reflexivity. Qed.

End AlertEvaluator.

(** C8 (as amended): when the comparison of an active rule matches ([gt]
    strictly greater, [lt] strictly less, [eq] equal) the evaluation creates
    exactly one event for it, whose message is
    ["{rule}: {metric} ({value}) {operator} {threshold}"], the colon
    directly after the rule name. *)
Theorem alert_event_on_match (db : Db) (log_entry : LLMRequestLog) (rule : AlertRule)
    (v : float) (rs1 rs2 : list AlertRule) :
  rules db = rs1 ++ rule :: rs2 ->
  is_active rule = true ->
  resolve_metric db log_entry (metric rule) = Some v ->
  (operator rule = "gt" /\ (threshold rule <? v)%float = true)
  \/ (operator rule = "lt" /\ (v <? threshold rule)%float = true)
  \/ (operator rule = "eq" /\ (v =? threshold rule)%float = true) ->
  let ev := {| ev_rule_id := rule_id rule;
               ev_rule_name := name rule;
               ev_metric_value := v;
               ev_threshold := threshold rule;
               ev_message :=
                 name rule +:+ ": " +:+ metric rule +:+ " (" +:+ Repr.float_repr v +:+ ") "
                   +:+ operator rule +:+ " " +:+ Repr.float_repr (threshold rule) |} in
  rule_event db log_entry rule = Some ev
  /\ events (check_alert_rules db log_entry)
     = events db ++ events_of_rules db log_entry rs1 ++ ev :: events_of_rules db log_entry rs2.
Proof.
  intros Hrules Hactive Hv Hmatch ev.
  assert (Hev : rule_event db log_entry rule = Some ev).
  { unfold rule_event. rewrite Hv.
    assert (Ht : triggered (operator rule) v (threshold rule) = true).
    { unfold triggered.
      destruct Hmatch as [[-> ->] | [[-> ->] | [-> ->]]]; reflexivity. }
    rewrite Ht. reflexivity. }
  split; [exact Hev|].
  rewrite check_alert_rules_spec. cbn [events]. rewrite Hrules, events_of_rules_app.
  rewrite events_of_rules_cons, Hev by assumption. reflexivity.
Qed.

(** C10: an active rule whose metric is none of [latency],
    [tokens_per_second], [error_rate], or whose operator is none of [gt],
    [lt], [eq], gets no event: an unrecognized metric resolves to no value,
    an unrecognized operator triggers on no value, and the events of an
    evaluation are those of the other rules. *)
Theorem unrecognized_rule_creates_no_event (db : Db) (log_entry : LLMRequestLog)
    (rule : AlertRule) (rs1 rs2 : list AlertRule) :
  rules db = rs1 ++ rule :: rs2 ->
  is_active rule = true ->
  (metric rule <> "latency" /\ metric rule <> "tokens_per_second" /\ metric rule <> "error_rate")
  \/ (operator rule <> "gt" /\ operator rule <> "lt" /\ operator rule <> "eq") ->
  rule_event db log_entry rule = None
  /\ ((metric rule <> "latency" /\ metric rule <> "tokens_per_second" /\ metric rule <> "error_rate") ->
      resolve_metric db log_entry (metric rule) = None)
  /\ ((operator rule <> "gt" /\ operator rule <> "lt" /\ operator rule <> "eq") ->
      forall v, triggered (operator rule) v (threshold rule) = false)
  /\ events (check_alert_rules db log_entry)
     = events db ++ events_of_rules db log_entry rs1 ++ events_of_rules db log_entry rs2.
Proof.
  intros Hrules Hactive Hun.
  assert (Hm : (metric rule <> "latency" /\ metric rule <> "tokens_per_second" /\ metric rule <> "error_rate") ->
               resolve_metric db log_entry (metric rule) = None).
  { intros (H1 & H2 & H3). unfold resolve_metric.
    apply String.eqb_neq in H1, H2, H3. rewrite H1, H2, H3. reflexivity. }
  assert (Ho : (operator rule <> "gt" /\ operator rule <> "lt" /\ operator rule <> "eq") ->
               forall v, triggered (operator rule) v (threshold rule) = false).
  { intros (H1 & H2 & H3) v. unfold triggered.
    apply String.eqb_neq in H1, H2, H3. rewrite H1, H2, H3. reflexivity. }
  assert (Hev : rule_event db log_entry rule = None).
  { unfold rule_event. destruct Hun as [Hun | Hun].
    - rewrite (Hm Hun). reflexivity.
    - destruct (resolve_metric db log_entry (metric rule)); [|reflexivity].
      rewrite (Ho Hun). reflexivity. }
  repeat split; try assumption.
  rewrite check_alert_rules_spec. cbn [events]. rewrite Hrules, events_of_rules_app.
  rewrite events_of_rules_cons, Hev by assumption. reflexivity.
Qed.

Section RecentWindow.

Lemma insert_desc_perm (r : LLMRequestLog) (l : list LLMRequestLog) :
  Permutation (r :: l) (insert_desc r l).
Proof.
  induction l as [| x l IH]; cbn; [reflexivity|].
  destruct (start_time x <? start_time r); [reflexivity|].
  rewrite perm_swap. apply perm_skip, IH.
Qed.

Lemma insert_desc_hdrel (a r : LLMRequestLog) (l : list LLMRequestLog) :
  start_desc a r -> HdRel start_desc a l -> HdRel start_desc a (insert_desc r l).
Proof.
  intros Har Hl. destruct l as [| x l]; cbn; [constructor; assumption|].
  destruct (start_time x <? start_time r); constructor; [assumption|].
  inversion Hl; assumption.
Qed.

Lemma insert_desc_sorted (r : LLMRequestLog) (l : list LLMRequestLog) :
  Sorted start_desc l -> Sorted start_desc (insert_desc r l).
Proof.
  induction 1 as [| x l Hs IH Hhd]; cbn; [repeat constructor|].
  destruct (start_time x <? start_time r) eqn:E.
  - constructor; [constructor; assumption|]. constructor.
    apply Z.ltb_lt in E. unfold start_desc. lia.
  - constructor; [assumption|]. apply insert_desc_hdrel; [|assumption].
    apply Z.ltb_ge in E. exact E.
Qed.

Lemma order_fold (l acc : list LLMRequestLog) :
  Sorted start_desc acc ->
  Permutation (l ++ acc) (fold_left (fun acc r => insert_desc r acc) l acc)
  /\ Sorted start_desc (fold_left (fun acc r => insert_desc r acc) l acc).
Proof.
  revert acc. induction l as [| r l IH]; intros acc Hacc; cbn [fold_left app].
  - split; [reflexivity | assumption].
  - destruct (IH (insert_desc r acc) (insert_desc_sorted r acc Hacc)) as [Hp Hs].
    split; [|assumption].
    rewrite <- Hp, <- insert_desc_perm. apply Permutation_middle.
Qed.

Lemma order_by_start_desc_perm (l : list LLMRequestLog) :
  Permutation l (order_by_start_desc l).
Proof.
  destruct (order_fold l nil ltac:(constructor)) as [Hp _].
  rewrite app_nil_r in Hp. exact Hp.
Qed.

Lemma order_by_start_desc_sorted (l : list LLMRequestLog) :
  Sorted start_desc (order_by_start_desc l).
Proof. apply (order_fold l nil). constructor. Qed.

Lemma query_recent_length (db : Db) (n : nat) :
  List.length (query_recent db n) = Nat.min n (List.length (logs db)).
Proof.
  unfold query_recent. rewrite length_firstn.
  rewrite <- (Permutation_length (order_by_start_desc_perm (logs db))). reflexivity.
Qed.

End RecentWindow.

(** C7 (as amended): for an [error_rate] rule the resolved value is the
    percentage, among the most recent records (at most 10, by decreasing
    start time), of those whose error message is neither null nor empty;
    the denominator is the number of records in that window, which is the
    whole history when it holds fewer than 10; the value is 0 when the
    history is empty. *)
Theorem error_rate_over_available_window (db : Db) (log_entry : LLMRequestLog) :
  let recent := query_recent db 10 in
  resolve_metric db log_entry "error_rate" = Some (error_rate recent)
  /\ (logs db = nil -> resolve_metric db log_entry "error_rate" = Some 0%float)
  /\ (recent <> nil ->
      error_rate recent
      = (Py.int_truediv (Z.of_nat (List.length (List.filter has_error recent)))
                        (Pos.of_nat (List.length recent)) * 100)%float)
  /\ List.length recent = Nat.min 10 (List.length (logs db))
  /\ (exists ordered, Permutation (logs db) ordered /\ Sorted start_desc ordered
                      /\ recent = firstn 10 ordered)
  /\ (forall log, has_error log = true <->
                  exists msg, error_message log = Some msg /\ msg <> ""%string).
Proof.
  intros recent. split; [reflexivity|]. split; [|split; [|split; [|split]]].
  - intros Hnil. unfold resolve_metric, query_recent. rewrite Hnil. reflexivity.
  - intros Hne. unfold error_rate, error_count. destruct recent; [contradiction | reflexivity].
  - apply query_recent_length.
  - exists (order_by_start_desc (logs db)).
    split; [apply order_by_start_desc_perm|]. split; [apply order_by_start_desc_sorted | reflexivity].
  - intros log. unfold has_error. destruct (error_message log) as [msg|].
    + split.
      * intros H. exists msg. split; [reflexivity|]. destruct msg; [discriminate H | discriminate].
      * intros (msg' & [= <-] & Hne). destruct msg; [contradiction | reflexivity].
    + split; [discriminate|]. intros (msg & H & _). discriminate H.
Qed.

(** ** Stream capture relay *)

Section Relay.

Lemma append_nil_r (s : string) : s +:+ "" = s.
Proof.
  induction s as [| c s IH]; [reflexivity|].
  change (String c (s +:+ "") = String c s). rewrite IH. reflexivity.
Qed.

(** Joining with the empty separator is concatenation. *)
Lemma join_concat (l : list string) : Str.join "" l = fold_right String.append ""%string l.
Proof.
  induction l as [| x l IH]; [reflexivity|].
  destruct l as [| y l].
  - change (x = x +:+ ""). symmetry. apply append_nil_r.
  - change (x +:+ Str.join "" (y :: l) = x +:+ fold_right String.append ""%string (y :: l)).
    rewrite IH. reflexivity.
Qed.

Lemma has_nonspace_rev_onto (s acc : string) :
  has_nonspace (Str.rev_onto s acc) = has_nonspace s || has_nonspace acc.
Proof.
  revert acc. induction s as [| c s IH]; intros acc; cbn; [reflexivity|].
  rewrite IH. cbn. destruct (Str.is_space c), (has_nonspace s), (has_nonspace acc); reflexivity.
Qed.

Lemma has_nonspace_lstrip (s : string) : has_nonspace (Str.lstrip s) = has_nonspace s.
Proof.
  induction s as [| c s IH]; cbn; [reflexivity|].
  destruct (Str.is_space c) eqn:E; cbn; [exact IH | rewrite E; reflexivity].
Qed.

Lemma truthy_lstrip (s : string) : Str.truthy (Str.lstrip s) = has_nonspace s.
Proof.
  induction s as [| c s IH]; cbn; [reflexivity|].
  destruct (Str.is_space c); cbn; [exact IH | reflexivity].
Qed.

(** [chunk.strip()] is non-empty exactly when the chunk has a character
    that is not whitespace. *)
Lemma truthy_strip (s : string) : Str.truthy (Str.strip s) = has_nonspace s.
Proof.
  unfold Str.strip, Str.rev.
  set (t := Str.lstrip (Str.rev_onto (Str.lstrip s) "")).
  assert (Ht : has_nonspace t = has_nonspace s).
  { unfold t. rewrite has_nonspace_lstrip, has_nonspace_rev_onto, has_nonspace_lstrip.
    cbn. apply orb_false_r. }
  assert (Htt : Str.truthy t = has_nonspace s).
  { unfold t. rewrite truthy_lstrip, has_nonspace_rev_onto, has_nonspace_lstrip. cbn. apply orb_false_r. }
  rewrite <- Htt. destruct t as [| c t']; [reflexivity|].
  cbn [Str.rev_onto]. clear.
  assert (H : forall u acc, Str.truthy acc = true -> Str.truthy (Str.rev_onto u acc) = true).
  { induction u as [| c' u IH]; intros acc Hacc; cbn; [assumption | apply IH; reflexivity]. }
  rewrite H; reflexivity.
Qed.

Lemma relay_fold (arrivals : list (Z * string)) (st : RelayState) :
  let kept := List.filter has_nonspace (map snd arrivals) in
  yielded (fold_left relay_step arrivals st) = yielded st ++ kept
  /\ response_chunks (fold_left relay_step arrivals st) = response_chunks st ++ kept.
Proof.
  revert st. induction arrivals as [| [now chunk] arrivals IH]; intros st; cbn [fold_left map List.filter snd].
  - rewrite !app_nil_r. split; reflexivity.
  - destruct (IH (relay_step st (now, chunk))) as [Hy Hr].
    cbn zeta in Hy, Hr. rewrite Hy, Hr. unfold relay_step. rewrite truthy_strip.
    destruct (has_nonspace chunk); cbn [yielded response_chunks].
    + rewrite <- !app_assoc. split; reflexivity.
    + split; reflexivity.
Qed.

End Relay.

(** ** Proxy gateway *)

Section Gateway.

Lemma logs_evaluate (w : World) (r : LLMRequestLog) :
  logs (db (evaluate w r)) = logs (db w).
Proof. unfold evaluate. cbn [db]. rewrite check_alert_rules_spec. reflexivity. Qed.

Lemma logs_persist (w : World) (r : LLMRequestLog) :
  logs (db (persist w r)) = logs (db w) ++ r :: nil.
Proof. reflexivity. Qed.

(** [0 / d] is [0.0] for every positive [d]. *)
Lemma zero_div_pos (d : float) : (0 <? d)%float = true -> (0 / d)%float = 0%float.
Proof.
  intros H. apply Prim2SF_inj. rewrite div_spec. rewrite ltb_spec in H.
  change (Prim2SF 0) with (S754_zero false) in *.
  destruct (Prim2SF d) as [[] | [] | | [] m e]; try discriminate H; reflexivity.
Qed.

(** The outbound call is the only use the gateway makes of the backend. *)
Lemma proxy_backend_call (llm_url : string) (b1 b2 : Backend) (clock : Clock)
    (request_body : ChatBody) (w : World) :
  post b1 llm_url (outbound_payload llm_url request_body)
    = post b2 llm_url (outbound_payload llm_url request_body) ->
  stream b1 llm_url (outbound_payload llm_url request_body)
    = stream b2 llm_url (outbound_payload llm_url request_body) ->
  proxy_chat_completions llm_url b1 clock (inr request_body) w
  = proxy_chat_completions llm_url b2 clock (inr request_body) w.
Proof. intros Hp Hs. unfold proxy_chat_completions. rewrite Hp, Hs. reflexivity. Qed.

(** What one request writes to the journal, path by path. *)
Lemma proxy_journal (llm_url : string) (backend : Backend) (clock : Clock)
    (request_json : Exn + ChatBody) (w : World) :
  let w' := snd (proxy_chat_completions llm_url backend clock request_json w) in
  exists delta,
    journal w' = journal w ++ delta
    /\ logs (db w') = logs (db w) ++ persisted delta
    /\ ((delta = nil)
        \/ (exists e, delta = Persisted (fallback_log (t_start clock) (t_fallback clock) e) :: nil)
        \/ (exists info e,
              let r := stream_error_log info (t_end clock) e in
              delta = Persisted r :: Evaluated r :: nil)
        \/ (exists info st,
              let r := stream_success_log info (t_end clock) st in
              delta = Persisted r :: Evaluated r :: nil)
        \/ (exists body data,
              let r := success_log body (t_start clock) (t_end clock) data in
              delta = Persisted r :: Evaluated r :: nil)
        \/ (exists body e e',
              let r := backend_error_log body (t_start clock) (t_end clock) e in
              delta = Persisted r :: Evaluated r
                        :: Persisted (fallback_log (t_start clock) (t_fallback clock) e') :: nil)).
Proof.
  unfold proxy_chat_completions.
  destruct request_json as [e | request_body].
  - destruct e; cbn [outer_handlers snd];
      try (eexists; split; [reflexivity|]; split;
           [cbn; reflexivity | right; left; eexists; reflexivity]).
    exists nil. rewrite !app_nil_r. split; [reflexivity|]. split; [reflexivity | left; reflexivity].
  - destruct (default false (body_stream request_body)).
    + unfold stream_llm_response.
      destruct (stream backend llm_url (outbound_payload llm_url request_body)) as [arrivals [e|]];
        cbn [fst snd];
        (eexists; split; [cbn; rewrite <- app_assoc; reflexivity|]; split;
         [rewrite logs_evaluate; reflexivity|]).
      * right; right; left. eexists _, _. reflexivity.
      * right; right; right; left. eexists _, _. reflexivity.
    + destruct (post backend llm_url (outbound_payload llm_url request_body)) as [e | data].
      * assert (Hre : exists s d, reraise e = HTTPException s d)
          by (destruct e; cbn; eexists _, _; reflexivity).
        destruct Hre as (s & d & ->). cbn [outer_handlers snd].
        eexists. split; [cbn; rewrite <- !app_assoc; reflexivity|]. split.
        -- cbn [db persist]. cbn [logs add_log]. rewrite logs_evaluate. cbn. rewrite <- app_assoc. reflexivity.
        -- do 5 right. eexists _, _, _. reflexivity.
      * cbn [snd]. eexists. split; [cbn; rewrite <- app_assoc; reflexivity|]. split.
        -- rewrite logs_evaluate. reflexivity.
        -- do 4 right; left. eexists _, _. reflexivity.
Qed.

End Gateway.

(** C3: every record the gateway persists with a non-null error message has
    performance score 0 and an empty output text; this holds on each of the
    three paths that set an error message (streaming error, non-streaming
    backend error, outermost fallback), and the records of the successful
    paths carry no error message. *)
Theorem persisted_error_records_invariant (llm_url : string) (backend : Backend)
    (clock : Clock) (request_json : Exn + ChatBody) (w : World) :
  let w' := snd (proxy_chat_completions llm_url backend clock request_json w) in
  (exists delta,
     journal w' = journal w ++ delta
     /\ logs (db w') = logs (db w) ++ persisted delta
     /\ Forall error_invariant (persisted delta))
  /\ (forall info end_time e,
        let r := stream_error_log info end_time e in
        error_message r = Some (exn_str e)
        /\ performance_score r = Some 0%float /\ output_text r = ""%string)
  /\ (forall body start_time end_time e,
        let r := backend_error_log body start_time end_time e in
        error_message r = Some (exn_str e)
        /\ performance_score r = Some 0%float /\ output_text r = ""%string)
  /\ (forall start_time end_time e,
        let r := fallback_log start_time end_time e in
        error_message r = Some ("Unexpected error: " +:+ exn_str e)
        /\ performance_score r = Some 0%float /\ output_text r = ""%string).
Proof.
  intros w'. split; [| repeat split].
  destruct (proxy_journal llm_url backend clock request_json w) as (delta & Hj & Hl & Hcases).
  exists delta. split; [exact Hj|]. split; [exact Hl|].
  destruct Hcases as [-> | [(e & ->) | [(info & e & ->) | [(info & st & ->) | [(body & data & ->) | (body & e & e' & ->)]]]]];
    cbn [persisted omap list_omap];
    repeat (apply List.Forall_cons;
            [unfold error_invariant; intros Herr;
             first [split; reflexivity | exfalso; apply Herr; reflexivity] |]);
    apply List.Forall_nil.
Qed.

(** ** The claims on concrete and general inputs *)

Section Claims.

Import Examples.

(** C2: the outermost handler persists its record and returns without an
    alert pass.  A non-streaming call to an unreachable backend persists
    the backend-error record, evaluates the rules over it, and then, the
    [HTTPException] of the inner handler being caught by the outer
    [except Exception], persists a second record that no evaluation ever
    sees, although evaluating it would raise alerts. *)
Theorem fallback_record_never_evaluated :
  let e := RequestError "All connection attempts failed" in
  let r1 := backend_error_log plain_request 0 2000000 e in
  let r2 := fallback_log 0 2001000 (reraise e) in
  let result := proxy_chat_completions lmstudio_url unreachable clock (inr plain_request) fresh in
  fst result
    = Failure 500 "Unexpected error: 503: Connection error to local LLM: All connection attempts failed"
  /\ journal (snd result) = Persisted r1 :: Evaluated r1 :: Persisted r2 :: nil
  /\ logs (db (snd result)) = r1 :: r2 :: nil
  /\ error_message r2 <> None
  /\ performance_score r2 = Some 0%float
  /\ ~ In (Evaluated r2) (journal (snd result))
  /\ List.length (events (db (snd result))) = 2%nat
  /\ List.length (events (check_alert_rules (db (snd result)) r2)) = 4%nat.
Proof.
  cbv zeta. split; [vm_compute; reflexivity|]. split; [reflexivity|].
  split; [reflexivity|]. split; [discriminate|]. split; [reflexivity|].
  split; [| split; vm_compute; reflexivity].
  intros [H | [H | [H | []]]]; discriminate H.
Qed.

(** C4 (as amended): the relay forwards, unmodified and in arrival order,
    exactly the chunks that have a character other than whitespace; a
    chunk of whitespace only is neither forwarded nor accumulated.  When
    the stream ends normally the output text of the one record persisted
    is the concatenation of the forwarded chunks; when the stream breaks,
    one diagnostic chunk follows the forwarded ones and the record's
    output text is empty. *)
Theorem stream_relay_forwards_nonblank (arrivals : list (Z * string)) (fin : option Exn)
    (w : World) (info : LogStartInfo) (end_time : Z) :
  let kept := List.filter has_nonspace (map snd arrivals) in
  let result := stream_llm_response (arrivals, fin) w info end_time in
  exists r,
    logs (db (snd result)) = logs (db w) ++ r :: nil
    /\ match fin with
       | None =>
           fst result = kept
           /\ output_text r = fold_right String.append ""%string (fst result)
           /\ error_message r = None
       | Some e =>
           fst result = kept ++ error_chunk e :: nil
           /\ output_text r = ""%string
           /\ error_message r = Some (exn_str e)
       end.
Proof.
  intros kept result. subst result. unfold stream_llm_response. cbn [fst snd].
  destruct (relay_fold arrivals relay_start) as [Hy Hr]. cbn zeta in Hy, Hr.
  cbn [relay_start yielded response_chunks app] in Hy, Hr. fold kept in Hy, Hr.
  destruct fin as [e |]; cbn [fst snd]; eexists;
    (split; [rewrite logs_evaluate; reflexivity|]); rewrite Hy.
  - repeat split.
  - cbn [stream_success_log output_text error_message]. rewrite Hr, join_concat. repeat split.
Qed.

(** C4, as stated, fails: a whitespace-only chunk is not relayed, and on a
    broken stream the forwarded text is not the persisted output text. *)
Lemma stream_relay_drops_blank_chunk :
  let arrivals := (100000, "Hello"%string) :: (200000, " "%string) :: (300000, "world"%string) :: nil in
  fst (stream_llm_response (arrivals, None) fresh info 2000000) <> map snd arrivals
  /\ let broken := stream_llm_response ((100000, "Hello"%string) :: nil, Some (OtherError "boom"))
                     fresh info 2000000 in
     map output_text (logs (db (snd broken))) = ""%string :: nil
     /\ fold_right String.append ""%string (fst broken) <> ""%string.
Proof.
  cbv zeta. split; [vm_compute; discriminate|]. split; [reflexivity | vm_compute; discriminate].
Qed.

(** C5 (as amended): for a backend of the native-chat shape the outbound
    payload consists of [model], [messages] and [stream] alone, on
    streaming and non-streaming calls alike: none of the sampling
    parameters of the inbound request is forwarded.  They are kept in the
    metadata of the persisted record, and the payload is the only thing the
    backend is given. *)
Theorem native_chat_payload_has_no_sampling (llm_url : string) (request_body : ChatBody) :
  uses_native_chat llm_url = true ->
  outbound_payload llm_url request_body
    = ollama_request (default "unknown"%string (body_model request_body))
                     (default nil (body_messages request_body))
                     (default false (body_stream request_body))
  /\ body_params (outbound_payload llm_url request_body) = ∅
  /\ (forall key, get_param (outbound_payload llm_url request_body) key = SNone)
  /\ (forall key, key ∈ ["temperature"; "max_tokens"; "top_p"; "frequency_penalty"; "presence_penalty"]%string ->
        metadata_of request_body !! key = Some (get_param request_body key))
  /\ (forall (b1 b2 : Backend) clock w,
        post b1 llm_url (outbound_payload llm_url request_body)
          = post b2 llm_url (outbound_payload llm_url request_body) ->
        stream b1 llm_url (outbound_payload llm_url request_body)
          = stream b2 llm_url (outbound_payload llm_url request_body) ->
        proxy_chat_completions llm_url b1 clock (inr request_body) w
        = proxy_chat_completions llm_url b2 clock (inr request_body) w).
Proof.
  intros Hn. unfold outbound_payload. rewrite Hn.
  split; [reflexivity|]. split; [reflexivity|]. split; [intros key; reflexivity|]. split.
  - intros key Hkey. unfold metadata_of.
    repeat (apply elem_of_cons in Hkey; destruct Hkey as [-> | Hkey]; [reflexivity|]).
    apply elem_of_nil in Hkey. contradiction.
  - intros b1 b2 clock w Hp Hs. apply proxy_backend_call; unfold outbound_payload; rewrite Hn; assumption.
Qed.

(** The payload for the native-chat URL, streaming and not. *)
Lemma native_chat_payload_has_no_sampling_witness :
  body_params (outbound_payload ollama_url (sampled_request true)) = ∅
  /\ body_params (outbound_payload ollama_url (sampled_request false)) = ∅.
Proof.
  split.
  - apply (native_chat_payload_has_no_sampling ollama_url (sampled_request true)). reflexivity.
  - apply (native_chat_payload_has_no_sampling ollama_url (sampled_request false)). reflexivity.
Defined.

(** C5, as stated, fails: the temperature of the inbound request is absent
    from the payload sent to a native-chat backend, streaming or not. *)
Lemma native_chat_payload_loses_temperature :
  uses_native_chat ollama_url = true
  /\ get_param (sampled_request true) "temperature" = SFloat 0.7
  /\ get_param (outbound_payload ollama_url (sampled_request true)) "temperature"
     <> get_param (sampled_request true) "temperature"
  /\ get_param (outbound_payload ollama_url (sampled_request false)) "max_tokens"
     <> get_param (sampled_request false) "max_tokens".
Proof.
  split; [reflexivity|]. split; [reflexivity|]. split; vm_compute; discriminate.
Qed.

(** C6 (as amended): on a successful non-streaming call whose reply has no
    usage block, only the prompt token count is estimated, by counting the
    whitespace-separated tokens of every message content; the completion
    and total token counts are persisted as null, the output text is not
    counted, and tokens-per-second and the throughput part of the score
    are 0. *)
Theorem nonstreaming_without_usage (llm_url : string) (backend : Backend) (clock : Clock)
    (request_body : ChatBody) (w : World) (response_data : ResponseData) :
  default false (body_stream request_body) = false ->
  post backend llm_url (outbound_payload llm_url request_body) = inr response_data ->
  usage response_data = None ->
  let r := success_log request_body (t_start clock) (t_end clock) response_data in
  proxy_chat_completions llm_url backend clock (inr request_body) w
    = (Json response_data, evaluate (persist w r) r)
  /\ prompt_tokens r
     = Some (fold_right Z.add 0
               (map (fun msg => Z.of_nat (List.length (Str.split (default ""%string (content msg)))))
                    (default nil (body_messages request_body))))
  /\ completion_tokens r = None
  /\ total_tokens r = None
  /\ tokens_per_second r = Some 0%float
  /\ performance_score r = Some (calculate_performance_score (latency_ms r) 0 false)
  /\ output_text r = output_text_of response_data.
Proof.
  intros Hstream Hpost Husage r.
  assert (Htps : tokens_per_second r = Some 0%float).
  { subst r. unfold success_log. cbn [tokens_per_second]. rewrite Husage. cbn [mbind option_bind default].
    change (Py.float_of_int 0) with 0%float.
    destruct (0 <? total_seconds (t_start clock) (t_end clock))%float eqn:Hd; [|reflexivity].
    rewrite (zero_div_pos _ Hd). reflexivity. }
  split; [unfold proxy_chat_completions; rewrite Hstream, Hpost; reflexivity|].
  split; [subst r; unfold success_log; cbn [prompt_tokens]; rewrite Husage; reflexivity|].
  split; [subst r; unfold success_log; cbn [completion_tokens]; rewrite Husage; reflexivity|].
  split; [subst r; unfold success_log; cbn [total_tokens]; rewrite Husage; reflexivity|].
  split; [exact Htps|]. split; [|reflexivity].
  injection Htps as Htps. subst r. unfold success_log in *. cbn [performance_score latency_ms tokens_per_second] in *.
  rewrite Htps. reflexivity.
Qed.

(** A reply of four words without a usage block. *)
Lemma nonstreaming_without_usage_witness :
  let r := success_log (sampled_request false) 0 2000000 reply_without_usage in
  completion_tokens r = None /\ tokens_per_second r = Some 0%float.
Proof.
  destruct (nonstreaming_without_usage lmstudio_url answering clock (sampled_request false) fresh
              reply_without_usage) as (_ & _ & Hc & _ & Ht & _).
  - reflexivity.
  - reflexivity.
  - reflexivity.
  - split; [exact Hc | exact Ht].
Defined.

(** C6, as stated, fails: the four words of the output text are not
    counted; the completion count is null and tokens-per-second is 0, not
    the 2 tokens per second an estimate of 4 tokens over 2 seconds gives. *)
Lemma output_text_is_not_counted :
  let result := proxy_chat_completions lmstudio_url answering clock (inr (sampled_request false)) fresh in
  exists r,
    logs (db (snd result)) = r :: nil
    /\ output_text r = "four words in reply"%string
    /\ count_tokens (output_text r) = 4
    /\ completion_tokens r <> Some (count_tokens (output_text r))
    /\ total_tokens r = None
    /\ tokens_per_second r = Some 0%float
    /\ (Py.float_of_int (count_tokens (output_text r)) / total_seconds 0 2000000)%float = 2%float.
Proof.
  cbv zeta. eexists. split; [reflexivity|]. split; [reflexivity|]. split; [reflexivity|].
  split; [discriminate|]. split; [reflexivity|]. split; vm_compute; reflexivity.
Qed.

(** C7, as stated, fails: a record whose error message is the empty string
    (the text of an exception without a message) carries a non-null error
    message and is not counted. *)
Lemma empty_error_message_not_counted :
  let store := {| logs := log_with 100 (Some ""%string) :: nil; rules := default_rules; events := nil |} in
  let recent := query_recent store 10 in
  resolve_metric store (log_with 100 (Some ""%string)) "error_rate" = Some 0%float
  /\ spec_error_rate recent = 100%float
  /\ error_rate recent <> spec_error_rate recent.
Proof.
  cbv zeta. split; [reflexivity|]. split; [vm_compute; reflexivity|].
  intros H. apply (f_equal (fun x => (x =? 0)%float)) in H. vm_compute in H. discriminate H.
Qed.

(** C8, as stated, fails: the message has no space before the colon. *)
Lemma alert_message_has_no_space_before_colon :
  let rule := {| rule_id := 1; name := "High Latency Alert"; metric := "latency";
                 threshold := 5000; operator := "gt"; is_active := true |} in
  let log_entry := log_with 6000 None in
  let store := {| logs := log_entry :: nil; rules := default_rules; events := nil |} in
  option_map ev_message (rule_event store log_entry rule)
    = Some "High Latency Alert: latency (6000.0) gt 5000.0"%string
  /\ spec_alert_message rule 6000 = "High Latency Alert : latency (6000.0) gt 5000.0"%string
  /\ option_map ev_message (rule_event store log_entry rule) <> Some (spec_alert_message rule 6000).
Proof.
  cbv zeta. split; [vm_compute; reflexivity|]. split; [vm_compute; reflexivity|].
  vm_compute. discriminate.
Qed.

(** The start-up latency rule on a record of 6000 ms. *)
Lemma alert_event_on_match_witness :
  let rule := {| rule_id := 1; name := "High Latency Alert"; metric := "latency";
                 threshold := 5000; operator := "gt"; is_active := true |} in
  let log_entry := log_with 6000 None in
  let store := {| logs := log_entry :: nil; rules := default_rules; events := nil |} in
  rule_event store log_entry rule
  = Some {| ev_rule_id := 1; ev_rule_name := "High Latency Alert"; ev_metric_value := 6000;
            ev_threshold := 5000; ev_message := alert_message rule 6000 |}.
Proof.
  cbv zeta.
  apply (alert_event_on_match
           {| logs := log_with 6000 None :: nil; rules := default_rules; events := nil |}
           (log_with 6000 None)
           {| rule_id := 1; name := "High Latency Alert"; metric := "latency";
              threshold := 5000; operator := "gt"; is_active := true |}
           6000 nil (tl default_rules)).
  - reflexivity.
  - reflexivity.
  - reflexivity.
  - left. split; reflexivity.
Defined.

(** A rule on a metric the evaluator does not know. *)
Lemma unrecognized_rule_creates_no_event_witness :
  let rule := {| rule_id := 7; name := "Cost Alert"; metric := "cost";
                 threshold := 1; operator := "gt"; is_active := true |} in
  let store := {| logs := nil; rules := rule :: default_rules; events := nil |} in
  rule_event store (log_with 6000 None) rule = None.
Proof.
  cbv zeta.
  apply (unrecognized_rule_creates_no_event
           {| logs := nil;
              rules := {| rule_id := 7; name := "Cost Alert"; metric := "cost";
                          threshold := 1; operator := "gt"; is_active := true |} :: default_rules;
              events := nil |}
           (log_with 6000 None)
           {| rule_id := 7; name := "Cost Alert"; metric := "cost";
              threshold := 1; operator := "gt"; is_active := true |}
           nil default_rules).
  - reflexivity.
  - reflexivity.
  - left. repeat split; discriminate.
Defined.

End Claims.

(** * Further properties of the code *)


Section EvaluatorLaws.

Lemma events_of_rules_length (db : Db) (log_entry : LLMRequestLog) (rs : list AlertRule) :
  (List.length (events_of_rules db log_entry rs) <= List.length (List.filter is_active rs))%nat.
Proof.
  unfold events_of_rules. induction (List.filter is_active rs) as [| r l IH]; cbn; [lia|].
  destruct (rule_event db log_entry r); cbn; lia.
Qed.

(** X1: one evaluation leaves the log table and the rule table as they are,
    keeps every earlier alert event in place, and appends at most one event
    per active rule. *)
Theorem evaluation_only_appends_events (db : Db) (log_entry : LLMRequestLog) :
  logs (check_alert_rules db log_entry) = logs db
  /\ rules (check_alert_rules db log_entry) = rules db
  /\ exists added,
       events (check_alert_rules db log_entry) = events db ++ added
       /\ (List.length added <= List.length (query_active_rules db))%nat
       /\ Forall (fun ev => exists rule, In rule (rules db) /\ is_active rule = true
                                       /\ ev_rule_id ev = rule_id rule
                                       /\ ev_rule_name ev = name rule
                                       /\ ev_threshold ev = threshold rule) added.
Proof.
  rewrite check_alert_rules_spec. cbn [logs rules events].
  split; [reflexivity|]. split; [reflexivity|].
  exists (events_of_rules db log_entry (rules db)).
  split; [reflexivity|]. split; [apply events_of_rules_length|].
  unfold events_of_rules. apply List.Forall_forall. intros ev Hin.
  apply list_elem_of_In, list_elem_of_omap in Hin. destruct Hin as (rule & Hrule & Hev).
  apply list_elem_of_In, List.filter_In in Hrule. destruct Hrule as [Hrule Hact].
  exists rule. split; [exact Hrule|]. split; [exact Hact|].
  unfold rule_event in Hev.
  destruct (resolve_metric db log_entry (metric rule)); [|discriminate].
  destruct (triggered (operator rule) f (threshold rule)); [|discriminate].
  injection Hev as <-. repeat split.
Qed.

(** X2: the evaluator has no deduplication: a second evaluation of the same
    record appends the same events once more. *)
Theorem evaluation_repeats_events (db : Db) (log_entry : LLMRequestLog) :
  events (check_alert_rules (check_alert_rules db log_entry) log_entry)
  = events db ++ events_of_rules db log_entry (rules db)
              ++ events_of_rules db log_entry (rules db).
Proof.
  rewrite (check_alert_rules_spec (check_alert_rules db log_entry)).
  rewrite !check_alert_rules_spec. cbn [logs rules events].
  rewrite <- app_assoc. reflexivity.
Qed.

(** X3: a rule that is not active gets no event, whatever its metric and
    operator: the events of an evaluation are those of the other rules. *)
Theorem inactive_rule_creates_no_event (db : Db) (log_entry : LLMRequestLog)
    (rule : AlertRule) (rs1 rs2 : list AlertRule) :
  rules db = rs1 ++ rule :: rs2 ->
  is_active rule = false ->
  events (check_alert_rules db log_entry)
  = events db ++ events_of_rules db log_entry rs1 ++ events_of_rules db log_entry rs2.
Proof.
  intros Hrules Hinactive. rewrite check_alert_rules_spec. cbn [events].
  rewrite Hrules, events_of_rules_app. do 2 f_equal.
  unfold events_of_rules. cbn [List.filter]. rewrite Hinactive. reflexivity.
Qed.

End EvaluatorLaws.

Section ExactIntegers.

(** A value of at most 53 bits is its own rounding. *)
Lemma binary_round_aux_id (sx : bool) (m : positive) (e : Z) :
  -1074 <= e <= 971 -> Zpos (digits2_pos m) <= 53 ->
  binary_round_aux prec emax sx (Zpos m) e loc_Exact = S754_finite sx m e.
Proof.
  intros He Hd. unfold binary_round_aux.
  destruct (shr_fexp_spec m e loc_Exact ltac:(lia)) as (_ & He1 & Hex1).
  rewrite Z.max_r in He1, Hex1 by (apply Z.le_sub_0; exact Hd).
  destruct (shr_fexp prec emax (Zpos m) e loc_Exact) as [mrs1 e1] eqn:E1.
  cbn [fst snd] in He1, Hex1. rewrite (Hex1 eq_refl). cbn [shr_record_of_loc shr_m loc_of_shr_record round_nearest_even].
  replace e1 with e by lia. rewrite E1. rewrite (Hex1 eq_refl). cbn [shr_record_of_loc shr_m].
  replace e1 with e by lia.
  replace (e <=? emax - prec) with true by (symmetry; apply Z.leb_le; change (emax - prec) with 971; lia).
  reflexivity.
Qed.

(** [float(n)] is exact below [2^53]: a 53-bit mantissa [n * 2^-ex]. *)
Lemma float_of_int_exact (n : Z) :
  0 < n < 2 ^ 53 ->
  exists (mx : positive) (ex : Z),
    Prim2SF (Py.float_of_int n) = S754_finite false mx ex
    /\ -52 <= ex <= 0
    /\ Zpos mx = n * 2 ^ (- ex)
    /\ 2 ^ 52 <= Zpos mx < 2 ^ 53.
Proof.
  intros Hn. unfold Py.float_of_int.
  replace (Z.abs n <? 2 ^ 63) with true by (symmetry; apply Z.ltb_lt; lia).
  destruct n as [| p | p]; [lia | | lia].
  rewrite of_uint63_spec, Uint63.of_Z_spec, Z.mod_small by (change Uint63.wB with (2 ^ 63); lia).
  cbn [binary_normalize]. unfold binary_round. rewrite fexp_eq.
  destruct (digits2_facts p) as (d & Ed & Hd & Hdlo & Hdhi). rewrite Ed.
  assert (Hd53 : d <= 53) by (apply pow2_lt_exp; lia).
  replace (Z.max (d + 0 - 53) (-1074)) with (d - 53) by lia.
  unfold shl_align.
  destruct (d - 53 - 0) as [| k | k] eqn:Ek; [| lia |].
  - assert (H53 : d = 53) by lia.
    rewrite binary_round_aux_id; [| clear; lia | rewrite Ed, H53; clear; lia].
    exists p, 0. split; [reflexivity|]. split; [clear; lia|]. split; [cbn; clear; lia|].
    rewrite H53 in Hdlo, Hdhi. change (53 - 1) with 52 in Hdlo. clear - Hdlo Hdhi. lia.
  - fold (shift_pos k p).
    assert (Hmz : Zpos (shift_pos k p) = Zpos p * 2 ^ Zpos k)
      by (rewrite shift_pos_correct, Z.pow_pos_fold; lia).
    assert (Hk : Zpos k = 53 - d) by lia.
    assert (Hhi : Zpos (shift_pos k p) < 2 ^ 53).
    { rewrite Hmz. replace 53 with (d + Zpos k) by lia. rewrite Z.pow_add_r by lia.
      apply Z.mul_lt_mono_pos_r; [apply Z.pow_pos_nonneg; lia | lia]. }
    assert (Hlo : 2 ^ 52 <= Zpos (shift_pos k p)).
    { rewrite Hmz. replace 52 with ((d - 1) + Zpos k) by lia. rewrite Z.pow_add_r by lia.
      apply Z.mul_le_mono_nonneg_r; [apply Z.pow_nonneg; lia | lia]. }
    destruct (digits2_facts (shift_pos k p)) as (d' & Ed' & Hd' & Hd'lo & Hd'hi).
    assert (Hd'53 : d' <= 53) by (apply pow2_lt_exp; lia).
    rewrite binary_round_aux_id; [| clear - Hd Hd53; lia | rewrite Ed'; exact Hd'53].
    exists (shift_pos k p), (d - 53). split; [reflexivity|]. split; [lia|].
    split; [| split; assumption].
    rewrite Hmz. do 2 f_equal. lia.
Qed.

(** Two 53-bit mantissas that stand for integers compare as the integers. *)
Lemma SFcompare_integers (a b : Z) (ma mb : positive) (ea eb : Z) :
  ea <= 0 -> eb <= 0 ->
  Zpos ma = a * 2 ^ (- ea) -> Zpos mb = b * 2 ^ (- eb) ->
  2 ^ 52 <= Zpos ma < 2 ^ 53 -> 2 ^ 52 <= Zpos mb < 2 ^ 53 ->
  SFcompare (S754_finite false ma ea) (S754_finite false mb eb) = Some (a ?= b).
Proof.
  intros Hea Heb Ha Hb Hma Hmb. cbn [SFcompare]. f_equal.
  assert (Hpa : 0 < 2 ^ (- ea)) by (apply Z.pow_pos_nonneg; lia).
  assert (Hpb : 0 < 2 ^ (- eb)) by (apply Z.pow_pos_nonneg; lia).
  destruct (Z.compare_spec ea eb) as [Heq | Hlt | Hgt].
  - subst eb. rewrite Pos.compare_cont_spec.
    replace (Pos.switch_Eq Eq (ma ?= mb)%positive) with (Zpos ma ?= Zpos mb)
      by (cbn [Z.compare]; destruct (ma ?= mb)%positive; reflexivity).
    rewrite Ha, Hb. symmetry. apply Zmult_compare_compat_r. lia.
  - symmetry. apply Z.compare_lt_iff.
    assert (Hsplit : 2 ^ (- ea) = 2 ^ (- eb) * 2 ^ (eb - ea))
      by (rewrite <- Z.pow_add_r by lia; f_equal; lia).
    assert (Hge2 : 2 <= 2 ^ (eb - ea))
      by (change 2 with (2 ^ 1) at 1; apply Z.pow_le_mono_r; lia).
    change (2 ^ 53) with (2 * 2 ^ 52) in *. nia.
  - symmetry. apply Z.compare_gt_iff.
    assert (Hsplit : 2 ^ (- eb) = 2 ^ (- ea) * 2 ^ (ea - eb))
      by (rewrite <- Z.pow_add_r by lia; f_equal; lia).
    assert (Hge2 : 2 <= 2 ^ (ea - eb))
      by (change 2 with (2 ^ 1) at 1; apply Z.pow_le_mono_r; lia).
    change (2 ^ 53) with (2 * 2 ^ 52) in *. nia.
Qed.

(** Integers below [2^53] compare, as floats, the way they compare as
    integers. *)
Lemma float_of_int_compare (a b : Z) :
  0 <= a < 2 ^ 53 -> 0 <= b < 2 ^ 53 ->
  SFcompare (Prim2SF (Py.float_of_int a)) (Prim2SF (Py.float_of_int b)) = Some (a ?= b).
Proof.
  intros Ha Hb.
  destruct (Z.eq_dec a 0) as [-> | Hna], (Z.eq_dec b 0) as [-> | Hnb].
  - reflexivity.
  - destruct (float_of_int_exact b ltac:(lia)) as (mb & eb & -> & _).
    change (Prim2SF (Py.float_of_int 0)) with (S754_zero false). cbn [SFcompare].
    f_equal. destruct b; [contradiction | reflexivity | lia].
  - destruct (float_of_int_exact a ltac:(lia)) as (ma & ea & -> & _).
    change (Prim2SF (Py.float_of_int 0)) with (S754_zero false). cbn [SFcompare].
    f_equal. destruct a; [contradiction | reflexivity | lia].
  - destruct (float_of_int_exact a ltac:(lia)) as (ma & ea & -> & Hea & Hma & Hra).
    destruct (float_of_int_exact b ltac:(lia)) as (mb & eb & -> & Heb & Hmb & Hrb).
    apply SFcompare_integers; (lia || assumption).
Qed.

Lemma float_of_int_ltb (a b : Z) :
  0 <= a < 2 ^ 53 -> 0 <= b < 2 ^ 53 ->
  (Py.float_of_int a <? Py.float_of_int b)%float = (a <? b).
Proof.
  intros Ha Hb. rewrite ltb_spec. unfold SFltb. rewrite float_of_int_compare by assumption.
  unfold Z.ltb. destruct (a ?= b); reflexivity.
Qed.

Lemma float_of_int_eqb (a b : Z) :
  0 <= a < 2 ^ 53 -> 0 <= b < 2 ^ 53 ->
  (Py.float_of_int a =? Py.float_of_int b)%float = (a =? b).
Proof.
  intros Ha Hb. rewrite FloatAxioms.eqb_spec. unfold SFeqb. rewrite float_of_int_compare by assumption.
  destruct (Z.compare_spec a b) as [-> | Hlt | Hgt].
  - rewrite Z.eqb_refl. reflexivity.
  - symmetry. apply Z.eqb_neq. lia.
  - symmetry. apply Z.eqb_neq. lia.
Qed.

End ExactIntegers.

Section IntegerThresholds.

(** X4: for a latency rule whose threshold is a whole number, the event is
    decided by the integers themselves: [gt] fires exactly when the
    latency in milliseconds exceeds the threshold, [lt] exactly when it
    is below, [eq] exactly when they are equal (latency and threshold
    non-negative and below [2^53], where the conversion to float is
    exact). *)
Theorem latency_rule_compares_integers (db : Db) (log_entry : LLMRequestLog)
    (rule : AlertRule) (t : Z) :
  metric rule = "latency"%string ->
  threshold rule = Py.float_of_int t ->
  0 <= t < 2 ^ 53 ->
  0 <= latency_ms log_entry < 2 ^ 53 ->
  (operator rule = "gt"%string -> (is_Some (rule_event db log_entry rule) <-> t < latency_ms log_entry))
  /\ (operator rule = "lt"%string -> (is_Some (rule_event db log_entry rule) <-> latency_ms log_entry < t))
  /\ (operator rule = "eq"%string -> (is_Some (rule_event db log_entry rule) <-> latency_ms log_entry = t)).
Proof.
  intros Hmetric Hth Ht Hl.
  assert (Hev : forall op, operator rule = op ->
            is_Some (rule_event db log_entry rule)
            <-> triggered op (Py.float_of_int (latency_ms log_entry)) (Py.float_of_int t) = true).
  { intros op Hop. unfold rule_event, resolve_metric. rewrite Hmetric, Hop, Hth. cbn [String.eqb Ascii.eqb Bool.eqb].
    destruct (triggered op _ _); split; intros H; try discriminate; try reflexivity.
    - eexists; reflexivity.
    - destruct H as [? H]; discriminate H. }
  split; [|split]; intros Hop; split; intros H.
  - apply (Hev _ Hop) in H. unfold triggered in H. cbn [String.eqb Ascii.eqb Bool.eqb andb] in H.
    rewrite float_of_int_ltb in H by assumption. destruct (t <? latency_ms log_entry) eqn:E; [apply Z.ltb_lt, E | discriminate H].
  - apply (Hev _ Hop). unfold triggered. cbn [String.eqb Ascii.eqb Bool.eqb andb].
    rewrite float_of_int_ltb by assumption. apply Z.ltb_lt in H. rewrite H. reflexivity.
  - apply (Hev _ Hop) in H. unfold triggered in H. cbn [String.eqb Ascii.eqb Bool.eqb andb] in H.
    rewrite float_of_int_ltb in H by assumption. destruct (latency_ms log_entry <? t) eqn:E; [apply Z.ltb_lt, E | discriminate H].
  - apply (Hev _ Hop). unfold triggered. cbn [String.eqb Ascii.eqb Bool.eqb andb].
    rewrite float_of_int_ltb by assumption. apply Z.ltb_lt in H. rewrite H. reflexivity.
  - apply (Hev _ Hop) in H. unfold triggered in H. cbn [String.eqb Ascii.eqb Bool.eqb andb] in H.
    rewrite float_of_int_eqb in H by assumption. destruct (latency_ms log_entry =? t) eqn:E; [apply Z.eqb_eq, E | discriminate H].
  - apply (Hev _ Hop). unfold triggered. cbn [String.eqb Ascii.eqb Bool.eqb andb].
    rewrite float_of_int_eqb by assumption. apply Z.eqb_eq in H. rewrite H. reflexivity.
Qed.

End IntegerThresholds.

Section ErrorRateWindow.

Lemma rate_table_ok : rate_table = true.
Proof. vm_compute. reflexivity. Qed.

Lemma rate_facts_in_window (c n : nat) :
  (1 <= n <= 10)%nat -> (c <= n)%nat -> rate_facts c n = true.
Proof.
  intros Hn Hc. pose proof rate_table_ok as H. unfold rate_table in H.
  rewrite forallb_forall in H. specialize (H n ltac:(apply in_seq; lia)).
  rewrite forallb_forall in H. apply H, in_seq. lia.
Qed.

Lemma error_rate_rate_of (recent : list LLMRequestLog) :
  recent <> nil ->
  error_rate recent = rate_of (List.length (List.filter has_error recent)) (List.length recent).
Proof. intros H. destruct recent; [contradiction | reflexivity]. Qed.

Lemma window_facts (db : Db) :
  let recent := query_recent db 10 in
  recent <> nil ->
  rate_facts (List.length (List.filter has_error recent)) (List.length recent) = true.
Proof.
  intros recent Hne. apply rate_facts_in_window.
  - pose proof (query_recent_length db 10) as Hlen. fold recent in Hlen.
    destruct recent; [contradiction|]. cbn [List.length] in *. lia.
  - apply List.filter_length_le.
Qed.

(** X5: the error rate of the window is a percentage between 0 and 100; it
    is 0 exactly when no record of the window is counted as erroring, and
    100 exactly when a non-empty window consists of erroring records
    only. *)
Theorem error_rate_is_a_percentage (db : Db) :
  let recent := query_recent db 10 in
  let r := error_rate recent in
  (0 <=? r)%float = true
  /\ (r <=? 100)%float = true
  /\ ((r =? 0)%float = true <-> List.filter has_error recent = nil)
  /\ (recent <> nil -> ((r =? 100)%float = true <-> Forall (fun log => has_error log = true) recent)).
Proof.
  intros recent r. destruct recent as [| x l] eqn:E.
  - split; [reflexivity|]. split; [reflexivity|]. split; [split; reflexivity|].
    intros Hne. contradiction.
  - assert (Hne : recent <> nil) by (rewrite E; discriminate).
    pose proof (window_facts db Hne) as Hf. fold recent in Hf. rewrite E in Hf.
    unfold rate_facts in Hf. fold (rate_of (List.length (List.filter has_error (x :: l))) (List.length (x :: l))) in Hf.
    rewrite <- (error_rate_rate_of (x :: l)) in Hf by discriminate. fold r in Hf.
    repeat (apply andb_prop in Hf; destruct Hf as [Hf ?]).
    split; [assumption|]. split; [assumption|]. split; [|intros _].
    + apply Bool.eqb_prop in H1. rewrite H1, Nat.eqb_eq. split.
      * intros H3. apply length_zero_iff_nil, H3.
      * intros ->. reflexivity.
    + apply Bool.eqb_prop in H0. rewrite H0, Nat.eqb_eq. split.
      * intros Hall. apply List.filter_length_forallb in Hall.
        rewrite List.forallb_forall in Hall. apply List.Forall_forall. exact Hall.
      * intros Hall. f_equal. apply List.forallb_filter_id.
        apply List.forallb_forall. rewrite List.Forall_forall in Hall. exact Hall.
Qed.

(** X6: a rule [error_rate gt 10.0] (the start-up error-rate rule) fires
    exactly when more than a tenth of the window is erroring: one erroring
    record among ten does not fire it, two among ten do, and one among
    nine or fewer does. *)
Theorem error_rate_rule_fires_above_a_tenth (db : Db) (log_entry : LLMRequestLog) (rule : AlertRule) :
  metric rule = "error_rate"%string ->
  operator rule = "gt"%string ->
  threshold rule = 10%float ->
  let recent := query_recent db 10 in
  is_Some (rule_event db log_entry rule)
  <-> Z.of_nat (List.length recent) < 10 * error_count recent.
Proof.
  intros Hm Hop Hth recent.
  unfold rule_event, resolve_metric. rewrite Hm, Hop, Hth.
  cbn [String.eqb Ascii.eqb Bool.eqb]. fold recent. unfold triggered.
  cbn [String.eqb Ascii.eqb Bool.eqb andb].
  assert (Hkey : (10 <? error_rate recent)%float = (Z.of_nat (List.length recent) <? 10 * error_count recent)).
  { destruct recent as [| x l] eqn:E; [reflexivity|].
    assert (Hne : recent <> nil) by (rewrite E; discriminate).
    pose proof (window_facts db Hne) as Hf. fold recent in Hf. rewrite E in Hf.
    unfold rate_facts in Hf. fold (rate_of (List.length (List.filter has_error (x :: l))) (List.length (x :: l))) in Hf.
    rewrite <- (error_rate_rate_of (x :: l)) in Hf by discriminate.
    apply andb_prop in Hf. destruct Hf as [_ Hf]. apply Bool.eqb_prop in Hf. exact Hf. }
  rewrite Hkey. destruct (Z.of_nat (List.length recent) <? 10 * error_count recent) eqn:E.
  - split; [intros _; apply Z.ltb_lt, E | intros _; eexists; reflexivity].
  - split; [intros [? H]; discriminate H | intros H; apply Z.ltb_lt in H; congruence].
Qed.

End ErrorRateWindow.

Section TokenCounting.

Lemma truthy_snoc (cur : string) (c : ascii) : Str.truthy (cur +:+ String c EmptyString) = true.
Proof. destruct cur; reflexivity. Qed.

Lemma split_from_length (cur s : string) :
  List.length (Str.split_from cur s) = token_runs (Str.truthy cur) s.
Proof.
  revert cur. induction s as [| c s IH]; intros cur; cbn [Str.split_from token_runs].
  - destruct (Str.truthy cur); reflexivity.
  - destruct (Str.is_space c).
    + destruct (Str.truthy cur); cbn [List.length]; rewrite IH; reflexivity.
    + rewrite IH, truthy_snoc. reflexivity.
Qed.

Lemma count_tokens_runs (s : string) : count_tokens s = Z.of_nat (token_runs false s).
Proof. unfold count_tokens, Str.split. rewrite split_from_length. reflexivity. Qed.

Lemma token_runs_inside (s : string) :
  (token_runs true s <= 1 + token_runs false s)%nat.
Proof. destruct s as [| c s]; cbn; [lia|]. destruct (Str.is_space c); lia. Qed.

(** Splitting a text in two never lowers the token count. *)
Lemma token_runs_app_le (inside : bool) (a t : string) :
  (token_runs inside (a +:+ t) <= token_runs inside a + token_runs false t)%nat.
Proof.
  revert inside. induction a as [| c a IH]; intros inside.
  - change (EmptyString +:+ t) with t. cbn [token_runs].
    destruct inside; [apply token_runs_inside | lia].
  - change (String c a +:+ t) with (String c (a +:+ t)). cbn [token_runs].
    destruct (Str.is_space c).
    + specialize (IH false). lia.
    + apply IH.
Qed.

(** Across a whitespace character the token counts add up. *)
Lemma token_runs_app_space (inside : bool) (a t : string) (c : ascii) :
  Str.is_space c = true ->
  token_runs inside (a +:+ String c t) = (token_runs inside a + token_runs false t)%nat.
Proof.
  intros Hc. revert inside. induction a as [| c' a IH]; intros inside.
  - change (EmptyString +:+ String c t) with (String c t). cbn [token_runs]. rewrite Hc. reflexivity.
  - change (String c' a +:+ String c t) with (String c' (a +:+ String c t)). cbn [token_runs].
    destruct (Str.is_space c'); rewrite IH; lia.
Qed.

Lemma blank_has_no_token (s : string) : has_nonspace s = false -> token_runs false s = 0%nat.
Proof.
  induction s as [| c s IH]; cbn; [reflexivity|].
  destruct (Str.is_space c); cbn; [exact IH | discriminate].
Qed.

Lemma count_tokens_concat_le (chunks : list string) :
  count_tokens (fold_right String.append ""%string chunks) <= chunk_tokens chunks.
Proof.
  unfold chunk_tokens. induction chunks as [| x l IH]; [reflexivity|].
  cbn [fold_right map]. rewrite !count_tokens_runs in *.
  pose proof (token_runs_app_le false x (fold_right String.append ""%string l)). lia.
Qed.

Lemma chunk_tokens_kept (chunks : list string) :
  chunk_tokens (List.filter has_nonspace chunks) = chunk_tokens chunks.
Proof.
  unfold chunk_tokens. induction chunks as [| x l IH]; [reflexivity|].
  cbn [List.filter]. destruct (has_nonspace x) eqn:E; cbn [map fold_right]; rewrite IH; [reflexivity|].
  rewrite (count_tokens_runs x), blank_has_no_token by assumption. reflexivity.
Qed.

Lemma relay_fold_tokens (arrivals : list (Z * string)) (st : RelayState) :
  tokens_count (fold_left relay_step arrivals st) = tokens_count st + chunk_tokens (chunks_of arrivals).
Proof.
  revert st. induction arrivals as [| [now chunk] arrivals IH]; intros st; cbn [fold_left].
  - unfold chunk_tokens. cbn. lia.
  - rewrite IH. unfold relay_step, chunks_of, chunk_tokens. cbn [map snd fold_right].
    rewrite truthy_strip. destruct (has_nonspace chunk) eqn:E; cbn [tokens_count]; [lia|].
    rewrite (count_tokens_runs chunk), blank_has_no_token by assumption. lia.
Qed.

Lemma relay_fold_first_token (arrivals : list (Z * string)) (st : RelayState) :
  first_token_time (fold_left relay_step arrivals st)
  = match first_token_time st with
    | Some t => Some t
    | None => head (map fst (kept_arrivals arrivals))
    end.
Proof.
  revert st. induction arrivals as [| [now chunk] arrivals IH]; intros st; cbn [fold_left].
  - destruct (first_token_time st); reflexivity.
  - rewrite IH. unfold relay_step, kept_arrivals. cbn [List.filter snd]. rewrite truthy_strip.
    destruct (has_nonspace chunk); cbn [first_token_time map fst head];
      destruct (first_token_time st); reflexivity.
Qed.

End TokenCounting.

(** X7: when a stream ends normally the completion-token count of its
    record is the sum, over every chunk received, of the chunk's own
    whitespace-token count (a dropped blank chunk adds none), and the total
    is that sum plus the prompt estimate; no prompt count is stored. *)
Theorem stream_record_token_counts (arrivals : list (Z * string)) (w : World)
    (info : LogStartInfo) (end_time : Z) :
  exists r,
    logs (db (snd (stream_llm_response (arrivals, None) w info end_time))) = logs (db w) ++ r :: nil
    /\ completion_tokens r = Some (chunk_tokens (chunks_of arrivals))
    /\ total_tokens r = Some (chunk_tokens (chunks_of arrivals) + info_prompt_tokens info)
    /\ prompt_tokens r = None.
Proof.
  unfold stream_llm_response. cbn [fst snd]. eexists.
  split; [rewrite logs_evaluate; reflexivity|].
  cbn [stream_success_log completion_tokens total_tokens prompt_tokens].
  rewrite relay_fold_tokens. cbn [relay_start tokens_count]. repeat split.
Qed.

(** X8: counting chunk by chunk never undercounts: the completion-token
    count of a normally ended stream is at least the whitespace-token
    count of the stored output text (the chunks joined without a
    separator). *)
Theorem stream_tokens_at_least_output (arrivals : list (Z * string)) (w : World)
    (info : LogStartInfo) (end_time : Z) :
  exists r n,
    logs (db (snd (stream_llm_response (arrivals, None) w info end_time))) = logs (db w) ++ r :: nil
    /\ completion_tokens r = Some n
    /\ count_tokens (output_text r) <= n.
Proof.
  unfold stream_llm_response. cbn [fst snd]. eexists _, _.
  split; [rewrite logs_evaluate; reflexivity|]. split; [reflexivity|].
  cbn [stream_success_log output_text].
  destruct (relay_fold arrivals relay_start) as [_ Hr]. cbn zeta in Hr.
  rewrite Hr, relay_fold_tokens, join_concat. cbn [relay_start response_chunks tokens_count app].
  unfold chunks_of. rewrite <- (chunk_tokens_kept (map snd arrivals)).
  pose proof (count_tokens_concat_le (List.filter has_nonspace (map snd arrivals))). lia.
Qed.

(** X9: the time to first token of a normally ended stream is measured at
    the first chunk that has a non-whitespace character, from the start of
    the request; it is null exactly when no such chunk arrived. *)
Theorem stream_time_to_first_token (arrivals : list (Z * string)) (w : World)
    (info : LogStartInfo) (end_time : Z) :
  exists r,
    logs (db (snd (stream_llm_response (arrivals, None) w info end_time))) = logs (db w) ++ r :: nil
    /\ time_to_first_token_ms r
       = option_map (elapsed_ms (info_start_time info)) (head (map fst (kept_arrivals arrivals)))
    /\ (time_to_first_token_ms r = None <-> Forall (fun c => has_nonspace c = false) (chunks_of arrivals)).
Proof.
  unfold stream_llm_response. cbn [fst snd]. eexists.
  split; [rewrite logs_evaluate; reflexivity|].
  cbn [stream_success_log time_to_first_token_ms].
  rewrite relay_fold_first_token. cbn [relay_start first_token_time].
  split; [reflexivity|].
  unfold kept_arrivals, chunks_of. induction arrivals as [| [now chunk] arrivals IH]; cbn [List.filter map snd fst head option_map].
  - split; [constructor | reflexivity].
  - destruct (has_nonspace chunk) eqn:E; cbn [map fst head option_map].
    + split; [discriminate|]. intros H. inversion H; subst. congruence.
    + rewrite IH. split.
      * intros H. constructor; assumption.
      * intros H. inversion H; assumption.
Qed.

Section GatewayLaws.

Lemma evaluate_store (w : World) (r : LLMRequestLog) :
  rules (db (evaluate w r)) = rules (db w)
  /\ exists added, events (db (evaluate w r)) = events (db w) ++ added.
Proof.
  unfold evaluate. cbn [db]. rewrite check_alert_rules_spec. cbn [rules events].
  split; [reflexivity | eexists; reflexivity].
Qed.

(** The journal of one request, with the records in full. *)
Lemma proxy_paths (llm_url : string) (backend : Backend) (clock : Clock)
    (request_json : Exn + ChatBody) (w : World) :
  let w' := snd (proxy_chat_completions llm_url backend clock request_json w) in
  (w' = w)
  \/ (exists e, w' = persist w (fallback_log (t_start clock) (t_fallback clock) e))
  \/ (exists info e,
        info_start_time info = t_start clock
        /\ let r := stream_error_log info (t_end clock) e in
           w' = evaluate (persist w r) r)
  \/ (exists info st,
        info_start_time info = t_start clock
        /\ let r := stream_success_log info (t_end clock) st in
           w' = evaluate (persist w r) r)
  \/ (exists body data,
        let r := success_log body (t_start clock) (t_end clock) data in
        w' = evaluate (persist w r) r)
  \/ (exists body e e',
        let r := backend_error_log body (t_start clock) (t_end clock) e in
        w' = persist (evaluate (persist w r) r)
                     (fallback_log (t_start clock) (t_fallback clock) e')).
Proof.
  unfold proxy_chat_completions.
  destruct request_json as [e | request_body].
  - destruct e; cbn [outer_handlers snd];
      try (right; left; eexists; reflexivity).
    left. reflexivity.
  - destruct (default false (body_stream request_body)).
    + unfold stream_llm_response.
      destruct (stream backend llm_url (outbound_payload llm_url request_body)) as [arrivals [e|]];
        cbn [fst snd].
      * right; right; left. eexists _, _. split; [|reflexivity]. reflexivity.
      * right; right; right; left. eexists _, _. split; [|reflexivity]. reflexivity.
    + destruct (post backend llm_url (outbound_payload llm_url request_body)) as [e | data].
      * assert (Hre : exists s d, reraise e = HTTPException s d)
          by (destruct e; cbn; eexists _, _; reflexivity).
        destruct Hre as (s & d & ->). cbn [outer_handlers snd].
        do 5 right. eexists _, _, _. reflexivity.
      * cbn [snd]. do 4 right; left. eexists _, _. reflexivity.
Qed.

Lemma stream_error_log_consistent (clock : Clock) (info : LogStartInfo) (e : Exn) :
  info_start_time info = t_start clock ->
  record_consistent clock (stream_error_log info (t_end clock) e).
Proof.
  intros Hs. unfold record_consistent, score_of_record.
  cbn [stream_error_log start_time end_time latency_ms performance_score error_message
       tokens_per_second prompt_tokens completion_tokens total_tokens time_to_first_token_ms default].
  rewrite bool_decide_true by discriminate. rewrite Hs.
  repeat split; try reflexivity; [left; reflexivity | discriminate].
Qed.

Lemma stream_success_log_consistent (clock : Clock) (info : LogStartInfo) (st : RelayState) :
  info_start_time info = t_start clock ->
  record_consistent clock (stream_success_log info (t_end clock) st).
Proof.
  intros Hs. unfold record_consistent, score_of_record.
  cbn [stream_success_log start_time end_time latency_ms performance_score error_message
       tokens_per_second prompt_tokens completion_tokens total_tokens time_to_first_token_ms default].
  rewrite bool_decide_false by (intros H; apply H; reflexivity). rewrite Hs.
  repeat split; try reflexivity; try discriminate; try congruence.
  left; reflexivity.
Qed.

Lemma success_log_consistent (clock : Clock) (body : ChatBody) (data : ResponseData) :
  record_consistent clock (success_log body (t_start clock) (t_end clock) data).
Proof.
  unfold record_consistent, score_of_record.
  cbn [success_log start_time end_time latency_ms performance_score error_message
       tokens_per_second prompt_tokens completion_tokens total_tokens time_to_first_token_ms default].
  rewrite bool_decide_false by (intros H; apply H; reflexivity).
  repeat split; try reflexivity; try discriminate; try congruence.
  left; reflexivity.
Qed.

Lemma backend_error_log_consistent (clock : Clock) (body : ChatBody) (e : Exn) :
  record_consistent clock (backend_error_log body (t_start clock) (t_end clock) e).
Proof.
  unfold record_consistent, score_of_record.
  cbn [backend_error_log start_time end_time latency_ms performance_score error_message
       tokens_per_second prompt_tokens completion_tokens total_tokens time_to_first_token_ms default].
  rewrite bool_decide_true by discriminate.
  repeat split; try reflexivity; [left; reflexivity | discriminate].
Qed.

Lemma fallback_log_consistent (clock : Clock) (e : Exn) :
  record_consistent clock (fallback_log (t_start clock) (t_fallback clock) e).
Proof.
  unfold record_consistent, score_of_record.
  cbn [fallback_log start_time end_time latency_ms performance_score error_message
       tokens_per_second prompt_tokens completion_tokens total_tokens time_to_first_token_ms default].
  rewrite bool_decide_true by discriminate.
  repeat split; try reflexivity; [right; reflexivity | discriminate].
Qed.

End GatewayLaws.

(** X10: a request only ever adds to the store: the rule table is left as
    it is, and the log table and the alert-event table keep every earlier
    row, in place, in front of what the request appends. *)
Theorem request_only_appends (llm_url : string) (backend : Backend) (clock : Clock)
    (request_json : Exn + ChatBody) (w : World) :
  let w' := snd (proxy_chat_completions llm_url backend clock request_json w) in
  rules (db w') = rules (db w)
  /\ (exists new_logs, logs (db w') = logs (db w) ++ new_logs /\ (List.length new_logs <= 2)%nat)
  /\ (exists new_events, events (db w') = events (db w) ++ new_events)
  /\ (exists delta, journal w' = journal w ++ delta).
Proof.
  intros w'. subst w'.
  destruct (proxy_paths llm_url backend clock request_json w)
    as [-> | [(e & ->) | [(info & e & _ & ->) | [(info & st & _ & ->) | [(body & data & ->) | (body & e & e' & ->)]]]]].
  - split; [reflexivity|]. split; [exists nil; rewrite app_nil_r; split; [reflexivity | cbn; lia]|].
    split; exists nil; rewrite app_nil_r; reflexivity.
  - split; [reflexivity|]. split; [eexists; split; [reflexivity | cbn; lia]|].
    split; [exists nil; rewrite app_nil_r; reflexivity | eexists; reflexivity].
  - destruct (evaluate_store (persist w (stream_error_log info (t_end clock) e))
                             (stream_error_log info (t_end clock) e)) as [Hr [added Hev]].
    split; [rewrite Hr; reflexivity|].
    split; [eexists; split; [rewrite logs_evaluate; reflexivity | cbn; lia]|].
    split; [exists added; rewrite Hev; reflexivity|].
    eexists. cbn [evaluate persist journal]. rewrite <- app_assoc. reflexivity.
  - destruct (evaluate_store (persist w (stream_success_log info (t_end clock) st))
                             (stream_success_log info (t_end clock) st)) as [Hr [added Hev]].
    split; [rewrite Hr; reflexivity|].
    split; [eexists; split; [rewrite logs_evaluate; reflexivity | cbn; lia]|].
    split; [exists added; rewrite Hev; reflexivity|].
    eexists. cbn [evaluate persist journal]. rewrite <- app_assoc. reflexivity.
  - destruct (evaluate_store (persist w (success_log body (t_start clock) (t_end clock) data))
                             (success_log body (t_start clock) (t_end clock) data)) as [Hr [added Hev]].
    split; [rewrite Hr; reflexivity|].
    split; [eexists; split; [rewrite logs_evaluate; reflexivity | cbn; lia]|].
    split; [exists added; rewrite Hev; reflexivity|].
    eexists. cbn [evaluate persist journal]. rewrite <- app_assoc. reflexivity.
  - destruct (evaluate_store (persist w (backend_error_log body (t_start clock) (t_end clock) e))
                             (backend_error_log body (t_start clock) (t_end clock) e)) as [Hr [added Hev]].
    split; [cbn [persist db add_log rules]; rewrite Hr; reflexivity|].
    split; [eexists; split; [cbn [persist db add_log logs]; rewrite logs_evaluate; cbn [persist db add_log logs];
                              rewrite <- app_assoc; reflexivity | cbn; lia]|].
    split; [exists added; cbn [persist db add_log events]; rewrite Hev; reflexivity|].
    eexists. cbn [evaluate persist journal]. rewrite <- !app_assoc. reflexivity.
Qed.

(** X11: within a request the alert rules are evaluated at most once, and
    only over a record the request has written just before; a write
    without evaluation happens only in the outermost handler. *)
Theorem evaluation_follows_its_write (llm_url : string) (backend : Backend) (clock : Clock)
    (request_json : Exn + ChatBody) (w : World) :
  let w' := snd (proxy_chat_completions llm_url backend clock request_json w) in
  exists delta,
    journal w' = journal w ++ delta
    /\ evaluations_follow_writes delta
    /\ (List.length (evaluated delta) <= 1)%nat
    /\ (forall r, In r (persisted delta) -> ~ In r (evaluated delta) ->
                  exists e, r = fallback_log (t_start clock) (t_fallback clock) e).
Proof.
  intros w'. subst w'.
  destruct (proxy_paths llm_url backend clock request_json w)
    as [-> | [(e & ->) | [(info & e & _ & ->) | [(info & st & _ & ->) | [(body & data & ->) | (body & e & e' & ->)]]]]].
  - exists nil. rewrite app_nil_r. split; [reflexivity|]. split; [exact I|].
    split; [cbn; lia|]. intros r [].
  - eexists. split; [reflexivity|]. split; [exact I|]. split; [cbn; lia|].
    intros r [<- | []] _. eexists; reflexivity.
  - eexists. split; [cbn [evaluate persist journal]; rewrite <- app_assoc; reflexivity|].
    split; [split; [reflexivity | exact I]|]. split; [cbn; lia|].
    intros r [<- | []] H. exfalso. apply H. left. reflexivity.
  - eexists. split; [cbn [evaluate persist journal]; rewrite <- app_assoc; reflexivity|].
    split; [split; [reflexivity | exact I]|]. split; [cbn; lia|].
    intros r [<- | []] H. exfalso. apply H. left. reflexivity.
  - eexists. split; [cbn [evaluate persist journal]; rewrite <- app_assoc; reflexivity|].
    split; [split; [reflexivity | exact I]|]. split; [cbn; lia|].
    intros r [<- | []] H. exfalso. apply H. left. reflexivity.
  - eexists. split; [cbn [evaluate persist journal]; rewrite <- !app_assoc; reflexivity|].
    split; [split; [reflexivity | exact I]|]. split; [cbn; lia|].
    intros r [<- | [<- | []]] H.
    + exfalso. apply H. left. reflexivity.
    + eexists; reflexivity.
Qed.

(** X12: every record a request writes is consistent with itself: it
    starts at the request's start reading, its latency is the span between
    its own start and end times, its score is the score function applied
    to its own latency, throughput and error status, an erroring record
    has no throughput, token counts or time to first token, and a record
    without error has a throughput. *)
Theorem persisted_records_are_consistent (llm_url : string) (backend : Backend) (clock : Clock)
    (request_json : Exn + ChatBody) (w : World) :
  let w' := snd (proxy_chat_completions llm_url backend clock request_json w) in
  exists new_logs,
    logs (db w') = logs (db w) ++ new_logs
    /\ Forall (record_consistent clock) new_logs.
Proof.
  intros w'. subst w'.
  destruct (proxy_paths llm_url backend clock request_json w)
    as [-> | [(e & ->) | [(info & e & Hs & ->) | [(info & st & Hs & ->) | [(body & data & ->) | (body & e & e' & ->)]]]]].
  - exists nil. rewrite app_nil_r. split; [reflexivity | constructor].
  - eexists. split; [reflexivity|].
    apply List.Forall_cons; [apply fallback_log_consistent | constructor].
  - eexists. split; [rewrite logs_evaluate; reflexivity|].
    apply List.Forall_cons; [apply stream_error_log_consistent, Hs | constructor].
  - eexists. split; [rewrite logs_evaluate; reflexivity|].
    apply List.Forall_cons; [apply stream_success_log_consistent, Hs | constructor].
  - eexists. split; [rewrite logs_evaluate; reflexivity|].
    apply List.Forall_cons; [apply success_log_consistent | constructor].
  - eexists. split.
    + cbn [persist db add_log logs]. rewrite logs_evaluate. cbn [persist db add_log logs].
      rewrite <- app_assoc. reflexivity.
    + apply List.Forall_cons; [apply backend_error_log_consistent|].
      apply List.Forall_cons; [apply fallback_log_consistent | constructor].
Qed.

(** X13: a non-streaming call whose backend call fails is always answered
    with status 500, whatever the failure: the status the inner handler
    picks (503 for a connection error, the backend's own status for an HTTP
    error, 500 otherwise) only shows inside the detail text, because the
    outermost handler catches the inner handler's exception; two records
    are written, the second under the model name [unknown]. *)
Theorem backend_failure_answers_500 (llm_url : string) (backend : Backend) (clock : Clock)
    (request_body : ChatBody) (w : World) (e : Exn) :
  default false (body_stream request_body) = false ->
  post backend llm_url (outbound_payload llm_url request_body) = inl e ->
  let result := proxy_chat_completions llm_url backend clock (inr request_body) w in
  exists status detail r1 r2,
    reraise e = HTTPException status detail
    /\ fst result = Failure 500 ("Unexpected error: " +:+ Str.of_int status +:+ ": " +:+ detail)
    /\ (forall msg, e = RequestError msg ->
          status = 503 /\ detail = "Connection error to local LLM: " +:+ exn_str e)
    /\ (forall code msg, e = HTTPStatusError code msg ->
          status = code /\ detail = "LLM API error: " +:+ exn_str e)
    /\ logs (db (snd result)) = logs (db w) ++ r1 :: r2 :: nil
    /\ model_name r1 = default "unknown"%string (body_model request_body)
    /\ error_message r1 = Some (exn_str e)
    /\ model_name r2 = "unknown"%string
    /\ error_message r2 = Some ("Unexpected error: " +:+ Str.of_int status +:+ ": " +:+ detail).
Proof.
  intros Hstream Hpost result. subst result. unfold proxy_chat_completions.
  rewrite Hstream, Hpost.
  assert (Hre : exists s d, reraise e = HTTPException s d
            /\ (forall msg, e = RequestError msg -> s = 503 /\ d = "Connection error to local LLM: " +:+ exn_str e)
            /\ (forall code msg, e = HTTPStatusError code msg -> s = code /\ d = "LLM API error: " +:+ exn_str e)).
  { destruct e; cbn [reraise exn_str]; eexists _, _; (split; [reflexivity|]);
      split; intros; try discriminate; try (injection H as <-); try (injection H as <- <-); split; reflexivity. }
  destruct Hre as (s & d & Hre & H503 & Hcode). rewrite Hre. cbn [outer_handlers fst snd exn_str].
  eexists s, d, _, _. split; [reflexivity|]. split; [reflexivity|].
  split; [exact H503|]. split; [exact Hcode|]. split.
  - cbn [persist db add_log logs]. rewrite logs_evaluate. cbn [persist db add_log logs].
    rewrite <- app_assoc. reflexivity.
  - repeat split.
Qed.

Section PromptEstimate.

Lemma count_tokens_join_space (l : list string) :
  count_tokens (Str.join " " l) = fold_right Z.add 0 (map count_tokens l).
Proof.
  induction l as [| x l IH]; [reflexivity|].
  destruct l as [| y l].
  - cbn [Str.join map fold_right]. lia.
  - change (Str.join " " (x :: y :: l)) with (x +:+ String " " (Str.join " " (y :: l))).
    cbn [map fold_right] in *. rewrite <- IH. rewrite !count_tokens_runs.
    rewrite token_runs_app_space by reflexivity. lia.
Qed.

Lemma count_tokens_nonneg (s : string) : 0 <= count_tokens s.
Proof. unfold count_tokens. lia. Qed.

End PromptEstimate.

(** X14: the estimated prompt count is the token count of the logged input
    text (the user messages joined by spaces) plus the tokens of every
    message that is not a user message; so it is never below the token
    count of the input text, and equals it when every message is a user
    message. *)
Theorem prompt_estimate_covers_input_text (messages : list Message) :
  estimate_prompt_tokens messages
  = count_tokens (input_text_of messages)
    + estimate_prompt_tokens (List.filter (fun msg => negb (is_user msg)) messages)
  /\ count_tokens (input_text_of messages) <= estimate_prompt_tokens messages.
Proof.
  assert (Hnn : forall l, 0 <= estimate_prompt_tokens l).
  { intros l. unfold estimate_prompt_tokens. induction l as [| m l IH]; cbn [map fold_right]; [lia|].
    pose proof (count_tokens_nonneg (content_of m)). lia. }
  assert (Heq : estimate_prompt_tokens messages
                = count_tokens (input_text_of messages)
                  + estimate_prompt_tokens (List.filter (fun msg => negb (is_user msg)) messages)).
  { unfold input_text_of. rewrite count_tokens_join_space. unfold estimate_prompt_tokens.
    induction messages as [| m l IH]; [reflexivity|].
    cbn [List.filter map fold_right]. fold (is_user m).
    destruct (is_user m); cbn [negb map fold_right]; lia. }
  split; [exact Heq|].
  pose proof (Hnn (List.filter (fun msg => negb (is_user msg)) messages)). lia.
Qed.

Section Metadata.

Lemma metadata_lookup (request_body : ChatBody) (key : string) :
  metadata_of request_body !! key
  = if bool_decide (key ∈ metadata_keys) then Some (get_param request_body key) else None.
Proof.
  unfold metadata_of, metadata_keys.
  destruct (decide (key = "temperature"%string)) as [-> | H1];
    [rewrite lookup_insert_eq; reflexivity | rewrite lookup_insert_ne by congruence].
  destruct (decide (key = "max_tokens"%string)) as [-> | H2];
    [rewrite lookup_insert_eq; reflexivity | rewrite lookup_insert_ne by congruence].
  destruct (decide (key = "top_p"%string)) as [-> | H3];
    [rewrite lookup_insert_eq; reflexivity | rewrite lookup_insert_ne by congruence].
  destruct (decide (key = "frequency_penalty"%string)) as [-> | H4];
    [rewrite lookup_insert_eq; reflexivity | rewrite lookup_insert_ne by congruence].
  destruct (decide (key = "presence_penalty"%string)) as [-> | H5];
    [rewrite lookup_insert_eq; reflexivity | rewrite lookup_insert_ne by congruence].
  rewrite lookup_empty, bool_decide_false; [reflexivity|].
  intros Hin. repeat (apply elem_of_cons in Hin as [Hin | Hin]; [congruence|]).
  apply elem_of_nil in Hin. exact Hin.
Qed.

End Metadata.

(** X15: the metadata stored with a record has exactly the five sampling
    keys, each with the request's value or null when the request has none;
    every other top-level key of the request is left out.  The record of a
    successful call copies its [temperature] and [max_tokens] columns from
    the request (null when absent), while the record of a failed call
    keeps both columns null and still stores the metadata. *)
Theorem record_metadata_has_five_keys (request_body : ChatBody) (start_time end_time : Z)
    (response_data : ResponseData) (e : Exn) :
  let ok := success_log request_body start_time end_time response_data in
  let failed := backend_error_log request_body start_time end_time e in
  (forall key, metadata_of request_body !! key
               = if bool_decide (key ∈ metadata_keys)
                 then Some (default SNone (body_params request_body !! key)) else None)
  /\ request_metadata ok = Some (metadata_of request_body)
  /\ temperature ok = default SNone (body_params request_body !! "temperature")
  /\ max_tokens ok = default SNone (body_params request_body !! "max_tokens")
  /\ request_metadata failed = Some (metadata_of request_body)
  /\ temperature failed = SNone
  /\ max_tokens failed = SNone.
Proof.
  cbn zeta. split; [intros key; apply metadata_lookup|].
  split; [reflexivity|].
  cbn [success_log temperature max_tokens backend_error_log request_metadata].
  rewrite !metadata_lookup. cbn.
  repeat split; reflexivity.
Qed.

Section Routing.

Lemma prefix_lower (a b : string) :
  String.prefix a b = true -> String.prefix (Str.lower a) (Str.lower b) = true.
Proof.
  revert b. induction a as [| c a IH]; intros b; [destruct b; reflexivity|].
  destruct b as [| d b]; cbn [String.prefix Str.lower]; [discriminate|].
  destruct (ascii_dec c d) as [-> | Hne]; [|discriminate].
  intros H. destruct (ascii_dec (Str.lower_char d) (Str.lower_char d)); [|congruence].
  apply IH, H.
Qed.

Lemma contains_lower (a b : string) :
  Str.contains a b = true -> Str.contains (Str.lower a) (Str.lower b) = true.
Proof.
  induction b as [| d b IH]; cbn [Str.contains Str.lower]; intros H.
  - apply orb_true_iff in H as [H | H]; [|discriminate].
    apply prefix_lower in H. cbn [Str.lower] in H. rewrite H. reflexivity.
  - apply orb_true_iff in H as [H | H].
    + apply prefix_lower in H. cbn [Str.lower] in H. rewrite H. reflexivity.
    + rewrite (IH H). apply orb_true_r.
Qed.

End Routing.

(** X16: the routing test does not depend on the case of the word: a URL
    that holds [ollama] in any mix of upper and lower case, or the text
    [localhost:11434], is sent the reduced native payload (model, messages
    and stream flag only). *)
Theorem native_routing_ignores_case (llm_url needle : string) (request_body : ChatBody) :
  Str.lower needle = "ollama"%string \/ needle = "localhost:11434"%string ->
  Str.contains needle llm_url = true ->
  uses_native_chat llm_url = true
  /\ outbound_payload llm_url request_body
     = ollama_request (default "unknown"%string (body_model request_body))
                      (default nil (body_messages request_body))
                      (default false (body_stream request_body)).
Proof.
  intros Hneedle Hin.
  assert (Hnative : uses_native_chat llm_url = true).
  { unfold uses_native_chat. destruct Hneedle as [Hlow | ->].
    - apply contains_lower in Hin. rewrite Hlow in Hin. rewrite Hin. apply orb_true_r.
    - rewrite Hin. reflexivity. }
  split; [exact Hnative|]. unfold outbound_payload. rewrite Hnative. reflexivity.
Qed.

Lemma native_routing_ignores_case_witness :
  uses_native_chat "http://gpu-box/OLLaMa/api/chat" = true
  /\ outbound_payload "http://gpu-box/OLLaMa/api/chat" (Examples.sampled_request false)
     = ollama_request "llama3" (Examples.hello :: nil) false.
Proof.
  apply (native_routing_ignores_case "http://gpu-box/OLLaMa/api/chat" "OLLaMa").
  - left. reflexivity.
  - reflexivity.
Defined.

Section ErrorChunk.






Lemma prefix_refl_app (a x : string) : String.prefix a (a +:+ x) = true.
Proof.
  induction a as [| c a IH]; [destruct x; reflexivity|].
  change (String c a +:+ x) with (String c (a +:+ x)). cbn [String.prefix].
  destruct (ascii_dec c c); [exact IH | congruence].
Qed.







End ErrorChunk.


Section StartUp.

Lemma filter_is_active_false (l : list AlertRule) :
  Forall (fun rule => is_active rule = false) l -> List.filter is_active l = nil.
Proof.
  induction 1 as [| r l Hr _ IH]; [reflexivity|]. cbn [List.filter]. rewrite Hr. exact IH.
Qed.

End StartUp.

(** X18: start-up installs the three default rules exactly when the rule
    table has no row, and never touches logs or events; running it again
    changes nothing.  A table that holds only switched-off rules counts as
    non-empty: it is left as it is, and no rule is active afterwards. *)
Theorem startup_installs_rules_once (db : Db) :
  lifespan (lifespan db) = lifespan db
  /\ logs (lifespan db) = logs db /\ events (lifespan db) = events db
  /\ rules (lifespan db) = (match rules db with nil => default_rules | _ :: _ => rules db end)
  /\ (rules db <> nil -> Forall (fun rule => is_active rule = false) (rules db) ->
      query_active_rules (lifespan db) = nil)
  /\ (rules db = nil -> query_active_rules (lifespan db) = default_rules).
Proof.
  unfold lifespan. destruct db as [l rs ev]. cbn [rules logs events].
  destruct rs as [| r rs]; cbn [List.length Z.of_nat].
  - cbn. repeat split; try reflexivity. intros H. congruence.
  - replace (Z.of_nat (S (List.length rs)) =? 0) with false by (symmetry; apply Z.eqb_neq; lia).
    cbn [rules logs events].
    replace (Z.of_nat (S (List.length rs)) =? 0) with false by (symmetry; apply Z.eqb_neq; lia).
    split; [reflexivity|]. split; [reflexivity|]. split; [reflexivity|]. split; [reflexivity|].
    split; [|discriminate].
    intros _ Hoff. unfold query_active_rules. cbn [rules]. apply filter_is_active_false, Hoff.
Qed.

Section CostSettingsTable.

Lemma find_update_first_same (table : list CostSettings) (m : string) (row : CostSettings) :
  cs_model_name row = m ->
  is_Some (find_cost_settings table m) ->
  find_cost_settings (update_first table m row) m = Some row.
Proof.
  intros Hrow. unfold find_cost_settings.
  induction table as [| cs rest IH]; cbn [List.find update_first]; intros [x Hx]; [discriminate|].
  destruct (String.eqb (cs_model_name cs) m) eqn:E.
  - cbn [List.find]. rewrite Hrow, String.eqb_refl. reflexivity.
  - cbn [List.find]. rewrite E. apply IH. exists x. exact Hx.
Qed.

Lemma find_update_first_other (table : list CostSettings) (m m' : string) (row : CostSettings) :
  cs_model_name row = m -> m' <> m ->
  find_cost_settings (update_first table m row) m' = find_cost_settings table m'.
Proof.
  intros Hrow Hne. unfold find_cost_settings.
  induction table as [| cs rest IH]; cbn [List.find update_first]; [reflexivity|].
  destruct (String.eqb (cs_model_name cs) m) eqn:E.
  - cbn [List.find]. rewrite Hrow. apply String.eqb_eq in E. rewrite E.
    replace (String.eqb m m') with false by (symmetry; apply String.eqb_neq; congruence).
    reflexivity.
  - cbn [List.find]. destruct (String.eqb (cs_model_name cs) m'); [reflexivity | exact IH].
Qed.

Lemma find_app_new (table : list CostSettings) (m' : string) (row : CostSettings) :
  find_cost_settings (table ++ row :: nil) m'
  = match find_cost_settings table m' with
    | Some cs => Some cs
    | None => if String.eqb (cs_model_name row) m' then Some row else None
    end.
Proof.
  unfold find_cost_settings.
  induction table as [| cs rest IH]; cbn [List.find app]; [reflexivity|].
  destruct (String.eqb (cs_model_name cs) m'); [reflexivity | exact IH].
Qed.

Lemma update_first_names (table : list CostSettings) (m : string) (row : CostSettings) :
  cs_model_name row = m ->
  map cs_model_name (update_first table m row) = map cs_model_name table.
Proof.
  intros Hrow. induction table as [| cs rest IH]; cbn [update_first map]; [reflexivity|].
  destruct (String.eqb (cs_model_name cs) m) eqn:E.
  - cbn [map]. apply String.eqb_eq in E. congruence.
  - cbn [map]. rewrite IH. reflexivity.
Qed.

Lemma find_none_not_in (table : list CostSettings) (m : string) :
  find_cost_settings table m = None -> ~ In m (map cs_model_name table).
Proof.
  unfold find_cost_settings. induction table as [| cs rest IH]; cbn [List.find map]; [intros _ []|].
  destruct (String.eqb (cs_model_name cs) m) eqn:E; [discriminate|].
  intros H [Hin | Hin]; [apply String.eqb_neq in E; congruence | exact (IH H Hin)].
Qed.

Lemma update_first_twice (table : list CostSettings) (m : string) (row row' : CostSettings) :
  cs_model_name row = m ->
  update_first (update_first table m row) m row' = update_first table m row'.
Proof.
  intros Hrow. induction table as [| cs rest IH]; cbn [update_first]; [reflexivity|].
  destruct (String.eqb (cs_model_name cs) m) eqn:E; cbn [update_first].
  - rewrite Hrow, String.eqb_refl. reflexivity.
  - rewrite E, IH. reflexivity.
Qed.

Lemma update_first_app_new (table : list CostSettings) (m : string) (row row' : CostSettings) :
  find_cost_settings table m = None -> cs_model_name row = m ->
  update_first (table ++ row :: nil) m row' = table ++ row' :: nil.
Proof.
  unfold find_cost_settings. intros Hnone Hrow.
  induction table as [| cs rest IH]; cbn [update_first app List.find] in *.
  - rewrite Hrow, String.eqb_refl. reflexivity.
  - destruct (String.eqb (cs_model_name cs) m); [discriminate|]. rewrite (IH Hnone). reflexivity.
Qed.

End CostSettingsTable.

(** X19: saving cost settings and reading them back: after
    [create_cost_setting] the lookup of that model gives exactly the three
    rates just sent, the lookup of every other model is unchanged, the
    table grows by one row only when the model had none, and a second save
    for the same model overwrites the first (the last write wins). *)
Theorem cost_setting_round_trip (table : list CostSettings) (m : string) (a b c a' b' c' : float) :
  let saved := create_cost_setting table m a b c in
  let row := {| cs_model_name := m; cost_per_1k_input_tokens := a;
                cost_per_1k_output_tokens := b; electricity_cost_per_hour := c |} in
  fst saved = row
  /\ find_cost_settings (snd saved) m = Some row
  /\ (forall m', m' <> m -> find_cost_settings (snd saved) m' = find_cost_settings table m')
  /\ List.length (snd saved)
     = (match find_cost_settings table m with
        | Some _ => List.length table
        | None => S (List.length table)
        end)
  /\ snd (create_cost_setting (snd saved) m a' b' c') = snd (create_cost_setting table m a' b' c').
Proof.
  cbn zeta. unfold create_cost_setting.
  set (row := {| cs_model_name := m; cost_per_1k_input_tokens := a;
                 cost_per_1k_output_tokens := b; electricity_cost_per_hour := c |}).
  set (row' := {| cs_model_name := m; cost_per_1k_input_tokens := a';
                  cost_per_1k_output_tokens := b'; electricity_cost_per_hour := c' |}).
  destruct (find_cost_settings table m) as [cs |] eqn:Efind; cbn [fst snd].
  - split; [reflexivity|].
    split; [apply find_update_first_same; [reflexivity | rewrite Efind; eexists; reflexivity]|].
    split; [intros m' Hne; apply find_update_first_other; [reflexivity | exact Hne]|].
    split.
    + rewrite <- (length_map cs_model_name), update_first_names by reflexivity.
      apply length_map.
    + rewrite find_update_first_same by (try reflexivity; rewrite Efind; eexists; reflexivity).
      cbn [snd]. apply update_first_twice. reflexivity.
  - split; [reflexivity|].
    split; [rewrite find_app_new, Efind; unfold row; cbn [cs_model_name]; rewrite String.eqb_refl; reflexivity|].
    split.
    + intros m' Hne. rewrite find_app_new. destruct (find_cost_settings table m'); [reflexivity|].
      unfold row; cbn [cs_model_name].
      replace (String.eqb m m') with false by (symmetry; apply String.eqb_neq; congruence).
      reflexivity.
    + split; [rewrite length_app; cbn; lia|].
      rewrite find_app_new, Efind. unfold row; cbn [cs_model_name]. rewrite String.eqb_refl. cbn [snd].
      apply update_first_app_new; [exact Efind | reflexivity].
Qed.

(** X20: saving cost settings keeps the model names of the table distinct,
    as the unique constraint of the column requires. *)
Theorem cost_setting_names_stay_unique (table : list CostSettings) (m : string) (a b c : float) :
  NoDup (map cs_model_name table) ->
  NoDup (map cs_model_name (snd (create_cost_setting table m a b c))).
Proof.
  intros Hnd. unfold create_cost_setting.
  destruct (find_cost_settings table m) as [cs |] eqn:Efind; cbn [snd].
  - rewrite update_first_names by reflexivity. exact Hnd.
  - rewrite map_app. cbn [map cs_model_name].
    apply NoDup_ListNoDup. apply NoDup_ListNoDup in Hnd.
    apply List.NoDup_app; [exact Hnd | repeat constructor; intros [] |].
    intros x Hx [<- | []]. exact (find_none_not_in _ _ Efind Hx).
Qed.

Section CostAnalysisLaws.

Lemma cost_fold_counts (settings : list CostSettings) (model : string) (l : list LLMRequestLog) :
  forall (b : gmap string ModelCost) (t : float),
    let b' := fst (fold_left (cost_step settings) l (b, t)) in
    requests (default new_model_cost (b' !! model))
    = requests (default new_model_cost (b !! model))
      + Z.of_nat (List.length (logs_of_model model l))
    /\ mc_total_tokens (default new_model_cost (b' !! model))
       = mc_total_tokens (default new_model_cost (b !! model))
         + fold_right Z.add 0 (map (fun log => default 0 (total_tokens log)) (logs_of_model model l))
    /\ (b' !! model = None <-> b !! model = None /\ logs_of_model model l = nil).
Proof.
  induction l as [| log l IH]; intros b t; cbn zeta.
  - cbn [fold_left fst logs_of_model List.filter List.length map fold_right Z.of_nat].
    split; [lia|]. split; [lia|]. split; [intros H; split; [exact H | reflexivity] | intros [H _]; exact H].
  - cbn [fold_left]. unfold cost_step at 2.
    match goal with |- context [fold_left _ l (?b1, ?t1)] => specialize (IH b1 t1) end.
    cbn zeta in IH. destruct IH as (IH1 & IH2 & IH3).
    unfold logs_of_model in *. cbn [List.filter].
    destruct (String.eqb (model_name log) model) eqn:E.
    + apply String.eqb_eq in E. subst model.
      rewrite lookup_insert_eq in IH1, IH2, IH3.
      cbn [default from_option id requests mc_total_tokens] in IH1, IH2.
      cbn [List.length map fold_right].
      split; [etransitivity; [exact IH1 | lia]|]. split; [etransitivity; [exact IH2 | lia]|].
      split; [intros H; apply IH3 in H as [H _]; discriminate | intros [_ H]; discriminate].
    + apply String.eqb_neq in E.
      rewrite lookup_insert_ne in IH1, IH2, IH3 by exact E.
      split; [exact IH1|]. split; [exact IH2 | exact IH3].
Qed.

Lemma unpriced_costs_nothing (settings : list CostSettings) (log : LLMRequestLog) :
  priced settings log = false -> request_cost settings log = 0%float.
Proof.
  unfold priced, request_cost.
  destruct (find_cost_settings settings (model_name log)); [|reflexivity].
  intros ->. reflexivity.
Qed.

Lemma cost_fold_zero (settings : list CostSettings) (l : list LLMRequestLog) :
  Forall (fun log => priced settings log = false) l ->
  forall (b : gmap string ModelCost),
    (forall model mc, b !! model = Some mc -> estimated_cost mc = 0%float) ->
    snd (fold_left (cost_step settings) l (b, 0%float)) = 0%float
    /\ (forall model mc, fst (fold_left (cost_step settings) l (b, 0%float)) !! model = Some mc ->
                         estimated_cost mc = 0%float).
Proof.
  induction 1 as [| log l Hlog _ IH]; intros b Hb.
  - cbn [fold_left fst snd]. split; [reflexivity | exact Hb].
  - cbn [fold_left]. unfold cost_step at 2 4.
    rewrite (unpriced_costs_nothing _ _ Hlog).
    change (0 + 0)%float with 0%float.
    assert (Hentry : estimated_cost (default new_model_cost (b !! model_name log)) = 0%float).
    { destruct (b !! model_name log) as [mc |] eqn:E; [exact (Hb _ _ E) | reflexivity]. }
    rewrite Hentry. change (0 + 0)%float with 0%float.
    apply IH. intros model mc.
    destruct (decide (model_name log = model)) as [<- | Hne].
    + rewrite lookup_insert_eq. intros [= <-]. reflexivity.
    + rewrite lookup_insert_ne by exact Hne. apply Hb.
Qed.

End CostAnalysisLaws.

(** X21: in the cost analysis a model has an entry exactly when the time
    window holds a record of it; the entry's request count is the number of
    those records, and its token total is the sum of their [total_tokens],
    a null counting as 0. *)
Theorem cost_breakdown_counts (settings : list CostSettings) (db : Db) (now hours : Z)
    (model : string) :
  let analysis := get_cost_analysis settings db now hours in
  let model_logs := logs_of_model model (cost_window db now hours) in
  match cost_breakdown analysis !! model with
  | None => model_logs = nil
  | Some mc =>
      model_logs <> nil
      /\ requests mc = Z.of_nat (List.length model_logs)
      /\ mc_total_tokens mc
         = fold_right Z.add 0 (map (fun log => default 0 (total_tokens log)) model_logs)
  end.
Proof.
  cbn zeta. unfold get_cost_analysis.
  pose proof (cost_fold_counts settings model (cost_window db now hours) ∅ 0%float) as H.
  cbn zeta in H.
  destruct (fold_left (cost_step settings) (cost_window db now hours) (∅, 0%float))
    as [breakdown total].
  cbn [fst cost_breakdown] in *. rewrite lookup_fmap, lookup_empty in *.
  destruct H as (H1 & H2 & H3).
  cbn [default from_option id new_model_cost requests mc_total_tokens] in H1, H2.
  destruct (breakdown !! model) as [mc |] eqn:E; cbn [fmap option_fmap option_map].
  - cbn [default from_option id] in H1, H2. split.
    + intros Hnil. assert (Hnone : Some mc = None) by (apply H3; split; [reflexivity | exact Hnil]).
      discriminate.
    + unfold average_latency. destruct (0 <? requests mc); cbn [requests mc_total_tokens]; split; lia.
  - apply H3. reflexivity.
Qed.

(** X22: the cost loop prices a record only when both its prompt and its
    completion count are set and not zero.  So every record of a streaming
    call (its prompt count is null), every error record, and the record of
    a non-streaming call whose reply had no usage block cost 0.0 whatever
    the cost settings of the model are. *)
Theorem records_without_counts_cost_nothing (settings : list CostSettings)
    (info : LogStartInfo) (request_body : ChatBody) (start_time end_time : Z)
    (st : RelayState) (e : Exn) (reply : option (list Choice)) :
  request_cost settings (stream_success_log info end_time st) = 0%float
  /\ request_cost settings (stream_error_log info end_time e) = 0%float
  /\ request_cost settings (backend_error_log request_body start_time end_time e) = 0%float
  /\ request_cost settings (fallback_log start_time end_time e) = 0%float
  /\ request_cost settings
       (success_log request_body start_time end_time {| choices := reply; usage := None |})
     = 0%float.
Proof.
  repeat split; apply unpriced_costs_nothing; unfold priced;
    match goal with |- context [find_cost_settings ?s ?m] => destruct (find_cost_settings s m) end;
    try reflexivity.
  cbn [success_log prompt_tokens completion_tokens usage mbind option_bind int_truthy].
  apply andb_false_r.
Qed.

(** X23: when no record of the window is priced (no cost settings for its
    model, or a missing or zero token count), the analysis reports a total
    of 0.0 and an estimated cost of 0.0 for every model. *)
Theorem cost_analysis_without_priced_records (settings : list CostSettings) (db : Db)
    (now hours : Z) :
  Forall (fun log => priced settings log = false) (cost_window db now hours) ->
  let analysis := get_cost_analysis settings db now hours in
  total_cost analysis = 0%float
  /\ time_period_hours analysis = hours
  /\ forall model mc, cost_breakdown analysis !! model = Some mc -> estimated_cost mc = 0%float.
Proof.
  intros Hall. cbn zeta. unfold get_cost_analysis.
  destruct (cost_fold_zero settings _ Hall ∅) as [Ht Hb].
  { intros model mc. rewrite lookup_empty. discriminate. }
  destruct (fold_left (cost_step settings) (cost_window db now hours) (∅, 0%float))
    as [breakdown total].
  cbn [fst snd total_cost cost_breakdown time_period_hours] in *. subst total.
  split; [vm_compute; reflexivity|]. split; [reflexivity|].
  intros model mc. rewrite lookup_fmap.
  destruct (breakdown !! model) as [mc0 |] eqn:E; cbn [fmap option_fmap option_map]; [|discriminate].
  intros [= <-]. specialize (Hb _ _ E). unfold average_latency.
  destruct (0 <? requests mc0); cbn [estimated_cost]; exact Hb.
Qed.

Lemma cost_analysis_without_priced_records_witness :
  let db := {| logs := Examples.log_with 100 None :: Examples.log_with 250 (Some "boom"%string) :: nil;
               rules := nil; events := nil |} in
  let analysis := get_cost_analysis nil db 0 24 in
  total_cost analysis = 0%float
  /\ time_period_hours analysis = 24
  /\ forall model mc, cost_breakdown analysis !! model = Some mc -> estimated_cost mc = 0%float.
Proof.
  cbn zeta.
  apply (cost_analysis_without_priced_records nil
           {| logs := Examples.log_with 100 None :: Examples.log_with 250 (Some "boom"%string) :: nil;
              rules := nil; events := nil |} 0 24).
  repeat constructor.
Defined.

Lemma cost_setting_names_stay_unique_witness :
  NoDup (map cs_model_name
           (snd (create_cost_setting
                   ({| cs_model_name := "llama3"; cost_per_1k_input_tokens := 0.5;
                       cost_per_1k_output_tokens := 1.5; electricity_cost_per_hour := 0 |} :: nil)
                   "mistral" 0.25 0.75 0.1))).
Proof.
  apply (cost_setting_names_stay_unique
           ({| cs_model_name := "llama3"; cost_per_1k_input_tokens := 0.5;
               cost_per_1k_output_tokens := 1.5; electricity_cost_per_hour := 0 |} :: nil)
           "mistral" 0.25 0.75 0.1).
  apply NoDup_cons. split; [apply not_elem_of_nil | apply NoDup_nil; exact I].
Defined.

Section PercentileOrder.

(** Rounding an exact positive value [m * 2^e] to binary64 moves it by a
    factor of at most [1 + 2^-52] upwards and [1 - 2^-52] downwards. *)
Lemma binary_round_aux_near (sx : bool) (m : positive) (e : Z) :
  -1074 <= e ->
  exists (m' : positive) (e' : Z),
    binary_round_aux prec emax sx (Zpos m) e loc_Exact
      = (if e' <=? 971 then S754_finite sx m' e' else S754_infinity sx)
    /\ e <= e' <= e + Z.max (Zpos (digits2_pos m) - 53) 0 + 1
    /\ Zpos m' < 2 ^ 53
    /\ Zpos m' * 2 ^ (e' - e) * 2 ^ 52 <= Zpos m * (2 ^ 52 + 1)
    /\ Zpos m * (2 ^ 52 - 1) <= Zpos m' * 2 ^ (e' - e) * 2 ^ 52.
Proof.
  intros He. unfold binary_round_aux.
  destruct (shr_fexp_spec m e loc_Exact He) as (Hm1 & He1 & Hex1).
  destruct (shr_fexp prec emax (Zpos m) e loc_Exact) as [mrs1 e1] eqn:E1.
  cbn [fst snd] in Hm1, He1, Hex1. clear E1.
  destruct (digits2_facts m) as (d & Ed & Hd & Hdlo & Hdhi).
  rewrite Ed in *.
  set (s1 := Z.max (d - 53) 0) in *.
  assert (Hs1 : 0 <= s1 /\ (s1 = 0 \/ s1 = d - 53) /\ d - 53 <= s1) by lia. clearbody s1.
  set (m2 := round_nearest_even (shr_m mrs1) (loc_of_shr_record mrs1)).
  assert (Hp1 : 0 < 2 ^ s1) by (apply Z.pow_pos_nonneg; lia).
  assert (Hm2 : shr_m mrs1 <= m2 <= shr_m mrs1 + 1) by apply round_nearest_even_bounds.
  assert (Hm1lo : 1 <= shr_m mrs1).
  { rewrite Hm1. apply Z.div_le_lower_bound; [lia|].
    destruct (Z.eq_dec s1 0) as [->|]; [cbn; lia|].
    assert (2 ^ s1 <= 2 ^ (d - 1)) by (apply Z.pow_le_mono_r; lia). lia. }
  assert (Hm2' : s1 = 0 -> m2 = Zpos m).
  { intros H0. unfold m2. rewrite (Hex1 H0). reflexivity. }
  assert (Hm2hi : s1 <> 0 -> m2 <= 2 ^ 53 /\ m2 * 2 ^ s1 <= Zpos m + 2 ^ s1
                             /\ 2 ^ s1 * 2 ^ 52 <= Zpos m /\ Zpos m < m2 * 2 ^ s1 + 2 ^ s1).
  { intros Hn. assert (Hs : s1 = d - 53) by lia.
    assert (Hdd : 2 ^ d = 2 ^ 53 * 2 ^ s1) by (rewrite <- Z.pow_add_r by lia; f_equal; lia).
    assert (Hdd' : 2 ^ (d - 1) = 2 ^ s1 * 2 ^ 52) by (rewrite <- Z.pow_add_r by lia; f_equal; lia).
    assert (shr_m mrs1 < 2 ^ 53) by (rewrite Hm1; apply Z.div_lt_upper_bound; lia).
    assert (shr_m mrs1 * 2 ^ s1 <= Zpos m) by (rewrite Hm1, Z.mul_comm; apply Z.mul_div_le; lia).
    assert (Zpos m < shr_m mrs1 * 2 ^ s1 + 2 ^ s1).
    { rewrite Hm1. pose proof (Z.mul_succ_div_gt (Zpos m) (2 ^ s1) Hp1). lia. }
    split; [lia|]. split; [nia|]. split; [lia | nia]. }
  clearbody m2. clear Hex1.
  destruct m2 as [| m2p | m2p]; [lia | | lia].
  destruct (shr_fexp_spec m2p e1 loc_Exact ltac:(lia)) as (Hm3 & He3 & _).
  destruct (shr_fexp prec emax (Zpos m2p) e1 loc_Exact) as [mrs3 e3] eqn:E3.
  cbn [fst snd] in Hm3, He3. clear E3.
  destruct (digits2_facts m2p) as (d2 & Ed2 & Hd2 & Hd2lo & Hd2hi).
  rewrite Ed2 in *.
  assert (Hdeq : s1 = 0 -> d2 = d).
  { intros H0. specialize (Hm2' H0). injection Hm2' as Hmm. rewrite Hmm in Ed2. congruence. }
  clear Ed Ed2.
  set (s2 := Z.max (d2 - 53) 0) in *.
  assert (Hs2 : 0 <= s2 /\ (s2 = 0 \/ s2 = d2 - 53) /\ d2 - 53 <= s2 /\ s2 <= d2 - 1) by lia.
  clearbody s2.
  assert (Hp2 : 0 < 2 ^ s2) by (apply Z.pow_pos_nonneg; lia).
  assert (Hm3lo : 1 <= shr_m mrs3).
  { rewrite Hm3. apply Z.div_le_lower_bound; [lia|].
    assert (2 ^ s2 <= 2 ^ (d2 - 1)) by (apply Z.pow_le_mono_r; lia). lia. }
  assert (Hm3hi : shr_m mrs3 < 2 ^ 53).
  { rewrite Hm3. apply Z.div_lt_upper_bound; [lia|].
    assert (H : 2 ^ d2 <= 2 ^ (s2 + 53)) by (apply Z.pow_le_mono_r; lia).
    rewrite Z.pow_add_r in H by lia. lia. }
  assert (Hm3mul : shr_m mrs3 * 2 ^ s2 <= Zpos m2p)
    by (rewrite Hm3, Z.mul_comm; apply Z.mul_div_le; lia).
  assert (Hs2le : s2 <= 1 /\ (s1 = 0 -> s2 = 0)).
  { destruct (Z.eq_dec s1 0) as [H0|Hn].
    - specialize (Hdeq H0). split; lia.
    - destruct (Hm2hi Hn) as (Hle & _).
      assert (d2 <= 54) by (apply pow2_lt_exp; [lia|]; change (2 ^ 54) with (2 * 2 ^ 53); lia).
      split; lia. }
  assert (Hm3eq : shr_m mrs3 * 2 ^ s2 = Zpos m2p).
  { destruct (Z.eq_dec s2 0) as [H0 | Hn0].
    - rewrite Hm3, H0. change (2 ^ 0) with 1. rewrite Z.div_1_r. lia.
    - assert (Hs21 : s2 = 1) by lia. assert (Hd54 : d2 = 54) by lia.
      assert (Hn1 : s1 <> 0) by (intros H0; destruct Hs2le as [_ H]; specialize (H H0); lia).
      destruct (Hm2hi Hn1) as (Hle & _).
      rewrite Hd54 in Hd2lo. change (2 ^ (54 - 1)) with (2 ^ 53) in Hd2lo.
      assert (Em : Zpos m2p = 2 ^ 53) by lia.
      rewrite Hm3, Em, Hs21. reflexivity. }
  destruct (shr_m mrs3) as [| m3 | m3] eqn:Em3; [lia | | lia].
  exists m3, e3. split; [reflexivity|]. split; [lia|]. split; [assumption|].
  replace (e3 - e) with (s2 + s1) by lia. rewrite Z.pow_add_r by lia.
  destruct (Z.eq_dec s1 0) as [H0|Hn].
  - specialize (Hm2' H0). rewrite H0 in *. injection Hm2' as ->.
    change (2 ^ 0) with 1. split; nia.
  - destruct (Hm2hi Hn) as (_ & Hb1 & Hb2 & Hb3). split; nia.
Qed.

Lemma shiftl_mono (a b e : Z) : 0 <= a <= b -> Z.shiftl a e <= Z.shiftl b e.
Proof.
  intros Hab. destruct (Z.le_gt_cases 0 e) as [He | He].
  - rewrite !Z.shiftl_mul_pow2 by exact He.
    apply Z.mul_le_mono_nonneg_r; [apply Z.pow_nonneg|]; lia.
  - rewrite !Z.shiftl_div_pow2 by lia.
    apply Z.div_le_mono; [apply Z.pow_pos_nonneg|]; lia.
Qed.

Lemma shiftl_rescale (m e e0 : Z) :
  e0 <= e -> Z.shiftl m e = Z.shiftl (m * 2 ^ (e - e0)) e0.
Proof.
  intros He. rewrite <- (Z.shiftl_mul_pow2 m (e - e0)) by lia.
  rewrite Z.shiftl_shiftl by lia. f_equal. lia.
Qed.

(** The product of a record count with a fraction of mantissa [mc] and
    exponent -53, truncated to an int: it grows with the fraction, as long
    as the two fractions are not within one rounding step of each other. *)
Lemma int_of_scaled_count_mono (n : Z) (c1 c2 : float) (m1 m2 : positive) :
  0 < n < 2 ^ 63 ->
  Prim2SF c1 = S754_finite false m1 (-53) ->
  Prim2SF c2 = S754_finite false m2 (-53) ->
  Zpos m1 * (2 ^ 52 + 1) <= Zpos m2 * (2 ^ 52 - 1) ->
  Zpos m2 < 2 ^ 53 ->
  exists i j,
    Py.int_of_float (Py.float_of_int n * c1)%float = Some i
    /\ Py.int_of_float (Py.float_of_int n * c2)%float = Some j
    /\ 0 <= i <= j.
Proof.
  intros Hn Hc1 Hc2 Hgap Hm2.
  destruct (float_of_int_pos n Hn) as (mx & ex & A & Hx & HA & Hex & Hmx & _).
  unfold Py.int_of_float. rewrite !mul_spec, Hx, Hc1, Hc2. cbn [SF64mul SFmul xorb].
  assert (Hm1 : Zpos m1 < 2 ^ 53) by lia.
  assert (Hdig : forall mc : positive, Zpos mc < 2 ^ 53 ->
            Z.max (Zpos (digits2_pos (mx * mc)) - 53) 0 <= 53).
  { intros mc Hmc. destruct (digits2_facts (mx * mc)) as (d & -> & Hd & Hdlo & _).
    assert (d <= 106); [|lia].
    apply pow2_lt_exp; [lia|]. rewrite Pos2Z.inj_mul in Hdlo.
    assert (Zpos mx * Zpos mc < 2 ^ 53 * 2 ^ 53) by (apply Z.mul_lt_mono_nonneg; lia).
    change (2 ^ 106) with (2 ^ 53 * 2 ^ 53). lia. }
  destruct (binary_round_aux_near false (mx * m1) (ex + -53) ltac:(lia))
    as (y1 & e1 & -> & He1 & Hy1 & Hup1 & _).
  destruct (binary_round_aux_near false (mx * m2) (ex + -53) ltac:(lia))
    as (y2 & e2 & -> & He2 & Hy2 & _ & Hlo2).
  pose proof (Hdig m1 Hm1) as Hd1. pose proof (Hdig m2 Hm2) as Hd2. clear Hdig.
  revert He1 He2 Hd1 Hd2.
  generalize (Z.max (Zpos (digits2_pos (mx * m1)) - 53) 0).
  generalize (Z.max (Zpos (digits2_pos (mx * m2)) - 53) 0).
  intros k2 k1 He1 He2 Hd1 Hd2.
  replace (e1 <=? 971) with true by (symmetry; apply Z.leb_le; lia).
  replace (e2 <=? 971) with true by (symmetry; apply Z.leb_le; lia).
  cbn [cond_Zopp].
  exists (Z.shiftl (Zpos y1) e1), (Z.shiftl (Zpos y2) e2).
  split; [reflexivity|]. split; [reflexivity|].
  split; [apply Z.shiftl_nonneg; lia|].
  rewrite (shiftl_rescale (Zpos y1) e1 (ex + -53)) by lia.
  rewrite (shiftl_rescale (Zpos y2) e2 (ex + -53)) by lia.
  apply shiftl_mono.
  assert (0 < 2 ^ (e1 - (ex + -53))) by (apply Z.pow_pos_nonneg; lia).
  assert (0 < 2 ^ (e2 - (ex + -53))) by (apply Z.pow_pos_nonneg; lia).
  rewrite !Pos2Z.inj_mul in *.
  split; [nia|].
  assert (Hmid : Zpos mx * Zpos m1 * (2 ^ 52 + 1) <= Zpos mx * Zpos m2 * (2 ^ 52 - 1)) by nia.
  nia.
Qed.

End PercentileOrder.

Section PercentileOrderLists.

Lemma sorted_nth_mono (l : list Z) :
  Sorted Z.le l ->
  forall i j, (i <= j < List.length l)%nat -> nth i l 0 <= nth j l 0.
Proof.
  intros Hs. apply Sorted_StronglySorted in Hs; [|intros x y z; apply Z.le_trans].
  induction Hs as [| x l Hs IH Hall]; intros i j Hij; [cbn in Hij; lia|].
  destruct i as [| i], j as [| j]; cbn [nth]; cbn [List.length] in Hij; try lia.
  - rewrite List.Forall_forall in Hall. apply Hall, nth_In. lia.
  - apply IH. lia.
Qed.

Lemma sorted_nth_in (l : list Z) (i : nat) :
  (i < List.length l)%nat -> In (nth i (Analytics.sorted l) 0) l.
Proof.
  intros Hi. apply (Permutation_in _ (Permutation_sym (sorted_perm l))).
  apply nth_In. rewrite sorted_length. exact Hi.
Qed.

End PercentileOrderLists.

(** X24: over any window the two latency percentiles of the analytics
    report are in order, [p95 <= p99]; both are computed without a fault,
    and over a non-empty window each is one of the window's own latencies
    (no interpolation), so neither exceeds the largest latency. *)
Theorem p95_at_most_p99 (recent_logs : list LLMRequestLog) :
  Z.of_nat (List.length recent_logs) < 2 ^ 63 ->
  exists a b,
    Analytics.p95 recent_logs = Some a
    /\ Analytics.p99 recent_logs = Some b
    /\ a <= b
    /\ (recent_logs <> nil ->
        In a (Analytics.latencies_of recent_logs) /\ In b (Analytics.latencies_of recent_logs)).
Proof.
  intros Hlen. unfold Analytics.p95, Analytics.p99, Analytics.latencies_of.
  destruct recent_logs as [| r rest].
  - exists 0, 0. cbn. repeat split; try lia; congruence.
  - set (l := map latency_ms (r :: rest)).
    assert (Hl : List.length l = List.length (r :: rest)) by apply length_map.
    assert (Hn : 0 < Z.of_nat (List.length l) < 2 ^ 63) by (rewrite Hl; cbn [List.length] in *; lia).
    unfold Analytics.percentile.
    destruct l as [| x l'] eqn:El; [cbn in Hn; lia|]. rewrite <- El in *.
    destruct (int_of_scaled_count_mono (Z.of_nat (List.length l)) 0.95 0.99
                8556839292003942 8917127262193582 Hn)
      as (i & j & Hi & Hj & Hij); [reflexivity | reflexivity | vm_compute; discriminate | vm_compute; reflexivity |].
    destruct (int_of_scaled_count (Z.of_nat (List.length l)) 0.99 8917127262193582 Hn)
      as (j' & Hj' & Hjn); [reflexivity | vm_compute; reflexivity |].
    rewrite Hj in Hj'. injection Hj' as <-.
    rewrite Hi, Hj.
    rewrite !index_in_range by (rewrite sorted_length; lia).
    eexists _, _. split; [reflexivity|]. split; [reflexivity|]. split.
    + apply sorted_nth_mono; [apply sorted_ascending|]. rewrite sorted_length. lia.
    + intros _. split; apply sorted_nth_in; lia.
Qed.

Lemma p95_at_most_p99_witness :
  exists a b,
    Analytics.p95 (Examples.log_with 120 None :: Examples.log_with 80 None
                   :: Examples.log_with 4000 None :: nil) = Some a
    /\ Analytics.p99 (Examples.log_with 120 None :: Examples.log_with 80 None
                      :: Examples.log_with 4000 None :: nil) = Some b
    /\ a <= b
    /\ (Examples.log_with 120 None :: Examples.log_with 80 None
          :: Examples.log_with 4000 None :: nil <> nil ->
        In a (Analytics.latencies_of (Examples.log_with 120 None :: Examples.log_with 80 None
                                        :: Examples.log_with 4000 None :: nil))
        /\ In b (Analytics.latencies_of (Examples.log_with 120 None :: Examples.log_with 80 None
                                           :: Examples.log_with 4000 None :: nil))).
Proof.
  apply (p95_at_most_p99 (Examples.log_with 120 None :: Examples.log_with 80 None
                            :: Examples.log_with 4000 None :: nil)).
  cbn. lia.
Defined.

(** X25: a record without throughput (null, as on every error record, or
    zero) is evaluated with the value 0.0 for [tokens_per_second], so a
    rule [tokens_per_second lt t] with a positive threshold, such as the
    start-up rule with threshold 10, fires on it. *)
Theorem null_throughput_trips_low_rule (db : Db) (log_entry : LLMRequestLog) (rule : AlertRule) :
  metric rule = "tokens_per_second"%string ->
  operator rule = "lt"%string ->
  (0 <? threshold rule)%float = true ->
  (default 0%float (tokens_per_second log_entry) =? 0)%float = true ->
  rule_event db log_entry rule
  = Some {| ev_rule_id := rule_id rule;
            ev_rule_name := name rule;
            ev_metric_value := 0%float;
            ev_threshold := threshold rule;
            ev_message := alert_message rule 0%float |}.
Proof.
  intros Hm Hop Hth Htps. unfold rule_event, resolve_metric. rewrite Hm.
  cbn [String.eqb Ascii.eqb Bool.eqb].
  assert (Hv : match tokens_per_second log_entry with
               | Some tps => if Py.truthy tps then tps else 0%float
               | None => 0%float
               end = 0%float).
  { destruct (tokens_per_second log_entry) as [tps |]; [|reflexivity].
    cbn [default from_option id] in Htps. unfold Py.truthy. rewrite Htps. reflexivity. }
  rewrite Hv. unfold triggered. rewrite Hop. cbn [String.eqb Ascii.eqb Bool.eqb andb].
  rewrite Hth. reflexivity.
Qed.

Lemma null_throughput_trips_low_rule_witness :
  rule_event (db Examples.fresh) (Examples.log_with 300 (Some "boom"%string))
    {| rule_id := 2; name := "Low Tokens/Sec Alert"; metric := "tokens_per_second";
       threshold := 10; operator := "lt"; is_active := true |}
  = Some {| ev_rule_id := 2;
            ev_rule_name := "Low Tokens/Sec Alert";
            ev_metric_value := 0%float;
            ev_threshold := 10%float;
            ev_message :=
              alert_message
                {| rule_id := 2; name := "Low Tokens/Sec Alert"; metric := "tokens_per_second";
                   threshold := 10; operator := "lt"; is_active := true |} 0%float |}.
Proof.
  apply (null_throughput_trips_low_rule (db Examples.fresh)
           (Examples.log_with 300 (Some "boom"%string))
           {| rule_id := 2; name := "Low Tokens/Sec Alert"; metric := "tokens_per_second";
              threshold := 10; operator := "lt"; is_active := true |});
    reflexivity.
Defined.

Lemma inactive_rule_creates_no_event_witness :
  let off := {| rule_id := 1; name := "High Latency Alert"; metric := "latency";
                threshold := 5000; operator := "gt"; is_active := false |} in
  let on := {| rule_id := 2; name := "Low Tokens/Sec Alert"; metric := "tokens_per_second";
               threshold := 10; operator := "lt"; is_active := true |} in
  let store := {| logs := nil; rules := off :: on :: nil; events := nil |} in
  events (check_alert_rules store (Examples.log_with 9000 None))
  = events store ++ events_of_rules store (Examples.log_with 9000 None) nil
                 ++ events_of_rules store (Examples.log_with 9000 None) (on :: nil).
Proof.
  cbn zeta.
  apply (inactive_rule_creates_no_event
           {| logs := nil;
              rules := {| rule_id := 1; name := "High Latency Alert"; metric := "latency";
                          threshold := 5000; operator := "gt"; is_active := false |}
                       :: {| rule_id := 2; name := "Low Tokens/Sec Alert";
                             metric := "tokens_per_second";
                             threshold := 10; operator := "lt"; is_active := true |} :: nil;
              events := nil |}
           (Examples.log_with 9000 None)
           {| rule_id := 1; name := "High Latency Alert"; metric := "latency";
              threshold := 5000; operator := "gt"; is_active := false |}
           nil
           ({| rule_id := 2; name := "Low Tokens/Sec Alert"; metric := "tokens_per_second";
               threshold := 10; operator := "lt"; is_active := true |} :: nil));
    reflexivity.
Defined.

Lemma latency_rule_compares_integers_witness :
  let rule := {| rule_id := 1; name := "High Latency Alert"; metric := "latency";
                 threshold := 5000; operator := "gt"; is_active := true |} in
  let log_entry := Examples.log_with 6000 None in
  (operator rule = "gt"%string ->
   (is_Some (rule_event (db Examples.fresh) log_entry rule) <-> 5000 < latency_ms log_entry))
  /\ (operator rule = "lt"%string ->
      (is_Some (rule_event (db Examples.fresh) log_entry rule) <-> latency_ms log_entry < 5000))
  /\ (operator rule = "eq"%string ->
      (is_Some (rule_event (db Examples.fresh) log_entry rule) <-> latency_ms log_entry = 5000)).
Proof.
  cbn zeta.
  apply (latency_rule_compares_integers (db Examples.fresh) (Examples.log_with 6000 None)
           {| rule_id := 1; name := "High Latency Alert"; metric := "latency";
              threshold := 5000; operator := "gt"; is_active := true |} 5000).
  - reflexivity.
  - reflexivity.
  - split; [discriminate | reflexivity].
  - split; [discriminate | reflexivity].
Defined.

Lemma error_rate_rule_fires_above_a_tenth_witness :
  let rule := {| rule_id := 3; name := "High Error Rate Alert"; metric := "error_rate";
                 threshold := 10; operator := "gt"; is_active := true |} in
  let store := {| logs := Examples.log_with 300 (Some "boom"%string) :: Examples.log_with 100 None :: nil;
                  rules := default_rules; events := nil |} in
  is_Some (rule_event store (Examples.log_with 100 None) rule)
  <-> Z.of_nat (List.length (query_recent store 10)) < 10 * error_count (query_recent store 10).
Proof.
  cbn zeta.
  apply (error_rate_rule_fires_above_a_tenth
           {| logs := Examples.log_with 300 (Some "boom"%string) :: Examples.log_with 100 None :: nil;
              rules := default_rules; events := nil |}
           (Examples.log_with 100 None)
           {| rule_id := 3; name := "High Error Rate Alert"; metric := "error_rate";
              threshold := 10; operator := "gt"; is_active := true |});
    reflexivity.
Defined.

Lemma backend_failure_answers_500_witness :
  let result := proxy_chat_completions Examples.lmstudio_url Examples.unreachable Examples.clock
                  (inr Examples.plain_request) Examples.fresh in
  let e := RequestError "All connection attempts failed" in
  exists status detail r1 r2,
    reraise e = HTTPException status detail
    /\ fst result = Failure 500 ("Unexpected error: " +:+ Str.of_int status +:+ ": " +:+ detail)
    /\ (forall msg, e = RequestError msg ->
          status = 503 /\ detail = "Connection error to local LLM: " +:+ exn_str e)
    /\ (forall code msg, e = HTTPStatusError code msg ->
          status = code /\ detail = "LLM API error: " +:+ exn_str e)
    /\ logs (db (snd result)) = logs (db Examples.fresh) ++ r1 :: r2 :: nil
    /\ model_name r1 = default "unknown"%string (body_model Examples.plain_request)
    /\ error_message r1 = Some (exn_str e)
    /\ model_name r2 = "unknown"%string
    /\ error_message r2 = Some ("Unexpected error: " +:+ Str.of_int status +:+ ": " +:+ detail).
Proof.
  cbn zeta.
  apply (backend_failure_answers_500 Examples.lmstudio_url Examples.unreachable Examples.clock
           Examples.plain_request Examples.fresh (RequestError "All connection attempts failed"));
    reflexivity.
Defined.

